(** * A shallow embedding of the NES emulator core

    The development follows the C++ sources one struct at a time:
    [MapperMMC3] (mapper_mmc3.cpp), [PPU] (ppu.cpp), [Input] (input.h),
    [APU] (the status register of apu.cpp), [Bus] (bus.cpp), [CPU]
    (cpu.cpp) and the inner loop of [NES::runFrame] (nes.cpp).

    Conventions.
    - A [uintN_t] is a [Z] in [0, 2^N); every place where the C++ truncates
      is written out with [u8], [u16], [u32] or [u64].
    - A C array or [std::vector] is a [list Z]; an access outside the list
      is undefined behaviour in C++ and [None] here, so every function that
      indexes memory lives in the [option] monad.
    - Pointers between the components ([Bus::ppu], [PPU::cart], ...) all
      reach the objects owned by the [NES] session, so the shared objects
      are fields of one machine record and every method is a function on
      the part of the machine it can reach. *)

From Stdlib Require Import ZArith Lia Bool List.
From stdpp Require Import base option list.

Local Open Scope Z_scope.

(** ** Machine integers and arrays *)

Definition u8 (x : Z) : Z := x mod 256.
Definition u16 (x : Z) : Z := x mod 65536.
Definition u32 (x : Z) : Z := x mod 4294967296.
Definition u64 (x : Z) : Z := x mod 18446744073709551616.

(** [(int8_t)x] for a byte [x]. *)
Definition s8 (x : Z) : Z := if u8 x <? 128 then u8 x else u8 x - 256.

(** [INT_MAX] of the 32-bit [int] the sources use for counters. *)
Definition INT_MAX : Z := 2147483647.

(** [(x & mask) != 0] *)
Definition bit_set (x mask : Z) : bool := negb (Z.land x mask =? 0).

(** [x & ~mask] on a [w]-bit unsigned value: the mask is complemented inside
    the width, as integer promotion followed by truncation does. *)
Definition clear_bits (x mask : Z) : Z := Z.land x (Z.lnot mask).

(** [a[i]] for reading: [None] outside the array. *)
Definition rd_at (l : list Z) (i : Z) : option Z :=
  if 0 <=? i then l !! Z.to_nat i else None.

(** [a[i] = x]: [None] outside the array. *)
Definition wr_at (l : list Z) (i : Z) (x : Z) : option (list Z) :=
  if (0 <=? i) && (i <? Z.of_nat (length l))
  then Some (<[Z.to_nat i := x]> l) else None.

(** [std::memset(a, x, sizeof a)] *)
Definition memset (l : list Z) (x : Z) : list Z := repeat x (length l).

(** The result of a computation on [int]: signed overflow is undefined. *)
Definition sint (x : Z) : option Z :=
  if (- INT_MAX - 1 <=? x) && (x <=? INT_MAX) then Some x else None.

(** [for (int i = 0; i < n; ++i) body], threading the state [s]. *)
Definition upto (n : Z) : list Z := map Z.of_nat (seq 0 (Z.to_nat n)).

Definition forM {S : Type} (l : list Z) (body : S -> Z -> option S) (s : S)
  : option S :=
  fold_left (fun acc i => s' ← acc; body s' i) l (Some s).

(** ** The mapper interface (mapper.h)

    [Mapper] is an abstract base class; the bus and the PPU only call its
    virtual methods.  The reads of all three implementations in the
    repository leave the mapper unchanged, so a read returns a byte only. *)

Module Mapper.
Class ops (M : Type) := {
    cpuRead : M -> Z -> option Z;
    cpuWrite : M -> Z -> Z -> option M;
    ppuRead : M -> Z -> option Z;
    ppuWrite : M -> Z -> Z -> option M;
    mirroring : M -> Z;
    irqPending : M -> bool;
    irqAck : M -> M;
    ppuA12Clock : M -> bool -> M;
    ppuOnScanlineDot260 : M -> bool -> M
  }.
End Mapper.

(** ** MMC3 (mapper_mmc3.h, mapper_mmc3.cpp) *)

Module MapperMMC3.

Record state := mk {
    prg : list Z;
    chr : list Z;
    prgRAM : list Z;
    chrIsRAM : bool;
    mir : Z;
    bankSelect : Z;
    bank : list Z;
    prgMode : bool;
    chrMode : bool;
    prgRAMEnable : Z;
    irqLatch : Z;
    irqCounter : Z;
    irqEnable : bool;
    irqReload : bool;
    irqFlag : bool;
    prevA12 : bool;
    a12LowCycles : Z;
    sawRiseThisLine : bool
  }.

Definition set_chr x m := mk (prg m) x (prgRAM m) (chrIsRAM m) (mir m) (bankSelect m) (bank m) (prgMode m) (chrMode m) (prgRAMEnable m) (irqLatch m) (irqCounter m) (irqEnable m) (irqReload m) (irqFlag m) (prevA12 m) (a12LowCycles m) (sawRiseThisLine m).
Definition set_prgRAM x m := mk (prg m) (chr m) x (chrIsRAM m) (mir m) (bankSelect m) (bank m) (prgMode m) (chrMode m) (prgRAMEnable m) (irqLatch m) (irqCounter m) (irqEnable m) (irqReload m) (irqFlag m) (prevA12 m) (a12LowCycles m) (sawRiseThisLine m).
Definition set_mir x m := mk (prg m) (chr m) (prgRAM m) (chrIsRAM m) x (bankSelect m) (bank m) (prgMode m) (chrMode m) (prgRAMEnable m) (irqLatch m) (irqCounter m) (irqEnable m) (irqReload m) (irqFlag m) (prevA12 m) (a12LowCycles m) (sawRiseThisLine m).
Definition set_select sel pm cm m := mk (prg m) (chr m) (prgRAM m) (chrIsRAM m) (mir m) sel (bank m) pm cm (prgRAMEnable m) (irqLatch m) (irqCounter m) (irqEnable m) (irqReload m) (irqFlag m) (prevA12 m) (a12LowCycles m) (sawRiseThisLine m).
Definition set_bank x m := mk (prg m) (chr m) (prgRAM m) (chrIsRAM m) (mir m) (bankSelect m) x (prgMode m) (chrMode m) (prgRAMEnable m) (irqLatch m) (irqCounter m) (irqEnable m) (irqReload m) (irqFlag m) (prevA12 m) (a12LowCycles m) (sawRiseThisLine m).
Definition set_prgRAMEnable x m := mk (prg m) (chr m) (prgRAM m) (chrIsRAM m) (mir m) (bankSelect m) (bank m) (prgMode m) (chrMode m) x (irqLatch m) (irqCounter m) (irqEnable m) (irqReload m) (irqFlag m) (prevA12 m) (a12LowCycles m) (sawRiseThisLine m).
Definition set_irqLatch x m := mk (prg m) (chr m) (prgRAM m) (chrIsRAM m) (mir m) (bankSelect m) (bank m) (prgMode m) (chrMode m) (prgRAMEnable m) x (irqCounter m) (irqEnable m) (irqReload m) (irqFlag m) (prevA12 m) (a12LowCycles m) (sawRiseThisLine m).
Definition set_irqCounter x m := mk (prg m) (chr m) (prgRAM m) (chrIsRAM m) (mir m) (bankSelect m) (bank m) (prgMode m) (chrMode m) (prgRAMEnable m) (irqLatch m) x (irqEnable m) (irqReload m) (irqFlag m) (prevA12 m) (a12LowCycles m) (sawRiseThisLine m).
Definition set_irqEnable x m := mk (prg m) (chr m) (prgRAM m) (chrIsRAM m) (mir m) (bankSelect m) (bank m) (prgMode m) (chrMode m) (prgRAMEnable m) (irqLatch m) (irqCounter m) x (irqReload m) (irqFlag m) (prevA12 m) (a12LowCycles m) (sawRiseThisLine m).
Definition set_irqReload x m := mk (prg m) (chr m) (prgRAM m) (chrIsRAM m) (mir m) (bankSelect m) (bank m) (prgMode m) (chrMode m) (prgRAMEnable m) (irqLatch m) (irqCounter m) (irqEnable m) x (irqFlag m) (prevA12 m) (a12LowCycles m) (sawRiseThisLine m).
Definition set_irqFlag x m := mk (prg m) (chr m) (prgRAM m) (chrIsRAM m) (mir m) (bankSelect m) (bank m) (prgMode m) (chrMode m) (prgRAMEnable m) (irqLatch m) (irqCounter m) (irqEnable m) (irqReload m) x (prevA12 m) (a12LowCycles m) (sawRiseThisLine m).
Definition set_prevA12 x m := mk (prg m) (chr m) (prgRAM m) (chrIsRAM m) (mir m) (bankSelect m) (bank m) (prgMode m) (chrMode m) (prgRAMEnable m) (irqLatch m) (irqCounter m) (irqEnable m) (irqReload m) (irqFlag m) x (a12LowCycles m) (sawRiseThisLine m).
Definition set_a12LowCycles x m := mk (prg m) (chr m) (prgRAM m) (chrIsRAM m) (mir m) (bankSelect m) (bank m) (prgMode m) (chrMode m) (prgRAMEnable m) (irqLatch m) (irqCounter m) (irqEnable m) (irqReload m) (irqFlag m) (prevA12 m) x (sawRiseThisLine m).
Definition set_sawRiseThisLine x m := mk (prg m) (chr m) (prgRAM m) (chrIsRAM m) (mir m) (bankSelect m) (bank m) (prgMode m) (chrMode m) (prgRAMEnable m) (irqLatch m) (irqCounter m) (irqEnable m) (irqReload m) (irqFlag m) (prevA12 m) (a12LowCycles m) x.

(** [static inline uint32_t prgBankAddr(prg, bank, off)].  All the
      arithmetic is on [uint32_t]; [% (uint32_t)prg.size()] divides by zero
      when the truncated size is zero. *)
Definition prgBankAddr (prg : list Z) (bank off : Z) : option Z :=
    if (Z.of_nat (length prg) =? 0) then Some 0
    else
      let size32 := u32 (Z.of_nat (length prg)) in
      let bankCount := size32 / 0x2000 in
      let b := if bankCount =? 0 then 0 else bank mod bankCount in
      if size32 =? 0 then None
      else Some (u32 (b * 0x2000 + Z.land off 0x1FFF) mod size32).

(** The constructor. *)
Definition make (prg_ chr_ : list Z) (mir_ prgRamKB : Z) : state :=
    let isRAM := bool_decide (chr_ = []) in
    {| prg := prg_;
       chr := if isRAM then repeat 0 (Z.to_nat (8 * 1024)) else chr_;
       prgRAM := repeat 0 (Z.to_nat (if prgRamKB =? 0 then 8 * 1024
                                     else u32 (prgRamKB * 1024)));
       chrIsRAM := isRAM;
       mir := mir_;
       bankSelect := 0;
       bank := repeat 0 8;
       prgMode := false; chrMode := false;
       prgRAMEnable := 0x80;
       irqLatch := 0; irqCounter := 0;
       irqEnable := false; irqReload := false; irqFlag := false;
       prevA12 := false; a12LowCycles := 0; sawRiseThisLine := false |}.

(** [prg[prgBankAddr(prg, bank, off)]] *)
Definition rdPrg (m : state) (bank off : Z) : option Z :=
    i ← prgBankAddr (prg m) bank off; rd_at (prg m) i.

Definition cpuRead (m : state) (a : Z) : option Z :=
    if (0x6000 <=? a) && (a <? 0x8000) then rd_at (prgRAM m) (a - 0x6000)
    else if 0x8000 <=? a then
      let off := Z.land a 0x1FFF in
      bank6 ← rd_at (bank m) 6;
      bank7 ← rd_at (bank m) 7;
      let b6 := Z.land bank6 0x3F in
      let b7 := Z.land bank7 0x3F in
      let last := u32 (u32 (Z.of_nat (length (prg m))) / 0x2000 - 1) in
      if negb (prgMode m) then
        if a <? 0xA000 then rdPrg m b6 off
        else if a <? 0xC000 then rdPrg m b7 off
        else if a <? 0xE000 then rdPrg m (u32 (last - 1)) off
        else rdPrg m last off
      else
        if a <? 0xA000 then rdPrg m (u32 (last - 1)) off
        else if a <? 0xC000 then rdPrg m b7 off
        else if a <? 0xE000 then rdPrg m b6 off
        else rdPrg m last off
    else Some 0xFF.

Definition cpuWrite (m : state) (a v : Z) : option state :=
    if (0x6000 <=? a) && (a <? 0x8000) then
      if bit_set (prgRAMEnable m) 0x80 && (Z.land (prgRAMEnable m) 0x40 =? 0)
      then r ← wr_at (prgRAM m) (a - 0x6000) v; Some (set_prgRAM r m)
      else Some m
    else if a <? 0x8000 then Some m
    else
      let r := Z.land a 0xE001 in
      if r =? 0x8000 then
        Some (set_select (Z.land v 0x07) (bit_set v 0x40) (bit_set v 0x80) m)
      else if r =? 0x8001 then
        let idx := Z.land (bankSelect m) 7 in
        let val := if idx <=? 1 then Z.land v 0xFE else v in
        b ← wr_at (bank m) idx val; Some (set_bank b m)
      else if r =? 0xA000 then
        Some (set_mir (if bit_set v 1 then 0 else 1) m)
      else if r =? 0xA001 then Some (set_prgRAMEnable v m)
      else if r =? 0xC000 then Some (set_irqLatch v m)
      else if r =? 0xC001 then Some (set_irqReload true m)
      else if r =? 0xE000 then Some (set_irqFlag false (set_irqEnable false m))
      else if r =? 0xE001 then Some (set_irqEnable true m)
      else Some m.

(** The index computed by the lambdas [rd1k]/[wr1k] and [rd2k]/[wr2k]:
      a [uint32_t] sum reduced modulo [chr.size()] (a [size_t]); the
      modulus is zero for an empty vector. *)
Definition chrIndex (m : state) (i32 : Z) : option Z :=
    if Z.of_nat (length (chr m)) =? 0 then None
    else Some (i32 mod Z.of_nat (length (chr m))).

Definition idx1k (m : state) (b o : Z) : option Z :=
    chrIndex m (u32 (b * 0x0400 + Z.land o 0x03FF)).
Definition idx2k (m : state) (bEven o : Z) : option Z :=
    let base := u32 (Z.land bEven 0xFE * 0x0400) in
    chrIndex m (u32 (base + Z.land o 0x07FF)).

Definition rd1k (m : state) (b o : Z) : option Z :=
    i ← idx1k m b o; rd_at (chr m) i.
Definition rd2k (m : state) (bEven o : Z) : option Z :=
    i ← idx2k m bEven o; rd_at (chr m) i.

Definition ppuRead (m : state) (a : Z) : option Z :=
    if 0x2000 <=? a then Some 0
    else if negb (chrMode m) then
      if a <? 0x0800 then b ← rd_at (bank m) 0; rd2k m b (Z.land a 0x07FF)
      else if a <? 0x1000 then b ← rd_at (bank m) 1; rd2k m b (Z.land a 0x07FF)
      else
        let idx := u8 (2 + Z.shiftr (a - 0x1000) 10) in
        b ← rd_at (bank m) idx; rd1k m b (Z.land a 0x03FF)
    else
      if a <? 0x1000 then
        let idx := u8 (2 + Z.shiftr a 10) in
        b ← rd_at (bank m) idx; rd1k m b (Z.land a 0x03FF)
      else if a <? 0x1800 then b ← rd_at (bank m) 0; rd2k m b (Z.land a 0x07FF)
      else b ← rd_at (bank m) 1; rd2k m b (Z.land a 0x07FF).

Definition wr1k (m : state) (b o val : Z) : option state :=
    i ← idx1k m b o; c ← wr_at (chr m) i val; Some (set_chr c m).
Definition wr2k (m : state) (bEven o val : Z) : option state :=
    i ← idx2k m bEven o; c ← wr_at (chr m) i val; Some (set_chr c m).

Definition ppuWrite (m : state) (a v : Z) : option state :=
    if (0x2000 <=? a) || negb (chrIsRAM m) then Some m
    else if negb (chrMode m) then
      if a <? 0x0800 then b ← rd_at (bank m) 0; wr2k m b (Z.land a 0x07FF) v
      else if a <? 0x1000 then b ← rd_at (bank m) 1; wr2k m b (Z.land a 0x07FF) v
      else b ← rd_at (bank m) (2 + Z.shiftr (a - 0x1000) 10);
           wr1k m b (Z.land a 0x03FF) v
    else
      if a <? 0x1000 then
        b ← rd_at (bank m) (2 + Z.shiftr a 10); wr1k m b (Z.land a 0x03FF) v
      else if a <? 0x1800 then b ← rd_at (bank m) 0; wr2k m b (Z.land a 0x07FF) v
      else b ← rd_at (bank m) 1; wr2k m b (Z.land a 0x07FF) v.

(** The counter rule shared by [ppuA12Clock] and [ppuOnScanlineDot260]:
      reload, or reload at zero, or decrement; then raise the flag at zero
      when enabled. *)
Definition clockCounter (m : state) : state :=
    let m1 :=
      if irqReload m then set_irqReload false (set_irqCounter (irqLatch m) m)
      else if irqCounter m =? 0 then set_irqCounter (irqLatch m) m
      else set_irqCounter (u8 (irqCounter m - 1)) m in
    if (irqCounter m1 =? 0) && irqEnable m1 then set_irqFlag true m1 else m1.

Definition ppuA12Clock (m : state) (level : bool) : state :=
    let m1 :=
      if negb level then
        if a12LowCycles m <? 64 then set_a12LowCycles (a12LowCycles m + 1) m
        else m
      else
        let m2 :=
          if negb (prevA12 m) then
            if 8 <=? a12LowCycles m
            then set_sawRiseThisLine true (clockCounter m)
            else m
          else m in
        set_a12LowCycles 0 m2 in
    set_prevA12 level m1.

Definition ppuOnScanlineDot260 (m : state) (rendering : bool) : state :=
    if negb rendering then set_sawRiseThisLine false m
    else
      let m1 := if negb (sawRiseThisLine m) then clockCounter m else m in
      set_sawRiseThisLine false m1.

Definition mirroring (m : state) : Z := mir m.
Definition irqPending (m : state) : bool := irqFlag m.
Definition irqAck (m : state) : state := set_irqFlag false m.

#[global] Instance mapper : Mapper.ops state := {|
    Mapper.cpuRead := cpuRead;
    Mapper.cpuWrite := cpuWrite;
    Mapper.ppuRead := ppuRead;
    Mapper.ppuWrite := ppuWrite;
    Mapper.mirroring := mirroring;
    Mapper.irqPending := irqPending;
    Mapper.irqAck := irqAck;
    Mapper.ppuA12Clock := ppuA12Clock;
    Mapper.ppuOnScanlineDot260 := ppuOnScanlineDot260 |}.

(** [n] dots with A12 low, then one dot with A12 high: one rising edge
      after a low phase of [n] dots. *)
Fixpoint a12Low (n : nat) (m : state) : state :=
    match n with
    | O => m
    | S k => a12Low k (ppuA12Clock m false)
    end.

Definition a12Rise (m : state) (n : nat) : state :=
    ppuA12Clock (a12Low n m) true.

(** A train of rising edges, the [i]-th after [lows !! i] low dots. *)
Definition a12Edges (lows : list nat) (m : state) : state :=
    fold_left a12Rise lows m.

(** The class invariant of the struct: [bank] is a [std::array] of eight
      bytes, and the low-time counter is only ever zeroed or incremented. *)
Definition wf (m : state) : Prop :=
    length (bank m) = 8%nat /\ 0 <= a12LowCycles m.

End MapperMMC3.

(** ** The cartridge (cartridge.h)

    [Cartridge::mapper] is a [shared_ptr] that may be null; the four bus
    methods dereference it without a check. *)

Module Cartridge.
Section WithMapper.
Context {M : Type} `{Mapper.ops M}.

Record state := mk { mapper : option M; mirroring : Z }.

Definition set_mapper (x : option M) (c : state) : state :=
      mk x (mirroring c).

Definition cpuRead (c : state) (a : Z) : option Z :=
      m ← mapper c; Mapper.cpuRead m a.
Definition cpuWrite (c : state) (a val : Z) : option state :=
      m ← mapper c; m' ← Mapper.cpuWrite m a val; Some (set_mapper (Some m') c).
Definition ppuRead (c : state) (a : Z) : option Z :=
      m ← mapper c; Mapper.ppuRead m a.
Definition ppuWrite (c : state) (a val : Z) : option state :=
      m ← mapper c; m' ← Mapper.ppuWrite m a val; Some (set_mapper (Some m') c).

(** [if (cart && cart->mapper) cart->mapper->f(...)]: the guarded calls
        of the PPU into the mapper. *)
Definition onMapper (f : M -> M) (c : option state) : option state :=
      match c with
      | Some c' =>
          match mapper c' with
          | Some m => Some (set_mapper (Some (f m)) c')
          | None => c
          end
      | None => None
      end.
End WithMapper.
Arguments state M : clear implicits.
End Cartridge.

(** ** The PPU (ppu.h, ppu.cpp) *)

Module PPU.

Definition WIDTH : Z := 256.
Definition HEIGHT : Z := 240.

Record state := mk {
    vram : list Z;
    oam : list Z;
    secOAM : list Z;
    secCount : Z;
    palette : list Z;
    PPUCTRL : Z;
    PPUMASK : Z;
    PPUSTATUS : Z;
    OAMADDR : Z;
    v : Z;
    t : Z;
    fineX : Z;
    addrLatch : bool;
    vramReadBuffer : Z;
    scanline : Z;
    dot : Z;
    frame_odd : bool;
    a12ThisDot : bool;
    nmi_occurred : bool;
    framebuffer : list Z;
    lineBG : list Z;
    lineSPColIdx : list Z;
    lineSPPrio : list Z;
    lineSP0Mask : list Z;
    lineBGPix : list Z;
    lineSPPix : list Z;
    bgShiftLo : Z;
    bgShiftHi : Z;
    attrShiftLo : Z;
    attrShiftHi : Z;
    ntLatch : Z;
    atLatch : Z;
    patLoLatch : Z;
    patHiLatch : Z;
    curChrAddr : Z
  }.

Definition set_vram x s := mk x (oam s) (secOAM s) (secCount s) (palette s)
    (PPUCTRL s) (PPUMASK s) (PPUSTATUS s) (OAMADDR s) (v s) (t s) (fineX s)
    (addrLatch s) (vramReadBuffer s) (scanline s) (dot s) (frame_odd s)
    (a12ThisDot s) (nmi_occurred s) (framebuffer s) (lineBG s) (lineSPColIdx
    s) (lineSPPrio s) (lineSP0Mask s) (lineBGPix s) (lineSPPix s) (bgShiftLo
    s) (bgShiftHi s) (attrShiftLo s) (attrShiftHi s) (ntLatch s) (atLatch s)
    (patLoLatch s) (patHiLatch s) (curChrAddr s).
Definition set_oam x s := mk (vram s) x (secOAM s) (secCount s) (palette s)
    (PPUCTRL s) (PPUMASK s) (PPUSTATUS s) (OAMADDR s) (v s) (t s) (fineX s)
    (addrLatch s) (vramReadBuffer s) (scanline s) (dot s) (frame_odd s)
    (a12ThisDot s) (nmi_occurred s) (framebuffer s) (lineBG s) (lineSPColIdx
    s) (lineSPPrio s) (lineSP0Mask s) (lineBGPix s) (lineSPPix s) (bgShiftLo
    s) (bgShiftHi s) (attrShiftLo s) (attrShiftHi s) (ntLatch s) (atLatch s)
    (patLoLatch s) (patHiLatch s) (curChrAddr s).
Definition set_secOAM x s := mk (vram s) (oam s) x (secCount s) (palette s)
    (PPUCTRL s) (PPUMASK s) (PPUSTATUS s) (OAMADDR s) (v s) (t s) (fineX s)
    (addrLatch s) (vramReadBuffer s) (scanline s) (dot s) (frame_odd s)
    (a12ThisDot s) (nmi_occurred s) (framebuffer s) (lineBG s) (lineSPColIdx
    s) (lineSPPrio s) (lineSP0Mask s) (lineBGPix s) (lineSPPix s) (bgShiftLo
    s) (bgShiftHi s) (attrShiftLo s) (attrShiftHi s) (ntLatch s) (atLatch s)
    (patLoLatch s) (patHiLatch s) (curChrAddr s).
Definition set_secCount x s := mk (vram s) (oam s) (secOAM s) x (palette s)
    (PPUCTRL s) (PPUMASK s) (PPUSTATUS s) (OAMADDR s) (v s) (t s) (fineX s)
    (addrLatch s) (vramReadBuffer s) (scanline s) (dot s) (frame_odd s)
    (a12ThisDot s) (nmi_occurred s) (framebuffer s) (lineBG s) (lineSPColIdx
    s) (lineSPPrio s) (lineSP0Mask s) (lineBGPix s) (lineSPPix s) (bgShiftLo
    s) (bgShiftHi s) (attrShiftLo s) (attrShiftHi s) (ntLatch s) (atLatch s)
    (patLoLatch s) (patHiLatch s) (curChrAddr s).
Definition set_palette x s := mk (vram s) (oam s) (secOAM s) (secCount s) x
    (PPUCTRL s) (PPUMASK s) (PPUSTATUS s) (OAMADDR s) (v s) (t s) (fineX s)
    (addrLatch s) (vramReadBuffer s) (scanline s) (dot s) (frame_odd s)
    (a12ThisDot s) (nmi_occurred s) (framebuffer s) (lineBG s) (lineSPColIdx
    s) (lineSPPrio s) (lineSP0Mask s) (lineBGPix s) (lineSPPix s) (bgShiftLo
    s) (bgShiftHi s) (attrShiftLo s) (attrShiftHi s) (ntLatch s) (atLatch s)
    (patLoLatch s) (patHiLatch s) (curChrAddr s).
Definition set_PPUCTRL x s := mk (vram s) (oam s) (secOAM s) (secCount s)
    (palette s) x (PPUMASK s) (PPUSTATUS s) (OAMADDR s) (v s) (t s) (fineX s)
    (addrLatch s) (vramReadBuffer s) (scanline s) (dot s) (frame_odd s)
    (a12ThisDot s) (nmi_occurred s) (framebuffer s) (lineBG s) (lineSPColIdx
    s) (lineSPPrio s) (lineSP0Mask s) (lineBGPix s) (lineSPPix s) (bgShiftLo
    s) (bgShiftHi s) (attrShiftLo s) (attrShiftHi s) (ntLatch s) (atLatch s)
    (patLoLatch s) (patHiLatch s) (curChrAddr s).
Definition set_PPUMASK x s := mk (vram s) (oam s) (secOAM s) (secCount s)
    (palette s) (PPUCTRL s) x (PPUSTATUS s) (OAMADDR s) (v s) (t s) (fineX s)
    (addrLatch s) (vramReadBuffer s) (scanline s) (dot s) (frame_odd s)
    (a12ThisDot s) (nmi_occurred s) (framebuffer s) (lineBG s) (lineSPColIdx
    s) (lineSPPrio s) (lineSP0Mask s) (lineBGPix s) (lineSPPix s) (bgShiftLo
    s) (bgShiftHi s) (attrShiftLo s) (attrShiftHi s) (ntLatch s) (atLatch s)
    (patLoLatch s) (patHiLatch s) (curChrAddr s).
Definition set_PPUSTATUS x s := mk (vram s) (oam s) (secOAM s) (secCount s)
    (palette s) (PPUCTRL s) (PPUMASK s) x (OAMADDR s) (v s) (t s) (fineX s)
    (addrLatch s) (vramReadBuffer s) (scanline s) (dot s) (frame_odd s)
    (a12ThisDot s) (nmi_occurred s) (framebuffer s) (lineBG s) (lineSPColIdx
    s) (lineSPPrio s) (lineSP0Mask s) (lineBGPix s) (lineSPPix s) (bgShiftLo
    s) (bgShiftHi s) (attrShiftLo s) (attrShiftHi s) (ntLatch s) (atLatch s)
    (patLoLatch s) (patHiLatch s) (curChrAddr s).
Definition set_OAMADDR x s := mk (vram s) (oam s) (secOAM s) (secCount s)
    (palette s) (PPUCTRL s) (PPUMASK s) (PPUSTATUS s) x (v s) (t s) (fineX s)
    (addrLatch s) (vramReadBuffer s) (scanline s) (dot s) (frame_odd s)
    (a12ThisDot s) (nmi_occurred s) (framebuffer s) (lineBG s) (lineSPColIdx
    s) (lineSPPrio s) (lineSP0Mask s) (lineBGPix s) (lineSPPix s) (bgShiftLo
    s) (bgShiftHi s) (attrShiftLo s) (attrShiftHi s) (ntLatch s) (atLatch s)
    (patLoLatch s) (patHiLatch s) (curChrAddr s).
Definition set_v x s := mk (vram s) (oam s) (secOAM s) (secCount s) (palette
    s) (PPUCTRL s) (PPUMASK s) (PPUSTATUS s) (OAMADDR s) x (t s) (fineX s)
    (addrLatch s) (vramReadBuffer s) (scanline s) (dot s) (frame_odd s)
    (a12ThisDot s) (nmi_occurred s) (framebuffer s) (lineBG s) (lineSPColIdx
    s) (lineSPPrio s) (lineSP0Mask s) (lineBGPix s) (lineSPPix s) (bgShiftLo
    s) (bgShiftHi s) (attrShiftLo s) (attrShiftHi s) (ntLatch s) (atLatch s)
    (patLoLatch s) (patHiLatch s) (curChrAddr s).
Definition set_t x s := mk (vram s) (oam s) (secOAM s) (secCount s) (palette
    s) (PPUCTRL s) (PPUMASK s) (PPUSTATUS s) (OAMADDR s) (v s) x (fineX s)
    (addrLatch s) (vramReadBuffer s) (scanline s) (dot s) (frame_odd s)
    (a12ThisDot s) (nmi_occurred s) (framebuffer s) (lineBG s) (lineSPColIdx
    s) (lineSPPrio s) (lineSP0Mask s) (lineBGPix s) (lineSPPix s) (bgShiftLo
    s) (bgShiftHi s) (attrShiftLo s) (attrShiftHi s) (ntLatch s) (atLatch s)
    (patLoLatch s) (patHiLatch s) (curChrAddr s).
Definition set_fineX x s := mk (vram s) (oam s) (secOAM s) (secCount s)
    (palette s) (PPUCTRL s) (PPUMASK s) (PPUSTATUS s) (OAMADDR s) (v s) (t s)
    x (addrLatch s) (vramReadBuffer s) (scanline s) (dot s) (frame_odd s)
    (a12ThisDot s) (nmi_occurred s) (framebuffer s) (lineBG s) (lineSPColIdx
    s) (lineSPPrio s) (lineSP0Mask s) (lineBGPix s) (lineSPPix s) (bgShiftLo
    s) (bgShiftHi s) (attrShiftLo s) (attrShiftHi s) (ntLatch s) (atLatch s)
    (patLoLatch s) (patHiLatch s) (curChrAddr s).
Definition set_addrLatch x s := mk (vram s) (oam s) (secOAM s) (secCount s)
    (palette s) (PPUCTRL s) (PPUMASK s) (PPUSTATUS s) (OAMADDR s) (v s) (t s)
    (fineX s) x (vramReadBuffer s) (scanline s) (dot s) (frame_odd s)
    (a12ThisDot s) (nmi_occurred s) (framebuffer s) (lineBG s) (lineSPColIdx
    s) (lineSPPrio s) (lineSP0Mask s) (lineBGPix s) (lineSPPix s) (bgShiftLo
    s) (bgShiftHi s) (attrShiftLo s) (attrShiftHi s) (ntLatch s) (atLatch s)
    (patLoLatch s) (patHiLatch s) (curChrAddr s).
Definition set_vramReadBuffer x s := mk (vram s) (oam s) (secOAM s) (secCount
    s) (palette s) (PPUCTRL s) (PPUMASK s) (PPUSTATUS s) (OAMADDR s) (v s) (t
    s) (fineX s) (addrLatch s) x (scanline s) (dot s) (frame_odd s)
    (a12ThisDot s) (nmi_occurred s) (framebuffer s) (lineBG s) (lineSPColIdx
    s) (lineSPPrio s) (lineSP0Mask s) (lineBGPix s) (lineSPPix s) (bgShiftLo
    s) (bgShiftHi s) (attrShiftLo s) (attrShiftHi s) (ntLatch s) (atLatch s)
    (patLoLatch s) (patHiLatch s) (curChrAddr s).
Definition set_scanline x s := mk (vram s) (oam s) (secOAM s) (secCount s)
    (palette s) (PPUCTRL s) (PPUMASK s) (PPUSTATUS s) (OAMADDR s) (v s) (t s)
    (fineX s) (addrLatch s) (vramReadBuffer s) x (dot s) (frame_odd s)
    (a12ThisDot s) (nmi_occurred s) (framebuffer s) (lineBG s) (lineSPColIdx
    s) (lineSPPrio s) (lineSP0Mask s) (lineBGPix s) (lineSPPix s) (bgShiftLo
    s) (bgShiftHi s) (attrShiftLo s) (attrShiftHi s) (ntLatch s) (atLatch s)
    (patLoLatch s) (patHiLatch s) (curChrAddr s).
Definition set_dot x s := mk (vram s) (oam s) (secOAM s) (secCount s) (palette
    s) (PPUCTRL s) (PPUMASK s) (PPUSTATUS s) (OAMADDR s) (v s) (t s) (fineX s)
    (addrLatch s) (vramReadBuffer s) (scanline s) x (frame_odd s) (a12ThisDot
    s) (nmi_occurred s) (framebuffer s) (lineBG s) (lineSPColIdx s)
    (lineSPPrio s) (lineSP0Mask s) (lineBGPix s) (lineSPPix s) (bgShiftLo s)
    (bgShiftHi s) (attrShiftLo s) (attrShiftHi s) (ntLatch s) (atLatch s)
    (patLoLatch s) (patHiLatch s) (curChrAddr s).
Definition set_frame_odd x s := mk (vram s) (oam s) (secOAM s) (secCount s)
    (palette s) (PPUCTRL s) (PPUMASK s) (PPUSTATUS s) (OAMADDR s) (v s) (t s)
    (fineX s) (addrLatch s) (vramReadBuffer s) (scanline s) (dot s) x
    (a12ThisDot s) (nmi_occurred s) (framebuffer s) (lineBG s) (lineSPColIdx
    s) (lineSPPrio s) (lineSP0Mask s) (lineBGPix s) (lineSPPix s) (bgShiftLo
    s) (bgShiftHi s) (attrShiftLo s) (attrShiftHi s) (ntLatch s) (atLatch s)
    (patLoLatch s) (patHiLatch s) (curChrAddr s).
Definition set_a12ThisDot x s := mk (vram s) (oam s) (secOAM s) (secCount s)
    (palette s) (PPUCTRL s) (PPUMASK s) (PPUSTATUS s) (OAMADDR s) (v s) (t s)
    (fineX s) (addrLatch s) (vramReadBuffer s) (scanline s) (dot s) (frame_odd
    s) x (nmi_occurred s) (framebuffer s) (lineBG s) (lineSPColIdx s)
    (lineSPPrio s) (lineSP0Mask s) (lineBGPix s) (lineSPPix s) (bgShiftLo s)
    (bgShiftHi s) (attrShiftLo s) (attrShiftHi s) (ntLatch s) (atLatch s)
    (patLoLatch s) (patHiLatch s) (curChrAddr s).
Definition set_nmi_occurred x s := mk (vram s) (oam s) (secOAM s) (secCount s)
    (palette s) (PPUCTRL s) (PPUMASK s) (PPUSTATUS s) (OAMADDR s) (v s) (t s)
    (fineX s) (addrLatch s) (vramReadBuffer s) (scanline s) (dot s) (frame_odd
    s) (a12ThisDot s) x (framebuffer s) (lineBG s) (lineSPColIdx s)
    (lineSPPrio s) (lineSP0Mask s) (lineBGPix s) (lineSPPix s) (bgShiftLo s)
    (bgShiftHi s) (attrShiftLo s) (attrShiftHi s) (ntLatch s) (atLatch s)
    (patLoLatch s) (patHiLatch s) (curChrAddr s).
Definition set_framebuffer x s := mk (vram s) (oam s) (secOAM s) (secCount s)
    (palette s) (PPUCTRL s) (PPUMASK s) (PPUSTATUS s) (OAMADDR s) (v s) (t s)
    (fineX s) (addrLatch s) (vramReadBuffer s) (scanline s) (dot s) (frame_odd
    s) (a12ThisDot s) (nmi_occurred s) x (lineBG s) (lineSPColIdx s)
    (lineSPPrio s) (lineSP0Mask s) (lineBGPix s) (lineSPPix s) (bgShiftLo s)
    (bgShiftHi s) (attrShiftLo s) (attrShiftHi s) (ntLatch s) (atLatch s)
    (patLoLatch s) (patHiLatch s) (curChrAddr s).
Definition set_lineBG x s := mk (vram s) (oam s) (secOAM s) (secCount s)
    (palette s) (PPUCTRL s) (PPUMASK s) (PPUSTATUS s) (OAMADDR s) (v s) (t s)
    (fineX s) (addrLatch s) (vramReadBuffer s) (scanline s) (dot s) (frame_odd
    s) (a12ThisDot s) (nmi_occurred s) (framebuffer s) x (lineSPColIdx s)
    (lineSPPrio s) (lineSP0Mask s) (lineBGPix s) (lineSPPix s) (bgShiftLo s)
    (bgShiftHi s) (attrShiftLo s) (attrShiftHi s) (ntLatch s) (atLatch s)
    (patLoLatch s) (patHiLatch s) (curChrAddr s).
Definition set_lineSPColIdx x s := mk (vram s) (oam s) (secOAM s) (secCount s)
    (palette s) (PPUCTRL s) (PPUMASK s) (PPUSTATUS s) (OAMADDR s) (v s) (t s)
    (fineX s) (addrLatch s) (vramReadBuffer s) (scanline s) (dot s) (frame_odd
    s) (a12ThisDot s) (nmi_occurred s) (framebuffer s) (lineBG s) x
    (lineSPPrio s) (lineSP0Mask s) (lineBGPix s) (lineSPPix s) (bgShiftLo s)
    (bgShiftHi s) (attrShiftLo s) (attrShiftHi s) (ntLatch s) (atLatch s)
    (patLoLatch s) (patHiLatch s) (curChrAddr s).
Definition set_lineSPPrio x s := mk (vram s) (oam s) (secOAM s) (secCount s)
    (palette s) (PPUCTRL s) (PPUMASK s) (PPUSTATUS s) (OAMADDR s) (v s) (t s)
    (fineX s) (addrLatch s) (vramReadBuffer s) (scanline s) (dot s) (frame_odd
    s) (a12ThisDot s) (nmi_occurred s) (framebuffer s) (lineBG s)
    (lineSPColIdx s) x (lineSP0Mask s) (lineBGPix s) (lineSPPix s) (bgShiftLo
    s) (bgShiftHi s) (attrShiftLo s) (attrShiftHi s) (ntLatch s) (atLatch s)
    (patLoLatch s) (patHiLatch s) (curChrAddr s).
Definition set_lineSP0Mask x s := mk (vram s) (oam s) (secOAM s) (secCount s)
    (palette s) (PPUCTRL s) (PPUMASK s) (PPUSTATUS s) (OAMADDR s) (v s) (t s)
    (fineX s) (addrLatch s) (vramReadBuffer s) (scanline s) (dot s) (frame_odd
    s) (a12ThisDot s) (nmi_occurred s) (framebuffer s) (lineBG s)
    (lineSPColIdx s) (lineSPPrio s) x (lineBGPix s) (lineSPPix s) (bgShiftLo
    s) (bgShiftHi s) (attrShiftLo s) (attrShiftHi s) (ntLatch s) (atLatch s)
    (patLoLatch s) (patHiLatch s) (curChrAddr s).
Definition set_lineBGPix x s := mk (vram s) (oam s) (secOAM s) (secCount s)
    (palette s) (PPUCTRL s) (PPUMASK s) (PPUSTATUS s) (OAMADDR s) (v s) (t s)
    (fineX s) (addrLatch s) (vramReadBuffer s) (scanline s) (dot s) (frame_odd
    s) (a12ThisDot s) (nmi_occurred s) (framebuffer s) (lineBG s)
    (lineSPColIdx s) (lineSPPrio s) (lineSP0Mask s) x (lineSPPix s) (bgShiftLo
    s) (bgShiftHi s) (attrShiftLo s) (attrShiftHi s) (ntLatch s) (atLatch s)
    (patLoLatch s) (patHiLatch s) (curChrAddr s).
Definition set_lineSPPix x s := mk (vram s) (oam s) (secOAM s) (secCount s)
    (palette s) (PPUCTRL s) (PPUMASK s) (PPUSTATUS s) (OAMADDR s) (v s) (t s)
    (fineX s) (addrLatch s) (vramReadBuffer s) (scanline s) (dot s) (frame_odd
    s) (a12ThisDot s) (nmi_occurred s) (framebuffer s) (lineBG s)
    (lineSPColIdx s) (lineSPPrio s) (lineSP0Mask s) (lineBGPix s) x (bgShiftLo
    s) (bgShiftHi s) (attrShiftLo s) (attrShiftHi s) (ntLatch s) (atLatch s)
    (patLoLatch s) (patHiLatch s) (curChrAddr s).
Definition set_bgShiftLo x s := mk (vram s) (oam s) (secOAM s) (secCount s)
    (palette s) (PPUCTRL s) (PPUMASK s) (PPUSTATUS s) (OAMADDR s) (v s) (t s)
    (fineX s) (addrLatch s) (vramReadBuffer s) (scanline s) (dot s) (frame_odd
    s) (a12ThisDot s) (nmi_occurred s) (framebuffer s) (lineBG s)
    (lineSPColIdx s) (lineSPPrio s) (lineSP0Mask s) (lineBGPix s) (lineSPPix
    s) x (bgShiftHi s) (attrShiftLo s) (attrShiftHi s) (ntLatch s) (atLatch s)
    (patLoLatch s) (patHiLatch s) (curChrAddr s).
Definition set_bgShiftHi x s := mk (vram s) (oam s) (secOAM s) (secCount s)
    (palette s) (PPUCTRL s) (PPUMASK s) (PPUSTATUS s) (OAMADDR s) (v s) (t s)
    (fineX s) (addrLatch s) (vramReadBuffer s) (scanline s) (dot s) (frame_odd
    s) (a12ThisDot s) (nmi_occurred s) (framebuffer s) (lineBG s)
    (lineSPColIdx s) (lineSPPrio s) (lineSP0Mask s) (lineBGPix s) (lineSPPix
    s) (bgShiftLo s) x (attrShiftLo s) (attrShiftHi s) (ntLatch s) (atLatch s)
    (patLoLatch s) (patHiLatch s) (curChrAddr s).
Definition set_attrShiftLo x s := mk (vram s) (oam s) (secOAM s) (secCount s)
    (palette s) (PPUCTRL s) (PPUMASK s) (PPUSTATUS s) (OAMADDR s) (v s) (t s)
    (fineX s) (addrLatch s) (vramReadBuffer s) (scanline s) (dot s) (frame_odd
    s) (a12ThisDot s) (nmi_occurred s) (framebuffer s) (lineBG s)
    (lineSPColIdx s) (lineSPPrio s) (lineSP0Mask s) (lineBGPix s) (lineSPPix
    s) (bgShiftLo s) (bgShiftHi s) x (attrShiftHi s) (ntLatch s) (atLatch s)
    (patLoLatch s) (patHiLatch s) (curChrAddr s).
Definition set_attrShiftHi x s := mk (vram s) (oam s) (secOAM s) (secCount s)
    (palette s) (PPUCTRL s) (PPUMASK s) (PPUSTATUS s) (OAMADDR s) (v s) (t s)
    (fineX s) (addrLatch s) (vramReadBuffer s) (scanline s) (dot s) (frame_odd
    s) (a12ThisDot s) (nmi_occurred s) (framebuffer s) (lineBG s)
    (lineSPColIdx s) (lineSPPrio s) (lineSP0Mask s) (lineBGPix s) (lineSPPix
    s) (bgShiftLo s) (bgShiftHi s) (attrShiftLo s) x (ntLatch s) (atLatch s)
    (patLoLatch s) (patHiLatch s) (curChrAddr s).
Definition set_ntLatch x s := mk (vram s) (oam s) (secOAM s) (secCount s)
    (palette s) (PPUCTRL s) (PPUMASK s) (PPUSTATUS s) (OAMADDR s) (v s) (t s)
    (fineX s) (addrLatch s) (vramReadBuffer s) (scanline s) (dot s) (frame_odd
    s) (a12ThisDot s) (nmi_occurred s) (framebuffer s) (lineBG s)
    (lineSPColIdx s) (lineSPPrio s) (lineSP0Mask s) (lineBGPix s) (lineSPPix
    s) (bgShiftLo s) (bgShiftHi s) (attrShiftLo s) (attrShiftHi s) x (atLatch
    s) (patLoLatch s) (patHiLatch s) (curChrAddr s).
Definition set_atLatch x s := mk (vram s) (oam s) (secOAM s) (secCount s)
    (palette s) (PPUCTRL s) (PPUMASK s) (PPUSTATUS s) (OAMADDR s) (v s) (t s)
    (fineX s) (addrLatch s) (vramReadBuffer s) (scanline s) (dot s) (frame_odd
    s) (a12ThisDot s) (nmi_occurred s) (framebuffer s) (lineBG s)
    (lineSPColIdx s) (lineSPPrio s) (lineSP0Mask s) (lineBGPix s) (lineSPPix
    s) (bgShiftLo s) (bgShiftHi s) (attrShiftLo s) (attrShiftHi s) (ntLatch s)
    x (patLoLatch s) (patHiLatch s) (curChrAddr s).
Definition set_patLoLatch x s := mk (vram s) (oam s) (secOAM s) (secCount s)
    (palette s) (PPUCTRL s) (PPUMASK s) (PPUSTATUS s) (OAMADDR s) (v s) (t s)
    (fineX s) (addrLatch s) (vramReadBuffer s) (scanline s) (dot s) (frame_odd
    s) (a12ThisDot s) (nmi_occurred s) (framebuffer s) (lineBG s)
    (lineSPColIdx s) (lineSPPrio s) (lineSP0Mask s) (lineBGPix s) (lineSPPix
    s) (bgShiftLo s) (bgShiftHi s) (attrShiftLo s) (attrShiftHi s) (ntLatch s)
    (atLatch s) x (patHiLatch s) (curChrAddr s).
Definition set_patHiLatch x s := mk (vram s) (oam s) (secOAM s) (secCount s)
    (palette s) (PPUCTRL s) (PPUMASK s) (PPUSTATUS s) (OAMADDR s) (v s) (t s)
    (fineX s) (addrLatch s) (vramReadBuffer s) (scanline s) (dot s) (frame_odd
    s) (a12ThisDot s) (nmi_occurred s) (framebuffer s) (lineBG s)
    (lineSPColIdx s) (lineSPPrio s) (lineSP0Mask s) (lineBGPix s) (lineSPPix
    s) (bgShiftLo s) (bgShiftHi s) (attrShiftLo s) (attrShiftHi s) (ntLatch s)
    (atLatch s) (patLoLatch s) x (curChrAddr s).
Definition set_curChrAddr x s := mk (vram s) (oam s) (secOAM s) (secCount s)
    (palette s) (PPUCTRL s) (PPUMASK s) (PPUSTATUS s) (OAMADDR s) (v s) (t s)
    (fineX s) (addrLatch s) (vramReadBuffer s) (scanline s) (dot s) (frame_odd
    s) (a12ThisDot s) (nmi_occurred s) (framebuffer s) (lineBG s)
    (lineSPColIdx s) (lineSPPrio s) (lineSP0Mask s) (lineBGPix s) (lineSPPix
    s) (bgShiftLo s) (bgShiftHi s) (attrShiftLo s) (attrShiftHi s) (ntLatch s)
    (atLatch s) (patLoLatch s) (patHiLatch s) x.

(** The NTSC palette table: 64 packed colours. *)
Definition kNesPalette : list Z :=
    [ 0xFF666666; 0xFF002A88; 0xFF1412A7; 0xFF3B00A4; 0xFF5C007E; 0xFF6E0040;
      0xFF6C0700; 0xFF561D00; 0xFF333500; 0xFF0B4800; 0xFF005200; 0xFF004F08;
      0xFF00404D; 0xFF000000; 0xFF000000; 0xFF000000; 0xFFADADAD; 0xFF155FD9;
      0xFF4240FF; 0xFF7527FE; 0xFFA01ACC; 0xFFB71E7B; 0xFFB53120; 0xFF994E00;
      0xFF6B6D00; 0xFF388700; 0xFF0E9300; 0xFF008F32; 0xFF007C8D; 0xFF000000;
      0xFF000000; 0xFF000000; 0xFFFFFFFF; 0xFF64B0FF; 0xFF9290FF; 0xFFC676FF;
      0xFFF36CFF; 0xFFFF6EBC; 0xFFFF7D6A; 0xFFEA9E22; 0xFFBCBE00; 0xFF88D800;
      0xFF5CE430; 0xFF45E082; 0xFF48CDDE; 0xFF4F4F4F; 0xFF000000; 0xFF000000;
      0xFFFFFFFF; 0xFFC0E0FF; 0xFFD3D2FF; 0xFFE8C8FF; 0xFFFBC2FF; 0xFFFFC4EA;
      0xFFFFC9C9; 0xFFF2D3A6; 0xFFE5DE8A; 0xFFCCEA8E; 0xFFB7F4A5; 0xFFA9F4C7;
      0xFFA7E9EE; 0xFFA8A8A8; 0xFF000000; 0xFF000000 ].

(** The default member initialisers of [struct PPU]. *)
Definition init : state :=
    {| vram := repeat 0 4096; oam := repeat 0 256; secOAM := repeat 0 32;
       secCount := 0; palette := repeat 0 32;
       PPUCTRL := 0; PPUMASK := 0; PPUSTATUS := 0; OAMADDR := 0;
       v := 0; t := 0; fineX := 0; addrLatch := false; vramReadBuffer := 0;
       scanline := 261; dot := 0; frame_odd := false; a12ThisDot := false;
       nmi_occurred := false;
       framebuffer := repeat 0 (Z.to_nat (WIDTH * HEIGHT));
       lineBG := repeat 0 256; lineSPColIdx := repeat 0 256;
       lineSPPrio := repeat 0 256; lineSP0Mask := repeat 0 256;
       lineBGPix := repeat 0 256; lineSPPix := repeat 0 256;
       bgShiftLo := 0; bgShiftHi := 0; attrShiftLo := 0; attrShiftHi := 0;
       ntLatch := 0; atLatch := 0; patLoLatch := 0; patHiLatch := 0;
       curChrAddr := 0 |}.

(** The array sizes fixed by the struct declaration. *)
Definition wf (p : state) : Prop :=
  length (vram p) = 4096%nat /\ length (oam p) = 256%nat /\
  length (secOAM p) = 32%nat /\ length (palette p) = 32%nat /\
  length (framebuffer p) = Z.to_nat (WIDTH * HEIGHT) /\
  length (lineBG p) = 256%nat /\ length (lineSPColIdx p) = 256%nat /\
  length (lineSPPrio p) = 256%nat /\ length (lineSP0Mask p) = 256%nat /\
  length (lineBGPix p) = 256%nat /\ length (lineSPPix p) = 256%nat.

Definition nmi_output (p : state) : bool := bit_set (PPUCTRL p) 0x80.
Definition incrementVRAMAddr (p : state) : Z :=
    if bit_set (PPUCTRL p) 0x04 then 32 else 1.
Definition renderingEnabled (p : state) : bool := bit_set (PPUMASK p) 0x18.
Definition copyHorizontal (p : state) : state :=
    set_v (u16 (Z.lor (Z.land (v p) 0x7BE0) (Z.land (t p) 0x041F))) p.
Definition copyVertical (p : state) : state :=
    set_v (u16 (Z.lor (Z.land (v p) 0x041F) (Z.land (t p) 0x7BE0))) p.
Definition universalIndex (p : state) : option Z :=
    b ← rd_at (palette p) 0; Some (Z.land b 0x3F).
Definition reloadAttrShifters (pal2 : Z) (p : state) : state :=
    let lo := if bit_set pal2 1 then 0x00FF else 0x0000 in
    let hi := if bit_set pal2 2 then 0x00FF else 0x0000 in
    set_attrShiftHi (Z.lor (Z.land (attrShiftHi p) 0xFF00) hi)
      (set_attrShiftLo (Z.lor (Z.land (attrShiftLo p) 0xFF00) lo) p).

(** [mapNT]: a nametable address to an offset into [vram]. *)
Definition mapNT (a mir : Z) : Z :=
    let nt := Z.land (a - 0x2000) 0x0FFF in
    let table := Z.shiftr nt 10 in
    let off := Z.land nt 0x03FF in
    if mir =? 0 then (if bit_set table 2 then 0x400 else 0x000) + off
    else if mir =? 1 then (if bit_set table 1 then 0x400 else 0x000) + off
    else if mir =? 2 then 0x000 + off
    else if mir =? 3 then 0x400 + off
    else if mir =? 4 then table * 0x400 + off
    else (if bit_set table 1 then 0x400 else 0x000) + off.

(** The palette index of an address in $3F00..$3FFF, with $10/$14/$18/$1C
      folded onto $00/$04/$08/$0C. *)
Definition paletteIndex (addr : Z) : Z :=
    let p := Z.land (addr - 0x3F00) 0x1F in
    if Z.land p 0x13 =? 0x10 then clear_bits p 0x10 else p.

Section WithMapper.
Context {M : Type} `{Mapper.ops M}.

(** The PPU reaches the cartridge through [PPU::cart]; the same object
        is reached by the bus, so it is passed in and handed back. *)
Let cart : Type := option (Cartridge.state M).

(** [cart && cart->mapper ? cart->mapper->mirroring() : cart->mirroring] *)
Definition mirroringOf (c : cart) : option Z :=
      match c with
      | Some c' =>
          match Cartridge.mapper c' with
          | Some m => Some (Mapper.mirroring m)
          | None => Some (Cartridge.mirroring c')
          end
      | None => None
      end.

Definition ppuRead (c : cart) (p : state) (addr : Z) : option Z :=
      let addr := Z.land addr 0x3FFF in
      m ← mirroringOf c;
      if addr <? 0x2000 then c' ← c; Cartridge.ppuRead c' addr
      else if addr <? 0x3F00 then rd_at (vram p) (mapNT addr m)
      else if addr <? 0x4000 then
        b ← rd_at (palette p) (paletteIndex addr); Some (Z.land b 0x3F)
      else Some 0.

Definition ppuWrite (c : cart) (p : state) (addr val : Z)
      : option (cart * state) :=
      let addr := Z.land addr 0x3FFF in
      m ← mirroringOf c;
      if addr <? 0x2000 then
        c' ← c; c'' ← Cartridge.ppuWrite c' addr val; Some (Some c'', p)
      else if addr <? 0x3F00 then
        r ← wr_at (vram p) (mapNT addr m) val; Some (c, set_vram r p)
      else if addr <? 0x4000 then
        r ← wr_at (palette p) (paletteIndex addr) val; Some (c, set_palette r p)
      else Some (c, p).

Definition cpuReadRegister (c : cart) (p : state) (addr : Z)
      : option (Z * state) :=
      let r := Z.land addr 7 in
      if r =? 2 then
        let ret := PPUSTATUS p in
        Some (ret, set_nmi_occurred false
                     (set_addrLatch false
                        (set_PPUSTATUS (clear_bits (PPUSTATUS p) 0x80) p)))
      else if r =? 4 then b ← rd_at (oam p) (OAMADDR p); Some (b, p)
      else if r =? 7 then
        let ret := vramReadBuffer p in
        b ← ppuRead c p (v p);
        let p1 := set_vramReadBuffer b p in
        let ret := if 0x3F00 <=? Z.land (v p1) 0x3FFF
                   then vramReadBuffer p1 else ret in
        Some (ret, set_v (u16 (Z.land (v p1 + incrementVRAMAddr p1) 0x7FFF)) p1)
      else Some (0, p).

Definition cpuWriteRegister (c : cart) (p : state) (addr val : Z)
      : option (cart * state) :=
      let r := Z.land addr 7 in
      if r =? 0 then
        Some (c, set_t (u16 (Z.lor (Z.land (t p) 0xF3FF)
                               (Z.shiftl (Z.land val 3) 10)))
                   (set_PPUCTRL val p))
      else if r =? 1 then Some (c, set_PPUMASK val p)
      else if r =? 3 then Some (c, set_OAMADDR val p)
      else if r =? 4 then
        o ← wr_at (oam p) (OAMADDR p) val;
        Some (c, set_OAMADDR (u8 (OAMADDR p + 1)) (set_oam o p))
      else if r =? 5 then
        if negb (addrLatch p) then
          Some (c, set_addrLatch true
                     (set_t (u16 (Z.lor (Z.land (t p) 0x7FE0)
                                    (Z.land (Z.shiftr val 3) 0x1F)))
                        (set_fineX (Z.land val 7) p)))
        else
          Some (c, set_addrLatch false
                     (set_t (u16 (Z.lor (Z.lor (Z.land (t p) 0x0C1F)
                                           (Z.shiftl (Z.land val 0x07) 12))
                                    (Z.shiftl (Z.land val 0xF8) 2))) p))
      else if r =? 6 then
        if negb (addrLatch p) then
          Some (c, set_addrLatch true
                     (set_t (u16 (Z.lor (Z.land (t p) 0x00FF)
                                    (Z.shiftl (Z.land val 0x3F) 8))) p))
        else
          let p1 := set_t (u16 (Z.lor (Z.land (t p) 0x7F00) val)) p in
          Some (c, set_addrLatch false (set_v (t p1) p1))
      else if r =? 7 then
        '(c1, p1) ← ppuWrite c p (v p) val;
        Some (c1, set_v (u16 (Z.land (v p1 + incrementVRAMAddr p1) 0x7FFF)) p1)
      else Some (c, p).
End WithMapper.

(** [oamDMA(fetch256)].  The callback is a closure over the bus: calling
      it may change anything the bus reaches, the PPU included, so the loop
      runs on a world [W] that contains the PPU ([get]/[put]). *)
Section OamDMA.
Context {W : Type} (get : W -> state) (put : state -> W -> W).
Context (fetch256 : Z -> W -> option (Z * W)).

Definition oamDMAStep (start : Z) (w : W) (i : Z) : option W :=
  '(b, w1) ← fetch256 (u8 i) w;
  o ← wr_at (oam (get w1)) (u8 (start + i)) b;
  Some (put (set_oam o (get w1)) w1).

Definition oamDMA (w : W) : option W :=
  let start := OAMADDR (get w) in
  forM (upto 256) (oamDMAStep start) w.
End OamDMA.

Definition setVBlank (p : state) : state :=
  set_nmi_occurred true (set_PPUSTATUS (Z.lor (PPUSTATUS p) 0x80) p).
Definition clearVBlank (p : state) : state :=
  set_nmi_occurred false (set_PPUSTATUS (clear_bits (PPUSTATUS p) 0x80) p).

Definition resetFrameState (p : state) : state :=
  set_lineSP0Mask (memset (lineSP0Mask p) 0)
    (set_lineSPPrio (memset (lineSPPrio p) 0)
       (set_lineSPPix (memset (lineSPPix p) 0)
          (set_lineSPColIdx (memset (lineSPColIdx p) 0)
             (set_lineBGPix (memset (lineBGPix p) 0)
                (set_lineBG (memset (lineBG p) 0) p))))).

Definition startScanline (p : state) : state :=
  let p1 :=
    if scanline p =? 261 then
      let q := clearVBlank p in
      let q := set_PPUSTATUS (clear_bits (PPUSTATUS q) 0x40) q in
      set_PPUSTATUS (clear_bits (PPUSTATUS q) 0x20) q
    else p in
  let p2 := resetFrameState p1 in
  set_secOAM (memset (secOAM p2) 0xFF) (set_secCount 0 p2).

(** One iteration of the pixel loop of [endScanline]. *)
Definition endScanlinePixel (p : state) (x : Z) : option state :=
  let showBG := bit_set (PPUMASK p) 0x08 in
  let showSP := bit_set (PPUMASK p) 0x10 in
  let bgLeft8 := bit_set (PPUMASK p) 0x02 in
  let spLeft8 := bit_set (PPUMASK p) 0x04 in
  let bgMasked := negb bgLeft8 && (x <? 8) in
  let spMasked := negb spLeft8 && (x <? 8) in
  bgCol ← (if showBG && negb bgMasked then rd_at (lineBG p) x
           else universalIndex p);
  bgRaw ← (if showBG && negb bgMasked then rd_at (lineBGPix p) x else Some 0);
  spCol ← (if showSP && negb spMasked then rd_at (lineSPColIdx p) x
           else Some 0);
  spRaw ← (if showSP && negb spMasked then rd_at (lineSPPix p) x else Some 0);
  prio ← rd_at (lineSPPrio p) x;
  let behind := negb (prio =? 0) in
  let out := if negb (spRaw =? 0) && (negb behind || (bgRaw =? 0))
             then spCol else bgCol in
  rgba ← rd_at kNesPalette out;
  fb ← wr_at (framebuffer p) (scanline p * WIDTH + x) rgba;
  let p1 := set_framebuffer fb p in
  sp0 ← rd_at (lineSP0Mask p1) x;
  if negb (sp0 =? 0) && negb (bgRaw =? 0) && negb (spRaw =? 0) then
    let bgLeftOK := bgLeft8 || (8 <=? x) in
    let spLeftOK := spLeft8 || (8 <=? x) in
    if showBG && showSP && bgLeftOK && spLeftOK
    then Some (set_PPUSTATUS (Z.lor (PPUSTATUS p1) 0x40) p1)
    else Some p1
  else Some p1.

Definition endScanline (p : state) : option state :=
  if (0 <=? scanline p) && (scanline p <? HEIGHT)
  then forM (upto WIDTH) endScanlinePixel p
  else Some p.

(** [std::memcpy(&dst[d], &src[s], 4)] *)
Definition memcpy4 (dst : list Z) (d : Z) (src : list Z) (s : Z)
  : option (list Z) :=
  b0 ← rd_at src s; b1 ← rd_at src (s + 1);
  b2 ← rd_at src (s + 2); b3 ← rd_at src (s + 3);
  r0 ← wr_at dst d b0; r1 ← wr_at r0 (d + 1) b1;
  r2 ← wr_at r1 (d + 2) b2; wr_at r2 (d + 3) b3.

(** [scanline >= top && scanline < top + sprH] with [top = y + 1]. *)
Definition spriteOnLine (line sprH y : Z) : bool :=
  let top := y + 1 in (top <=? line) && (line <? top + sprH).

(** One iteration of the selection loop of [evaluateSpritesWindow]; the
    loop condition [found < 8] is tested first, so nothing is read once
    eight sprites are found. *)
Definition evaluateSprite (p : state) (sprH : Z) (acc : list Z * Z) (i : Z)
  : option (list Z * Z) :=
  let '(sec, found) := acc in
  if found <? 8 then
    y ← rd_at (oam p) (i * 4 + 0);
    if spriteOnLine (scanline p) sprH y then
      sec' ← memcpy4 sec (found * 4) (oam p) (i * 4);
      Some (sec', found + 1)
    else Some acc
  else Some acc.

Definition evaluateSpritesWindow (p : state) : option state :=
  if (scanline p <? 0) || (HEIGHT <=? scanline p) then Some p
  else
    let p1 := if secCount p =? 0
              then set_secOAM (memset (secOAM p) 0xFF) p else p in
    let sprH := if bit_set (PPUCTRL p1) 0x20 then 16 else 8 in
    '(sec, found) ← forM (upto 64) (evaluateSprite p1 sprH) (secOAM p1, 0);
    let p2 := set_secCount found (set_secOAM sec p1) in
    if 8 <=? found
    then Some (set_PPUSTATUS (Z.lor (PPUSTATUS p2) 0x20) p2)
    else Some p2.

Section Rendering.
Context {M : Type} `{Mapper.ops M}.
Let cart : Type := option (Cartridge.state M).

(** The lambda [fetchRow] of [renderSpritesForLine]. *)
Definition fetchRow (c : cart) (p : state) (sprH tile row : Z) (flipV : bool)
  : option (Z * Z * state) :=
  let base :=
    if sprH =? 16 then
      let tableSel := Z.land tile 1 in
      let topTile := Z.land tile 0xFE in
      let r := if flipV then 15 - row else row in
      if r <? 8 then
        u16 ((if negb (tableSel =? 0) then 0x1000 else 0x0000)
             + u16 topTile * 16 + r)
      else
        u16 ((if negb (tableSel =? 0) then 0x1000 else 0x0000)
             + u16 (topTile + 1) * 16 + (r - 8))
    else
      let r := if flipV then 7 - row else row in
      u16 ((if bit_set (PPUCTRL p) 0x08 then 0x1000 else 0x0000)
           + u16 tile * 16 + r) in
  let p1 := set_curChrAddr base p in
  p0 ← ppuRead c p1 base;
  let p2 := set_curChrAddr (u16 (base + 8)) p1 in
  p1' ← ppuRead c p2 (u16 (base + 8));
  Some (p0, p1', p2).

(** One iteration of the column loop of [renderSpritesForLine]. *)
Definition spritePixel (s x attr p0 p1 : Z) (p : state) (col : Z)
  : option state :=
  let spLeft8 := bit_set (PPUMASK p) 0x04 in
  let flipH := bit_set attr 0x40 in
  let behind := bit_set attr 0x20 in
  let pal := Z.land attr 0x03 in
  let bit := if flipH then col else 7 - col in
  let sx := x + col in
  if (sx <? 0) || (WIDTH <=? sx) then Some p
  else if negb spLeft8 && (sx <? 8) then Some p
  else
    let lo := Z.land (Z.shiftr p0 bit) 1 in
    let hi := Z.land (Z.shiftr p1 bit) 1 in
    let pix := u8 (Z.lor (Z.shiftl hi 1) lo) in
    if pix =? 0 then Some p
    else
      cur ← rd_at (lineSPPix p) sx;
      if negb (cur =? 0) then Some p
      else
        let palIndex := u8 (0x10 + pal * 4 + pix) in
        let palIndex := if Z.land palIndex 0x1F =? 0x10 then 0x00
                        else palIndex in
        e ← rd_at (palette p) (Z.land palIndex 0x1F);
        let idx := Z.land e 0x3F in
        pixs ← wr_at (lineSPPix p) sx pix;
        cols ← wr_at (lineSPColIdx p) sx idx;
        prios ← wr_at (lineSPPrio p) sx (if behind then 1 else 0);
        let q := set_lineSPPrio prios
                   (set_lineSPColIdx cols (set_lineSPPix pixs p)) in
        if s =? 0 then
          mask ← wr_at (lineSP0Mask q) sx 1; Some (set_lineSP0Mask mask q)
        else Some q.

(** One iteration of the sprite loop of [renderSpritesForLine]. *)
Definition renderSprite (c : cart) (sprH : Z) (p : state) (s : Z)
  : option state :=
  y ← rd_at (secOAM p) (s * 4 + 0);
  tile ← rd_at (secOAM p) (s * 4 + 1);
  attr ← rd_at (secOAM p) (s * 4 + 2);
  x ← rd_at (secOAM p) (s * 4 + 3);
  let row := scanline p - (y + 1) in
  if (row <? 0) || (sprH <=? row) then Some p
  else
    let flipV := bit_set attr 0x80 in
    '(p0, p1, q) ← fetchRow c p sprH tile row flipV;
    forM (upto 8) (spritePixel s x attr p0 p1) q.

Definition renderSpritesForLine (c : cart) (p : state) : option state :=
  if (scanline p <? 0) || (HEIGHT <=? scanline p) then Some p
  else
    let showSP := bit_set (PPUMASK p) 0x10 in
    let p1 :=
      set_lineSP0Mask (memset (lineSP0Mask p) 0)
        (set_lineSPPrio (memset (lineSPPrio p) 0)
           (set_lineSPPix (memset (lineSPPix p) 0)
              (set_lineSPColIdx (memset (lineSPColIdx p) 0) p))) in
    if negb showSP then Some p1
    else
      let sprH := if bit_set (PPUCTRL p1) 0x20 then 16 else 8 in
      forM (upto (secCount p1)) (renderSprite c sprH) p1.

(** *** [PPU::tick], one block of the function body per definition *)

(** BG pixel composition: visible lines, dots 1..256. *)
Definition tickPixel (p : state) : option state :=
  if (0 <=? scanline p) && (scanline p <? HEIGHT)
     && (1 <=? dot p) && (dot p <=? 256) then
    let x := dot p - 1 in
    '(bgPix, pal2, p1) ←
      (if bit_set (PPUMASK p) 0x08 then
         if (0 <=? 15 - fineX p) then
           let sh := 15 - fineX p in
           let lo := u8 (Z.land (Z.shiftr (bgShiftLo p) sh) 1) in
           let hi := u8 (Z.land (Z.shiftr (bgShiftHi p) sh) 1) in
           let bgPix := u8 (Z.lor (Z.shiftl hi 1) lo) in
           let alo := u8 (Z.land (Z.shiftr (attrShiftLo p) sh) 1) in
           let ahi := u8 (Z.land (Z.shiftr (attrShiftHi p) sh) 1) in
           let q := set_attrShiftHi (u16 (Z.shiftl (attrShiftHi p) 1))
                      (set_attrShiftLo (u16 (Z.shiftl (attrShiftLo p) 1))
                         (set_bgShiftHi (u16 (Z.shiftl (bgShiftHi p) 1))
                            (set_bgShiftLo (u16 (Z.shiftl (bgShiftLo p) 1))
                               p))) in
           let pal2 := u8 (Z.lor (Z.shiftl ahi 1) alo) in
           let bgPix := if negb (bit_set (PPUMASK p) 0x02) && (x <? 8)
                        then 0 else bgPix in
           Some (bgPix, pal2, q)
         else None
       else Some (0, 0, p));
    pixs ← wr_at (lineBGPix p1) x bgPix;
    let p2 := set_lineBGPix pixs p1 in
    colour ← (if bgPix =? 0 then universalIndex p2
              else e ← rd_at (palette p2) (Z.shiftl pal2 2 + bgPix);
                   Some (Z.land e 0x3F));
    bgs ← wr_at (lineBG p2) x colour;
    Some (set_lineBG bgs p2)
  else Some p.

(** The shifter reload shared by dot 1 and the tile boundary. *)
Definition reloadShifters (p : state) : state :=
  reloadAttrShifters (atLatch p)
    (set_bgShiftHi (Z.lor (Z.land (bgShiftHi p) 0xFF00) (patHiLatch p))
       (set_bgShiftLo (Z.lor (Z.land (bgShiftLo p) 0xFF00) (patLoLatch p)) p)).

Definition tickReload (p : state) : state :=
  if renderingEnabled p && (dot p =? 1) then reloadShifters p else p.

(** BG fetch pipeline: dots 1..256 and 321..340 while rendering. *)
Definition tickFetch (c : cart) (p : state) : option state :=
  let fetchWindow :=
    renderingEnabled p &&
    (((1 <=? dot p) && (dot p <=? 256)) || ((321 <=? dot p) && (dot p <=? 340))) in
  if fetchWindow then
    let fineY := u8 (Z.land (Z.shiftr (v p) 12) 7) in
    let patBase := if bit_set (PPUCTRL p) 0x10 then 0x1000 else 0x0000 in
    let phase := dot p mod 8 in
    if phase =? 1 then
      let ntAddr := u16 (Z.lor 0x2000 (Z.land (v p) 0x0FFF)) in
      b ← ppuRead c p ntAddr; Some (set_ntLatch b p)
    else if phase =? 3 then
      let atAddr :=
        u16 (Z.lor (Z.lor (Z.lor 0x23C0 (Z.land (v p) 0x0C00))
                      (Z.land (Z.shiftr (v p) 4) 0x38))
               (Z.land (Z.shiftr (v p) 2) 0x07)) in
      at_ ← ppuRead c p atAddr;
      let shift := Z.lor (Z.land (Z.shiftr (v p) 5) 2)
                     (Z.land (Z.shiftr (v p) 1) 1) * 2 in
      Some (set_atLatch (u8 (Z.land (Z.shiftr at_ shift) 0x03)) p)
    else if phase =? 5 then
      let p0 := u16 (patBase + ntLatch p * 16 + fineY) in
      let p1 := set_curChrAddr p0 p in
      b ← ppuRead c p1 p0;
      let p2 := set_patLoLatch b p1 in
      Some (if dot p2 <=? 256
            then set_a12ThisDot (a12ThisDot p2 || bit_set p0 0x1000) p2
            else p2)
    else if phase =? 7 then
      let p0 := u16 (patBase + ntLatch p * 16 + fineY + 8) in
      let p1 := set_curChrAddr p0 p in
      b ← ppuRead c p1 p0;
      let p2 := set_patHiLatch b p1 in
      Some (if dot p2 <=? 256
            then set_a12ThisDot (a12ThisDot p2 || bit_set p0 0x1000) p2
            else p2)
    else if phase =? 0 then
      let p1 := reloadShifters p in
      if Z.land (v p1) 0x001F =? 31
      then Some (set_v (u16 (Z.lxor (u16 (clear_bits (v p1) 0x001F)) 0x0400)) p1)
      else Some (set_v (u16 (v p1 + 1)) p1)
    else Some p
  else Some p.

(** The mapper's scanline hook at dot 260 of a visible line. *)
Definition tickScanlineHook (c : cart) (p : state) : cart :=
  if (0 <=? scanline p) && (scanline p <? HEIGHT) && (dot p =? 260)
  then Cartridge.onMapper
         (fun m => Mapper.ppuOnScanlineDot260 m (renderingEnabled p)) c
  else c.

(** The vertical increment of [v] at dot 256. *)
Definition incrementY (p : state) : state :=
  if negb (Z.land (v p) 0x7000 =? 0x7000) then set_v (u16 (v p + 0x1000)) p
  else
    let v1 := u16 (clear_bits (v p) 0x7000) in
    let y := Z.shiftr (Z.land v1 0x03E0) 5 in
    let '(y', v2) :=
      if y =? 29 then (0, u16 (Z.lxor v1 0x0800))
      else if y =? 31 then (0, v1)
      else (u16 (y + 1), v1) in
    set_v (u16 (Z.lor (clear_bits v2 0x03E0) (Z.shiftl y' 5))) p.

(** Sprites on visible lines: evaluation at dot 65, rendering at dot 257,
    and the vertical increment at dot 256. *)
Definition tickSprites (c : cart) (p : state) : option state :=
  if (0 <=? scanline p) && (scanline p <? HEIGHT) then
    p1 ← (if dot p =? 65 then
            evaluateSpritesWindow
              (set_PPUSTATUS (clear_bits (PPUSTATUS p) 0x20)
                 (set_secOAM (memset (secOAM p) 0xFF) (set_secCount 0 p)))
          else Some p);
    p2 ← (if dot p1 =? 257 then renderSpritesForLine c p1 else Some p1);
    Some (if renderingEnabled p2 && (dot p2 =? 256) then incrementY p2 else p2)
  else Some p.

Definition tickCopies (p : state) : state :=
  let p1 := if renderingEnabled p && (dot p =? 257)
            then copyHorizontal p else p in
  if (scanline p1 =? 261) && renderingEnabled p1
     && (280 <=? dot p1) && (dot p1 <=? 304)
  then copyVertical p1 else p1.

(** The odd-frame skip: taken at (261, 339) of an odd frame while
    rendering; the function returns from inside this block. *)
Definition oddFrameSkip (p : state) : bool :=
  (scanline p =? 261) && renderingEnabled p && frame_odd p && (dot p =? 339).

(** The end of the function: advance the dot, enter vblank at (241, 1),
    wrap the line after dot 340. *)
Definition tickAdvance (p : state) : option state :=
  d ← sint (dot p + 1);
  let p1 := set_dot d p in
  let p2 := if (scanline p1 =? 241) && (dot p1 =? 1) then setVBlank p1
            else p1 in
  if 340 <? dot p2 then
    p3 ← endScanline (set_dot 0 p2);
    l ← sint (scanline p3 + 1);
    let p4 := set_scanline l p3 in
    let p5 := if 261 <? scanline p4
              then set_frame_odd (negb (frame_odd p4)) (set_scanline 0 p4)
              else p4 in
    Some (startScanline p5)
  else Some p2.

Definition tick (c : cart) (p : state) : option (cart * state) :=
  let p := set_a12ThisDot false p in
  p ← tickPixel p;
  let p := tickReload p in
  p ← tickFetch c p;
  let c := tickScanlineHook c p in
  p ← tickSprites c p;
  let p := tickCopies p in
  if oddFrameSkip p then
    let c := Cartridge.onMapper (fun m => Mapper.ppuA12Clock m false) c in
    p ← endScanline (set_dot 0 p);
    Some (c, startScanline (set_scanline 0 p))
  else
    p ← tickAdvance p;
    let c := Cartridge.onMapper
               (fun m => Mapper.ppuA12Clock m (a12ThisDot p)) c in
    Some (c, p).
End Rendering.

End PPU.

(** ** Controller 1 (input.h) *)

Module Input.
Record state := mk { shift1 : Z; strobe : Z; padState : Z }.

Definition init : state := {| shift1 := 0; strobe := 0; padState := 0 |}.

Definition setStrobe (i : state) (val : Z) : state :=
  let st := Z.land val 1 in
  mk (if negb (st =? 0) then padState i else shift1 i) st (padState i).

Definition read4016 (i : state) : Z * state :=
  let bit := Z.land (shift1 i) 1 in
  let i1 := if strobe i =? 0
            then mk (u8 (Z.lor (Z.shiftr (shift1 i) 1) 0x80)) (strobe i)
                    (padState i)
            else i in
  (Z.lor bit 0x40, i1).
End Input.

(** ** The APU as the bus and the CPU see it (apu.h)

    The channel generators, the frame sequencer and the mixer compute on
    [float] and [double] and feed the audio device; the bus and the CPU use
    three entry points only, none of which reaches outside the APU.  They
    are the interface over which the rest of the machine is embedded. *)

Module APU.
Class ops (A : Type) := {
  cpuRead : A -> Z -> Z * A;
  cpuWrite : A -> Z -> Z -> A;
  irqLine : A -> bool
}.

(** The fields read and written by [APU::cpuRead] and [APU::irqLine]. *)
Record status := mk {
    pulse1_lengthCtr : Z;
    pulse2_lengthCtr : Z;
    tri_lengthCtr : Z;
    noise_lengthCtr : Z;
    dmc_enabled : bool;
    dmc_bytesLeft : Z;
    frameIRQ : bool;
    dmcIRQ : bool
  }.

Definition set_pulse1_lengthCtr x s := mk x (pulse2_lengthCtr s)
    (tri_lengthCtr s) (noise_lengthCtr s) (dmc_enabled s) (dmc_bytesLeft s)
    (frameIRQ s) (dmcIRQ s).
Definition set_pulse2_lengthCtr x s := mk (pulse1_lengthCtr s) x
    (tri_lengthCtr s) (noise_lengthCtr s) (dmc_enabled s) (dmc_bytesLeft s)
    (frameIRQ s) (dmcIRQ s).
Definition set_tri_lengthCtr x s := mk (pulse1_lengthCtr s) (pulse2_lengthCtr
    s) x (noise_lengthCtr s) (dmc_enabled s) (dmc_bytesLeft s) (frameIRQ s)
    (dmcIRQ s).
Definition set_noise_lengthCtr x s := mk (pulse1_lengthCtr s)
    (pulse2_lengthCtr s) (tri_lengthCtr s) x (dmc_enabled s) (dmc_bytesLeft s)
    (frameIRQ s) (dmcIRQ s).
Definition set_dmc_enabled x s := mk (pulse1_lengthCtr s) (pulse2_lengthCtr s)
    (tri_lengthCtr s) (noise_lengthCtr s) x (dmc_bytesLeft s) (frameIRQ s)
    (dmcIRQ s).
Definition set_dmc_bytesLeft x s := mk (pulse1_lengthCtr s) (pulse2_lengthCtr
    s) (tri_lengthCtr s) (noise_lengthCtr s) (dmc_enabled s) x (frameIRQ s)
    (dmcIRQ s).
Definition set_frameIRQ x s := mk (pulse1_lengthCtr s) (pulse2_lengthCtr s)
    (tri_lengthCtr s) (noise_lengthCtr s) (dmc_enabled s) (dmc_bytesLeft s) x
    (dmcIRQ s).
Definition set_dmcIRQ x s := mk (pulse1_lengthCtr s) (pulse2_lengthCtr s)
    (tri_lengthCtr s) (noise_lengthCtr s) (dmc_enabled s) (dmc_bytesLeft s)
    (frameIRQ s) x.

Definition init : status :=
  {| pulse1_lengthCtr := 0; pulse2_lengthCtr := 0; tri_lengthCtr := 0;
     noise_lengthCtr := 0; dmc_enabled := false; dmc_bytesLeft := 0;
     frameIRQ := false; dmcIRQ := false |}.

(** [APU::cpuRead]: the status byte of $4015; the read clears both IRQ
    flags. *)
Definition statusRead (a : status) (addr : Z) : Z * status :=
  if addr =? 0x4015 then
    let s := 0 in
    let s := if 0 <? pulse1_lengthCtr a then Z.lor s 0x01 else s in
    let s := if 0 <? pulse2_lengthCtr a then Z.lor s 0x02 else s in
    let s := if 0 <? tri_lengthCtr a then Z.lor s 0x04 else s in
    let s := if 0 <? noise_lengthCtr a then Z.lor s 0x08 else s in
    let s := if dmc_enabled a && (0 <? dmc_bytesLeft a)
             then Z.lor s 0x10 else s in
    let s := if frameIRQ a then Z.lor s 0x40 else s in
    let s := if dmcIRQ a then Z.lor s 0x80 else s in
    (s, set_dmcIRQ false (set_frameIRQ false a))
  else (0, a).

Definition statusIrqLine (a : status) : bool := frameIRQ a || dmcIRQ a.

(** An APU none of whose registers is written: the status register of the
    source over a register file that stays as it is. *)
#[global] Instance idle : ops status :=
  {| cpuRead := statusRead; cpuWrite := fun a _ _ => a;
     irqLine := statusIrqLine |}.
End APU.

(** ** The CPU registers and inline members (cpu.h) *)

Module CPU.
Record state := mk {
    A : Z;
    X : Z;
    Y : Z;
    S : Z;
    PC : Z;
    P : Z;
    cycles : Z;
    pending_nmi : bool;
    pending_irq : bool;
    irq_delay : Z;
    dma_stall_cycles : Z
  }.

Definition set_A x s := mk x (X s) (Y s) (S s) (PC s) (P s) (cycles s)
    (pending_nmi s) (pending_irq s) (irq_delay s) (dma_stall_cycles s).
Definition set_X x s := mk (A s) x (Y s) (S s) (PC s) (P s) (cycles s)
    (pending_nmi s) (pending_irq s) (irq_delay s) (dma_stall_cycles s).
Definition set_Y x s := mk (A s) (X s) x (S s) (PC s) (P s) (cycles s)
    (pending_nmi s) (pending_irq s) (irq_delay s) (dma_stall_cycles s).
Definition set_S x s := mk (A s) (X s) (Y s) x (PC s) (P s) (cycles s)
    (pending_nmi s) (pending_irq s) (irq_delay s) (dma_stall_cycles s).
Definition set_PC x s := mk (A s) (X s) (Y s) (S s) x (P s) (cycles s)
    (pending_nmi s) (pending_irq s) (irq_delay s) (dma_stall_cycles s).
Definition set_P x s := mk (A s) (X s) (Y s) (S s) (PC s) x (cycles s)
    (pending_nmi s) (pending_irq s) (irq_delay s) (dma_stall_cycles s).
Definition set_cycles x s := mk (A s) (X s) (Y s) (S s) (PC s) (P s) x
    (pending_nmi s) (pending_irq s) (irq_delay s) (dma_stall_cycles s).
Definition set_pending_nmi x s := mk (A s) (X s) (Y s) (S s) (PC s) (P s)
    (cycles s) x (pending_irq s) (irq_delay s) (dma_stall_cycles s).
Definition set_pending_irq x s := mk (A s) (X s) (Y s) (S s) (PC s) (P s)
    (cycles s) (pending_nmi s) x (irq_delay s) (dma_stall_cycles s).
Definition set_irq_delay x s := mk (A s) (X s) (Y s) (S s) (PC s) (P s)
    (cycles s) (pending_nmi s) (pending_irq s) x (dma_stall_cycles s).
Definition set_dma_stall_cycles x s := mk (A s) (X s) (Y s) (S s) (PC s) (P s)
    (cycles s) (pending_nmi s) (pending_irq s) (irq_delay s) x.

(** The default member initialisers. *)
Definition init : state :=
  {| A := 0; X := 0; Y := 0; S := 0xFD; PC := 0xC000; P := 0x24;
     cycles := 0; pending_nmi := false; pending_irq := false;
     irq_delay := 0; dma_stall_cycles := 0 |}.

(** [enum Flag]: the bit numbers of the status flags. *)
Definition flagC : Z := 0.
Definition flagZ : Z := 1.
Definition flagI : Z := 2.
Definition flagD : Z := 3.
Definition flagB : Z := 4.
Definition flagU : Z := 5.
Definition flagV : Z := 6.
Definition flagN : Z := 7.

Definition getf (f : Z) (c : state) : bool :=
  negb (Z.land (Z.shiftr (P c) f) 1 =? 0).

Definition setf (f : Z) (b : bool) (c : state) : state :=
  if b then set_P (u8 (Z.lor (P c) (Z.shiftl 1 f))) c
  else set_P (u8 (Z.land (P c) (Z.lnot (Z.shiftl 1 f)))) c.

Definition setZN (val : Z) (c : state) : state :=
  setf flagN (bit_set val 0x80) (setf flagZ (val =? 0) c).

Definition nmi (c : state) : state := set_pending_nmi true c.
Definition irq (c : state) : state := set_pending_irq true c.
End CPU.

(** ** The objects owned by the session (nes.h)

    [struct NES] owns the CPU, the PPU, the APU, the controller and the
    cartridge; the 2 KiB of system RAM are a file-level array of bus.cpp.
    [Bus] holds a pointer to each of them and no state of its own. *)

Module Machine.
Section WithParts.
Context {M A : Type}.

Record state := mk {
  cpu : CPU.state;
  ppu : PPU.state;
  apu : A;
  input : option Input.state;
  cart : option (Cartridge.state M);
  sysRAM : list Z;
  nmiLinePrev : bool
}.

Definition set_cpu x s :=
  mk x (ppu s) (apu s) (input s) (cart s) (sysRAM s) (nmiLinePrev s).
Definition set_ppu x s :=
  mk (cpu s) x (apu s) (input s) (cart s) (sysRAM s) (nmiLinePrev s).
Definition set_apu x s :=
  mk (cpu s) (ppu s) x (input s) (cart s) (sysRAM s) (nmiLinePrev s).
Definition set_input x s :=
  mk (cpu s) (ppu s) (apu s) x (cart s) (sysRAM s) (nmiLinePrev s).
Definition set_cart x s :=
  mk (cpu s) (ppu s) (apu s) (input s) x (sysRAM s) (nmiLinePrev s).
Definition set_sysRAM x s :=
  mk (cpu s) (ppu s) (apu s) (input s) (cart s) x (nmiLinePrev s).
Definition set_nmiLinePrev x s :=
  mk (cpu s) (ppu s) (apu s) (input s) (cart s) (sysRAM s) x.
End WithParts.
Arguments state M A : clear implicits.
End Machine.

(** ** The bus (bus.cpp) *)

Module Bus.
Import Machine.
Section WithParts.
Context {M A : Type} `{Mapper.ops M} `{APU.ops A}.
Let state : Type := Machine.state M A.

Definition cpuRead (a : Z) (s : state) : option (Z * state) :=
  if a <? 0x2000 then
    b ← rd_at (sysRAM s) (Z.land a 0x07FF); Some (b, s)
  else if a <? 0x4000 then
    let r := u16 (0x2000 + Z.land a 7) in
    '(b, p) ← PPU.cpuReadRegister (cart s) (ppu s) r; Some (b, set_ppu p s)
  else if a =? 0x4015 then
    let '(b, ap) := APU.cpuRead (apu s) 0x4015 in Some (b, set_apu ap s)
  else if a =? 0x4016 then
    match input s with
    | Some i => let '(b, i') := Input.read4016 i in
                Some (b, set_input (Some i') s)
    | None => Some (0x40, s)
    end
  else if a =? 0x4017 then Some (0x40, s)
  else if (0x4000 <=? a) && (a <=? 0x4017) then Some (0, s)
  else if 0x4020 <=? a then
    match cart s with
    | Some c => b ← Cartridge.cpuRead c a; Some (b, s)
    | None => Some (0xFF, s)
    end
  else Some (0, s).

Definition cpuWrite (a val : Z) (s : state) : option state :=
  if a <? 0x2000 then
    r ← wr_at (sysRAM s) (Z.land a 0x07FF) val; Some (set_sysRAM r s)
  else if a <? 0x4000 then
    let r := u16 (0x2000 + Z.land a 7) in
    '(c, p) ← PPU.cpuWriteRegister (cart s) (ppu s) r val;
    Some (set_ppu p (set_cart c s))
  else if a =? 0x4014 then
    let base := u16 (Z.shiftl val 8) in
    let cpu_on_odd := bit_set (CPU.cycles (cpu s)) 1 in
    stall ← sint (CPU.dma_stall_cycles (cpu s)
                  + (513 + (if cpu_on_odd then 1 else 0)));
    let s1 := set_cpu (CPU.set_dma_stall_cycles stall (cpu s)) s in
    PPU.oamDMA ppu set_ppu (fun i => cpuRead (u16 (base + i))) s1
  else if a =? 0x4016 then
    match input s with
    | Some i => Some (set_input (Some (Input.setStrobe i val)) s)
    | None => Some s
    end
  else if (0x4000 <=? a) && (a <=? 0x4017) then
    Some (set_apu (APU.cpuWrite (apu s) a val) s)
  else if 0x4020 <=? a then
    match cart s with
    | Some c => c' ← Cartridge.cpuWrite c a val; Some (set_cart (Some c') s)
    | None => Some s
    end
  else Some s.

Definition mapperIRQ (s : state) : bool :=
  match cart s with
  | Some c => match Cartridge.mapper c with
              | Some m => Mapper.irqPending m
              | None => false
              end
  | None => false
  end.

Definition mapperIRQAck (s : state) : state :=
  set_cart (Cartridge.onMapper Mapper.irqAck (cart s)) s.

Definition apuIRQ (s : state) : bool := APU.irqLine (apu s).
End WithParts.
End Bus.

(** ** The CPU (cpu.cpp)

    Every method runs on the machine: a memory access goes through the bus
    and may change any component.  [mon] is the state-and-failure monad of
    such code. *)

Module CPUImpl.
Import Machine.
Section WithParts.
Context {M A : Type} `{Mapper.ops M} `{APU.ops A}.
Let state : Type := Machine.state M A.

Definition mon (R : Type) : Type := state -> option (R * state).
Definition ret {R} (r : R) : mon R := fun s => Some (r, s).
Definition bind {R R'} (m : mon R) (k : R -> mon R') : mon R' :=
  fun s => match m s with
           | Some (r, s') => k r s'
           | None => None
           end.

Notation "x <- c ;; k" := (bind c (fun x => k))
  (at level 100, c at next level, right associativity).
Notation "c ;; k" := (bind c (fun _ => k))
  (at level 100, right associativity).

Definition reg {R} (f : CPU.state -> R) : mon R := fun s => Some (f (cpu s), s).
Definition upd (f : CPU.state -> CPU.state) : mon unit :=
  fun s => Some (tt, set_cpu (f (cpu s)) s).

Definition rd (a : Z) : mon Z := Bus.cpuRead a.
Definition wr (a val : Z) : mon unit :=
  fun s => s' ← Bus.cpuWrite a val s; Some (tt, s').

(** [read16_bug]: the high byte comes from the same page. *)
Definition read16_bug (addr : Z) : mon Z :=
  lo <- rd addr ;;
  hi <- rd (u16 (Z.lor (Z.land addr 0xFF00) (Z.land (addr + 1) 0x00FF))) ;;
  ret (u16 (Z.lor lo (Z.shiftl hi 8))).

Definition push8 (val : Z) : mon unit :=
  sp <- reg CPU.S ;;
  wr (u16 (Z.lor 0x0100 sp)) val ;;
  upd (CPU.set_S (u8 (sp - 1))).

Definition pull8 : mon Z :=
  sp <- reg CPU.S ;;
  upd (CPU.set_S (u8 (sp + 1))) ;;
  sp' <- reg CPU.S ;;
  rd (u16 (Z.lor 0x0100 sp')).

Definition reset : mon unit :=
  lo <- rd 0xFFFC ;;
  hi <- rd 0xFFFD ;;
  upd (CPU.set_PC (u16 (Z.lor lo (Z.shiftl hi 8)))) ;;
  upd (CPU.set_A 0) ;;
  upd (CPU.set_X 0) ;;
  upd (CPU.set_Y 0) ;;
  upd (CPU.set_S 0xFD) ;;
  upd (CPU.set_P 0x24) ;;
  upd (CPU.set_cycles 0) ;;
  upd (CPU.set_pending_nmi false) ;;
  upd (CPU.set_pending_irq false) ;;
  upd (CPU.set_dma_stall_cycles 0).

Definition powerOn : mon unit := reset.

(** *** The lambdas of [CPU::exec] *)

Definition fetch8 : mon Z :=
  pc <- reg CPU.PC ;;
  upd (CPU.set_PC (u16 (pc + 1))) ;;
  rd pc.

Definition fetch16 : mon Z :=
  lo <- fetch8 ;;
  hi <- fetch8 ;;
  ret (u16 (Z.lor lo (Z.shiftl hi 8))).

Definition setZN8 (val : Z) : mon unit := upd (CPU.setZN val).
Definition setf (f : Z) (b : bool) : mon unit := upd (CPU.setf f b).
Definition getf (f : Z) : mon bool := reg (CPU.getf f).

Definition adc (val : Z) : mon unit :=
  a <- reg CPU.A ;;
  c <- getf CPU.flagC ;;
  let sum := u16 (a + val + (if c then 1 else 0)) in
  setf CPU.flagC (0xFF <? sum) ;;
  let res := u8 sum in
  setf CPU.flagV
    (bit_set (Z.land (Z.lnot (Z.lxor a val)) (Z.lxor a res)) 0x80) ;;
  upd (CPU.set_A res) ;;
  setZN8 res.

Definition sbc (val : Z) : mon unit :=
  a <- reg CPU.A ;;
  c <- getf CPU.flagC ;;
  let diff := u16 (a - val - (if c then 0 else 1)) in
  setf CPU.flagC (diff <? 0x100) ;;
  let res := u8 diff in
  setf CPU.flagV (bit_set (Z.land (Z.lxor a val) (Z.lxor a res)) 0x80) ;;
  upd (CPU.set_A res) ;;
  setZN8 res.

Definition asl_mem (a : Z) : mon unit :=
  b <- rd a ;;
  setf CPU.flagC (bit_set b 0x80) ;;
  let b' := u8 (Z.shiftl b 1) in
  wr a b' ;; setZN8 b'.

Definition lsr_mem (a : Z) : mon unit :=
  b <- rd a ;;
  setf CPU.flagC (bit_set b 1) ;;
  let b' := Z.shiftr b 1 in
  wr a b' ;; setZN8 b'.

Definition rol_mem (a : Z) : mon unit :=
  b <- rd a ;;
  c <- getf CPU.flagC ;;
  setf CPU.flagC (bit_set b 0x80) ;;
  let b' := u8 (Z.lor (Z.shiftl b 1) (if c then 1 else 0)) in
  wr a b' ;; setZN8 b'.

Definition ror_mem (a : Z) : mon unit :=
  b <- rd a ;;
  c <- getf CPU.flagC ;;
  setf CPU.flagC (bit_set b 1) ;;
  let b' := u8 (Z.lor (Z.shiftr b 1) (Z.shiftl (if c then 1 else 0) 7)) in
  wr a b' ;; setZN8 b'.

Definition branch (cond : bool) : mon Z :=
  let add := 2 in
  b <- fetch8 ;;
  let off := s8 b in
  if cond then
    let add := add + 1 in
    old <- reg CPU.PC ;;
    upd (CPU.set_PC (u16 (old + off))) ;;
    pc <- reg CPU.PC ;;
    ret (if negb (Z.land old 0xFF00 =? Z.land pc 0xFF00) then add + 1 else add)
  else ret add.

Definition zp : mon Z := b <- fetch8 ;; ret (u16 b).
Definition zpx : mon Z :=
  b <- fetch8 ;; x <- reg CPU.X ;; ret (u16 (Z.land (b + x) 0xFF)).
Definition zpy : mon Z :=
  b <- fetch8 ;; y <- reg CPU.Y ;; ret (u16 (Z.land (b + y) 0xFF)).
Definition abs_ : mon Z := fetch16.
Definition absx : mon (Z * bool) :=
  b <- fetch16 ;;
  x <- reg CPU.X ;;
  let a := u16 (b + x) in
  ret (a, negb (Z.land b 0xFF00 =? Z.land a 0xFF00)).
Definition absy : mon (Z * bool) :=
  b <- fetch16 ;;
  y <- reg CPU.Y ;;
  let a := u16 (b + y) in
  ret (a, negb (Z.land b 0xFF00 =? Z.land a 0xFF00)).
Definition indx : mon Z :=
  b <- fetch8 ;;
  x <- reg CPU.X ;;
  let zpaddr := u8 (b + x) in
  lo <- rd zpaddr ;;
  hi <- rd (u8 (zpaddr + 1)) ;;
  ret (u16 (Z.lor lo (Z.shiftl hi 8))).
Definition indy : mon (Z * bool) :=
  zpaddr <- fetch8 ;;
  lo <- rd zpaddr ;;
  hi <- rd (u8 (zpaddr + 1)) ;;
  let base := u16 (Z.lor lo (Z.shiftl hi 8)) in
  y <- reg CPU.Y ;;
  let a := u16 (base + y) in
  ret (a, negb (Z.land base 0xFF00 =? Z.land a 0xFF00)).

(** *** The bodies shared by the cases of the opcode switch *)

Definition cross (n : Z) (p : Z * bool) : Z := n + (if snd p then 1 else 0).

Definition lda (val : Z) : mon unit := upd (CPU.set_A val) ;; setZN8 val.
Definition ldx (val : Z) : mon unit := upd (CPU.set_X val) ;; setZN8 val.
Definition ldy (val : Z) : mon unit := upd (CPU.set_Y val) ;; setZN8 val.
Definition and_ (val : Z) : mon unit :=
  a <- reg CPU.A ;; lda (Z.land a val).
Definition eor (val : Z) : mon unit :=
  a <- reg CPU.A ;; lda (Z.lxor a val).
Definition ora (val : Z) : mon unit :=
  a <- reg CPU.A ;; lda (Z.lor a val).
Definition bit (val : Z) : mon unit :=
  a <- reg CPU.A ;;
  setf CPU.flagZ (Z.land a val =? 0) ;;
  setf CPU.flagV (bit_set val 0x40) ;;
  setf CPU.flagN (bit_set val 0x80).
Definition cmp (r : CPU.state -> Z) (val : Z) : mon unit :=
  x <- reg r ;;
  setf CPU.flagC (val <=? x) ;;
  setZN8 (u8 (x - val)).
Definition incdec (d : Z) (a : Z) : mon unit :=
  b <- rd a ;;
  let b' := u8 (b + d) in
  wr a b' ;; setZN8 b'.

(** Read through an addressing mode, apply, and cost [n] cycles. *)
Definition rdOp (mode : mon Z) (op : Z -> mon unit) (n : Z) : mon Z :=
  a <- mode ;; b <- rd a ;; op b ;; ret n.
(** The same for the modes that report a page crossing. *)
Definition rdOpX (mode : mon (Z * bool)) (op : Z -> mon unit) (n : Z) : mon Z :=
  p <- mode ;; b <- rd (fst p) ;; op b ;; ret (cross n p).
Definition immOp (op : Z -> mon unit) (n : Z) : mon Z :=
  b <- fetch8 ;; op b ;; ret n.
Definition wrOp (mode : mon Z) (r : CPU.state -> Z) (n : Z) : mon Z :=
  a <- mode ;; x <- reg r ;; wr a x ;; ret n.
Definition wrOpX (mode : mon (Z * bool)) (r : CPU.state -> Z) (n : Z)
  : mon Z :=
  p <- mode ;; x <- reg r ;; wr (fst p) x ;; ret n.
Definition memOp (mode : mon Z) (op : Z -> mon unit) (n : Z) : mon Z :=
  a <- mode ;; op a ;; ret n.
Definition memOpX (mode : mon (Z * bool)) (op : Z -> mon unit) (n : Z)
  : mon Z :=
  p <- mode ;; op (fst p) ;; ret n.
Definition only (op : mon unit) (n : Z) : mon Z := op ;; ret n.

(** *** [CPU::exec]: the opcode switch, in the order of the source *)

Definition exec (op : Z) : mon Z :=
  match op with
  (* Load/Store *)
  | 0xA9 => immOp lda 2
  | 0xA5 => rdOp zp lda 3
  | 0xB5 => rdOp zpx lda 4
  | 0xAD => rdOp abs_ lda 4
  | 0xBD => rdOpX absx lda 4
  | 0xB9 => rdOpX absy lda 4
  | 0xA1 => rdOp indx lda 6
  | 0xB1 => rdOpX indy lda 5
  | 0xA2 => immOp ldx 2
  | 0xA6 => rdOp zp ldx 3
  | 0xB6 => rdOp zpy ldx 4
  | 0xAE => rdOp abs_ ldx 4
  | 0xBE => rdOpX absy ldx 4
  | 0xA0 => immOp ldy 2
  | 0xA4 => rdOp zp ldy 3
  | 0xB4 => rdOp zpx ldy 4
  | 0xAC => rdOp abs_ ldy 4
  | 0xBC => rdOpX absx ldy 4
  | 0x85 => wrOp zp CPU.A 3
  | 0x95 => wrOp zpx CPU.A 4
  | 0x8D => wrOp abs_ CPU.A 4
  | 0x9D => wrOpX absx CPU.A 5
  | 0x99 => wrOpX absy CPU.A 5
  | 0x81 => wrOp indx CPU.A 6
  | 0x91 => wrOpX indy CPU.A 6
  | 0x86 => wrOp zp CPU.X 3
  | 0x96 => wrOp zpy CPU.X 4
  | 0x8E => wrOp abs_ CPU.X 4
  | 0x84 => wrOp zp CPU.Y 3
  | 0x94 => wrOp zpx CPU.Y 4
  | 0x8C => wrOp abs_ CPU.Y 4
  (* Transfers *)
  | 0xAA => only (a <- reg CPU.A ;; ldx a) 2
  | 0xA8 => only (a <- reg CPU.A ;; ldy a) 2
  | 0xBA => only (sp <- reg CPU.S ;; ldx sp) 2
  | 0x8A => only (x <- reg CPU.X ;; lda x) 2
  | 0x9A => only (x <- reg CPU.X ;; upd (CPU.set_S x)) 2
  | 0x98 => only (y <- reg CPU.Y ;; lda y) 2
  (* Arithmetic/Logic *)
  | 0x69 => immOp adc 2
  | 0x65 => rdOp zp adc 3
  | 0x75 => rdOp zpx adc 4
  | 0x6D => rdOp abs_ adc 4
  | 0x7D => rdOpX absx adc 4
  | 0x79 => rdOpX absy adc 4
  | 0x61 => rdOp indx adc 6
  | 0x71 => rdOpX indy adc 5
  | 0xE9 | 0xEB => immOp sbc 2
  | 0xE5 => rdOp zp sbc 3
  | 0xF5 => rdOp zpx sbc 4
  | 0xED => rdOp abs_ sbc 4
  | 0xFD => rdOpX absx sbc 4
  | 0xF9 => rdOpX absy sbc 4
  | 0xE1 => rdOp indx sbc 6
  | 0xF1 => rdOpX indy sbc 5
  | 0x29 => immOp and_ 2
  | 0x25 => rdOp zp and_ 3
  | 0x35 => rdOp zpx and_ 4
  | 0x2D => rdOp abs_ and_ 4
  | 0x3D => rdOpX absx and_ 4
  | 0x39 => rdOpX absy and_ 4
  | 0x21 => rdOp indx and_ 6
  | 0x31 => rdOpX indy and_ 5
  | 0x49 => immOp eor 2
  | 0x45 => rdOp zp eor 3
  | 0x55 => rdOp zpx eor 4
  | 0x4D => rdOp abs_ eor 4
  | 0x5D => rdOpX absx eor 4
  | 0x59 => rdOpX absy eor 4
  | 0x41 => rdOp indx eor 6
  | 0x51 => rdOpX indy eor 5
  | 0x09 => immOp ora 2
  | 0x05 => rdOp zp ora 3
  | 0x15 => rdOp zpx ora 4
  | 0x0D => rdOp abs_ ora 4
  | 0x1D => rdOpX absx ora 4
  | 0x19 => rdOpX absy ora 4
  | 0x01 => rdOp indx ora 6
  | 0x11 => rdOpX indy ora 5
  | 0x24 => rdOp zp bit 3
  | 0x2C => rdOp abs_ bit 4
  (* Shifts & Rotates *)
  | 0x0A =>
      a <- reg CPU.A ;;
      setf CPU.flagC (bit_set a 0x80) ;;
      lda (u8 (Z.shiftl a 1)) ;; ret 2
  | 0x06 => memOp zp asl_mem 5
  | 0x16 => memOp zpx asl_mem 6
  | 0x0E => memOp abs_ asl_mem 6
  | 0x1E => memOpX absx asl_mem 7
  | 0x4A =>
      a <- reg CPU.A ;;
      setf CPU.flagC (bit_set a 1) ;;
      lda (Z.shiftr a 1) ;; ret 2
  | 0x46 => memOp zp lsr_mem 5
  | 0x56 => memOp zpx lsr_mem 6
  | 0x4E => memOp abs_ lsr_mem 6
  | 0x5E => memOpX absx lsr_mem 7
  | 0x2A =>
      c <- getf CPU.flagC ;;
      a <- reg CPU.A ;;
      setf CPU.flagC (bit_set a 0x80) ;;
      lda (u8 (Z.lor (Z.shiftl a 1) (if c then 1 else 0))) ;; ret 2
  | 0x26 => memOp zp rol_mem 5
  | 0x36 => memOp zpx rol_mem 6
  | 0x2E => memOp abs_ rol_mem 6
  | 0x3E => memOpX absx rol_mem 7
  | 0x6A =>
      c <- getf CPU.flagC ;;
      a <- reg CPU.A ;;
      setf CPU.flagC (bit_set a 1) ;;
      lda (u8 (Z.lor (Z.shiftr a 1) (Z.shiftl (if c then 1 else 0) 7))) ;;
      ret 2
  | 0x66 => memOp zp ror_mem 5
  | 0x76 => memOp zpx ror_mem 6
  | 0x6E => memOp abs_ ror_mem 6
  | 0x7E => memOpX absx ror_mem 7
  (* INC/DEC *)
  | 0xE6 => memOp zp (incdec 1) 5
  | 0xF6 => memOp zpx (incdec 1) 6
  | 0xEE => memOp abs_ (incdec 1) 6
  | 0xFE => memOpX absx (incdec 1) 7
  | 0xC6 => memOp zp (incdec (-1)) 5
  | 0xD6 => memOp zpx (incdec (-1)) 6
  | 0xCE => memOp abs_ (incdec (-1)) 6
  | 0xDE => memOpX absx (incdec (-1)) 7
  | 0xE8 => only (x <- reg CPU.X ;; ldx (u8 (x + 1))) 2
  | 0xC8 => only (y <- reg CPU.Y ;; ldy (u8 (y + 1))) 2
  | 0xCA => only (x <- reg CPU.X ;; ldx (u8 (x - 1))) 2
  | 0x88 => only (y <- reg CPU.Y ;; ldy (u8 (y - 1))) 2
  (* Compare *)
  | 0xC9 => immOp (cmp CPU.A) 2
  | 0xC5 => rdOp zp (cmp CPU.A) 3
  | 0xD5 => rdOp zpx (cmp CPU.A) 4
  | 0xCD => rdOp abs_ (cmp CPU.A) 4
  | 0xDD => rdOpX absx (cmp CPU.A) 4
  | 0xD9 => rdOpX absy (cmp CPU.A) 4
  | 0xC1 => rdOp indx (cmp CPU.A) 6
  | 0xD1 => rdOpX indy (cmp CPU.A) 5
  | 0xE0 => immOp (cmp CPU.X) 2
  | 0xE4 => rdOp zp (cmp CPU.X) 3
  | 0xEC => rdOp abs_ (cmp CPU.X) 4
  | 0xC0 => immOp (cmp CPU.Y) 2
  | 0xC4 => rdOp zp (cmp CPU.Y) 3
  | 0xCC => rdOp abs_ (cmp CPU.Y) 4
  (* Branches *)
  | 0x90 => c <- getf CPU.flagC ;; branch (negb c)
  | 0xB0 => c <- getf CPU.flagC ;; branch c
  | 0xF0 => z <- getf CPU.flagZ ;; branch z
  | 0x30 => n <- getf CPU.flagN ;; branch n
  | 0xD0 => z <- getf CPU.flagZ ;; branch (negb z)
  | 0x10 => n <- getf CPU.flagN ;; branch (negb n)
  | 0x50 => o <- getf CPU.flagV ;; branch (negb o)
  | 0x70 => o <- getf CPU.flagV ;; branch o
  (* Jumps & Subroutines *)
  | 0x4C => a <- abs_ ;; upd (CPU.set_PC a) ;; ret 3
  | 0x6C => ptr <- abs_ ;; a <- read16_bug ptr ;; upd (CPU.set_PC a) ;; ret 5
  | 0x20 =>
      addr <- abs_ ;;
      pc <- reg CPU.PC ;;
      let ret_ := u16 (pc - 1) in
      push8 (u8 (Z.land (Z.shiftr ret_ 8) 0xFF)) ;;
      push8 (u8 (Z.land ret_ 0xFF)) ;;
      upd (CPU.set_PC addr) ;; ret 6
  | 0x60 =>
      lo <- pull8 ;;
      hi <- pull8 ;;
      upd (CPU.set_PC (u16 (Z.lor (Z.shiftl hi 8) lo))) ;;
      pc <- reg CPU.PC ;;
      upd (CPU.set_PC (u16 (pc + 1))) ;; ret 6
  (* Stack & Flags *)
  | 0x00 =>
      pc0 <- reg CPU.PC ;;
      upd (CPU.set_PC (u16 (pc0 + 1))) ;;
      pc <- reg CPU.PC ;;
      push8 (u8 (Z.land (Z.shiftr pc 8) 0xFF)) ;;
      push8 (u8 (Z.land pc 0xFF)) ;;
      p <- reg CPU.P ;;
      push8 (u8 (Z.lor p 0x10)) ;;
      setf CPU.flagI true ;;
      lo <- rd 0xFFFE ;;
      hi <- rd 0xFFFF ;;
      upd (CPU.set_PC (u16 (Z.lor lo (Z.shiftl hi 8)))) ;; ret 7
  | 0x40 =>
      pf <- pull8 ;;
      lo <- pull8 ;;
      hi <- pull8 ;;
      upd (CPU.set_P (u8 (clear_bits pf 0x10))) ;;
      setf CPU.flagU true ;;
      upd (CPU.set_PC (u16 (Z.lor lo (Z.shiftl hi 8)))) ;;
      upd (CPU.set_irq_delay 1) ;; ret 6
  | 0x48 => a <- reg CPU.A ;; push8 a ;; ret 3
  | 0x68 => a <- pull8 ;; lda a ;; ret 4
  | 0x08 => p <- reg CPU.P ;; push8 (u8 (Z.lor p 0x10)) ;; ret 3
  | 0x28 =>
      b <- pull8 ;;
      upd (CPU.set_P (u8 (Z.lor (clear_bits b 0x10) 0x20))) ;;
      upd (CPU.set_irq_delay 1) ;;
      a <- reg CPU.A ;;
      setZN8 a ;; ret 4
  | 0x18 => only (setf CPU.flagC false) 2
  | 0x38 => only (setf CPU.flagC true) 2
  | 0x58 => setf CPU.flagI false ;; upd (CPU.set_irq_delay 1) ;; ret 2
  | 0x78 => setf CPU.flagI true ;; upd (CPU.set_irq_delay 1) ;; ret 2
  | 0xB8 => only (setf CPU.flagV false) 2
  | 0xD8 => only (setf CPU.flagD false) 2
  | 0xF8 => only (setf CPU.flagD true) 2
  (* NOPs *)
  | 0xEA => ret 2
  | 0x1A | 0x3A | 0x5A | 0x7A | 0xDA | 0xFA => ret 2
  | 0x04 | 0x44 | 0x64 => fetch8 ;; ret 3
  | 0x0C => fetch16 ;; ret 4
  | 0x14 | 0x34 | 0x54 | 0x74 | 0xD4 | 0xF4 => fetch8 ;; ret 4
  | 0x1C | 0x3C | 0x5C | 0x7C | 0xDC | 0xFC => absx ;; ret 4
  (* Fallback: a 2-cycle NOP *)
  | _ => ret 2
  end.

(** The interrupt sequence of [CPU::step]: push PC and P (B clear), set I,
    load PC from the vector. *)
Definition interrupt (vector : Z) : mon unit :=
  ret_ <- reg CPU.PC ;;
  push8 (u8 (Z.land (Z.shiftr ret_ 8) 0xFF)) ;;
  push8 (u8 (Z.land ret_ 0xFF)) ;;
  p <- reg CPU.P ;;
  push8 (u8 (clear_bits p 0x10)) ;;
  setf CPU.flagI true ;;
  lo <- rd vector ;;
  hi <- rd (vector + 1) ;;
  upd (CPU.set_PC (u16 (Z.lor lo (Z.shiftl hi 8)))).

Definition addCycles (n : Z) : mon unit :=
  c <- reg CPU.cycles ;; upd (CPU.set_cycles (u64 (c + n))).

Definition step : mon Z :=
  stall <- reg CPU.dma_stall_cycles ;;
  if negb (stall =? 0) then
    (fun s => d ← sint (stall - 1);
              Some (tt, set_cpu (CPU.set_dma_stall_cycles d (cpu s)) s)) ;;
    addCycles 1 ;;
    ret 1
  else
    delay <- reg CPU.irq_delay ;;
    let suppress_irq := negb (delay =? 0) in
    (if negb (delay =? 0) then upd (CPU.set_irq_delay 0) else ret tt) ;;
    (if negb suppress_irq then
       mi <- (fun s => Some (Bus.mapperIRQ s, s)) ;;
       i <- getf CPU.flagI ;;
       (if mi && negb i then upd (CPU.set_pending_irq true) else ret tt) ;;
       ai <- (fun s => Some (Bus.apuIRQ s, s)) ;;
       i' <- getf CPU.flagI ;;
       (if ai && negb i' then upd (CPU.set_pending_irq true) else ret tt)
     else ret tt) ;;
    pending <- reg CPU.pending_nmi ;;
    if pending then
      upd (CPU.set_pending_nmi false) ;;
      interrupt 0xFFFA ;;
      addCycles 7 ;;
      ret 7
    else
      pirq <- reg CPU.pending_irq ;;
      i <- getf CPU.flagI ;;
      if pirq && negb i then
        upd (CPU.set_pending_irq false) ;;
        interrupt 0xFFFE ;;
        (fun s => Some (tt, Bus.mapperIRQAck s)) ;;
        addCycles 7 ;;
        ret 7
      else
        opcode <- fetch8 ;;
        c <- exec opcode ;;
        addCycles c ;;
        ret c.
End WithParts.
End CPUImpl.

(** ** The session (nes.cpp) *)

Module NES.
Import Machine.
Section WithParts.
Context {M A : Type} `{Mapper.ops M} `{APU.ops A}.
Let state : Type := Machine.state M A.

(** [NES::powerOn]: fresh CPU, PPU, APU and controller around the loaded
    cartridge, OAM filled with $FF, then [CPU::reset].  The system RAM is a
    file-level array and [nmiLinePrev] a member that [powerOn] does not
    assign; both keep their contents. *)
Definition powerOn (apu0 : A) (s : state) : option state :=
  let p := PPU.set_oam (memset (PPU.oam PPU.init) 0xFF) PPU.init in
  let s1 := {| cpu := CPU.init; ppu := p; apu := apu0;
               input := Some Input.init; cart := cart s;
               sysRAM := sysRAM s; nmiLinePrev := nmiLinePrev s |} in
  '(_, s2) ← CPUImpl.reset s1; Some s2.

(** The NMI edge detector in the PPU loop of [NES::runFrame]: the level is
    sampled after every PPU tick, and [cpu->nmi()] is called when it is
    high and the previous sample was low.  The first component of the
    result tells whether the call was made. *)
Definition nmiLevel (s : state) : bool :=
  PPU.nmi_occurred (ppu s) && PPU.nmi_output (ppu s).

Definition pollNMI (s : state) : bool * state :=
  let level := nmiLevel s in
  let post := level && negb (nmiLinePrev s) in
  let s1 := if post then set_cpu (CPU.nmi (cpu s)) s else s in
  (post, set_nmiLinePrev level s1).

(** One iteration of the PPU loop: tick, poll the NMI line, note the frame
    boundary. *)
Definition ppuDot (frameDone : bool) (s : state)
  : option (bool * bool * state) :=
  '(c, p) ← PPU.tick (cart s) (ppu s);
  let s1 := set_ppu p (set_cart c s) in
  let '(post, s2) := pollNMI s1 in
  let fd := frameDone
            || ((PPU.scanline (ppu s2) =? 0) && (PPU.dot (ppu s2) =? 0)) in
  Some (post, fd, s2).

(** [for (int i = 0; i < cpuCycles * 3; i++)]: the loop, counting the
    calls of [cpu->nmi()]. *)
Fixpoint ppuDots (n : nat) (frameDone : bool) (s : state)
  : option (nat * bool * state) :=
  match n with
  | O => Some (O, frameDone, s)
  | S k =>
      '(post, fd, s1) ← ppuDot frameDone s;
      '(posts, fd', s2) ← ppuDots k fd s1;
      Some ((if post : bool then S posts else posts), fd', s2)
  end.
End WithParts.
End NES.

(** * Vocabulary of the properties

    Definitions used to state the properties below: trains of A12 edges,
    the DMA callback that reads a page, concrete machines, and the status
    byte after PLP. *)

(** The state of the IRQ unit after [k] valid edges, counted from a
    pending reload with latch 5 and the IRQ enabled. *)
Definition afterEdges (k : nat) (m : MapperMMC3.state) : Prop :=
  MapperMMC3.irqLatch m = 5 /\ MapperMMC3.irqEnable m = true /\ 0 <= MapperMMC3.a12LowCycles m /\
  match k with
  | O => MapperMMC3.irqReload m = true /\ MapperMMC3.irqFlag m = false
  | S j =>
      if (j <? 5)%nat
      then MapperMMC3.irqReload m = false /\ MapperMMC3.irqFlag m = false
           /\ MapperMMC3.irqCounter m = 5 - Z.of_nat j
      else MapperMMC3.irqFlag m = true
  end.

(** The mapper as the constructor leaves it, after the CPU has written the
    latch ($C000), requested a reload ($C001) and enabled the IRQ ($E001). *)
Definition armed (latch : Z) : option MapperMMC3.state :=
  m1 ← MapperMMC3.cpuWrite (MapperMMC3.make (repeat 0 (Z.to_nat 16384)) (repeat 0 (Z.to_nat 8192)) 0 8) 0xC000 latch;
  m2 ← MapperMMC3.cpuWrite m1 0xC001 0;
  MapperMMC3.cpuWrite m2 0xE001 0.

(** [PPU::oamDMA] called with a callback that reads a 256-byte page. *)
Definition pageFetch (page : list Z) (i : Z) (p : PPU.state)
  : option (Z * PPU.state) :=
  b ← rd_at page i; Some (b, p).

Definition oamDMAFromPage (page : list Z) (p : PPU.state) : option PPU.state :=
  PPU.oamDMA (fun p => p) (fun p _ => p) (pageFetch page) p.

(** ** Concrete machines

    A 16 KiB PRG image for an MMC3 board: a [BEQ $+4] at $80FE and the
    reset vector $1234 at $FFFC.  With the bank registers at zero, $80FE
    reads PRG offset $00FE and $FFFC reads offset $3FFC of the last bank. *)

Definition demoPrg : list Z :=
  repeat 0 (Z.to_nat 0xFE) ++ [0xF0; 0x02]
  ++ repeat 0 (Z.to_nat (0x3FFC - 0x100)) ++ [0x34; 0x12; 0; 0].

Definition demoCart : Cartridge.state MapperMMC3.state :=
  {| Cartridge.mapper :=
       Some (MapperMMC3.make demoPrg (repeat 0 (Z.to_nat 8192)) 0 8);
     Cartridge.mirroring := 0 |}.

(** The session before [powerOn]: zeroed system RAM, the cartridge
    loaded. *)
Definition demoBoot : Machine.state MapperMMC3.state APU.status :=
  {| Machine.cpu := CPU.init; Machine.ppu := PPU.init;
     Machine.apu := APU.init; Machine.input := Some Input.init;
     Machine.cart := Some demoCart;
     Machine.sysRAM := repeat 0 (Z.to_nat 2048);
     Machine.nmiLinePrev := false |}.

(** The machine [powerOn] returns, if it returns. *)
Definition demoMachine : Machine.state MapperMMC3.state APU.status :=
  default demoBoot (NES.powerOn APU.init demoBoot).

(** Registers of a machine, when a computation returned one. *)
Definition cpuOf {M A R : Type} (r : option (R * Machine.state M A))
  : option CPU.state :=
  '(_, s) ← r; Some (Machine.cpu s).

(** The fields [CPU::reset] assigns, and the one it does not. *)
Definition afterReset (pc : Z) (c : CPU.state) : CPU.state :=
  {| CPU.A := 0; CPU.X := 0; CPU.Y := 0; CPU.S := 0xFD; CPU.PC := pc;
     CPU.P := 0x24; CPU.cycles := 0; CPU.pending_nmi := false;
     CPU.pending_irq := false; CPU.irq_delay := CPU.irq_delay c;
     CPU.dma_stall_cycles := 0 |}.

(** Bit [k] of a status byte, and the status byte PLP leaves when the
    byte pulled is [p | $10] and the accumulator gives [z] and [n]. *)
Definition flagOf (k x : Z) : bool := negb (Z.land (Z.shiftr x k) 1 =? 0).

Definition statusAfterPlp (p : Z) (z n : bool) : Z :=
  let q := u8 (Z.lor (clear_bits (u8 (Z.lor p 0x10)) 0x10) 0x20) in
  let q1 := if z then u8 (Z.lor q (Z.shiftl 1 CPU.flagZ))
            else u8 (Z.land q (Z.lnot (Z.shiftl 1 CPU.flagZ))) in
  if n then u8 (Z.lor q1 (Z.shiftl 1 CPU.flagN))
  else u8 (Z.land q1 (Z.lnot (Z.shiftl 1 CPU.flagN))).

Definition plpFlagsOk (z n : bool) (p : Z) : bool :=
  let q := statusAfterPlp p z n in
  eqb (flagOf CPU.flagC q) (flagOf CPU.flagC p)
  && eqb (flagOf CPU.flagI q) (flagOf CPU.flagI p)
  && eqb (flagOf CPU.flagD q) (flagOf CPU.flagD p)
  && eqb (flagOf CPU.flagV q) (flagOf CPU.flagV p)
  && negb (flagOf CPU.flagB q) && flagOf CPU.flagU q
  && eqb (flagOf CPU.flagZ q) z && eqb (flagOf CPU.flagN q) n.


(** PHP followed by PLP, and the registers they leave. *)
Definition phpThenPlp {M A : Type} `{Mapper.ops M} `{APU.ops A}
    (s : Machine.state M A) : option CPU.state :=
  '(_, s1) ← CPUImpl.exec 0x08 s;
  '(_, s2) ← CPUImpl.exec 0x28 s1;
  Some (Machine.cpu s2).

(** The machine about to execute the [BEQ $+4] at $80FE with Z set. *)
Definition demoBranch : Machine.state MapperMMC3.state APU.status :=
  Machine.set_cpu (CPU.set_P 0x26 (CPU.set_PC 0x80FE (Machine.cpu demoMachine)))
    demoMachine.

(** The cycles a CPU step reports and the PC it leaves. *)
Definition cyclesAndPC {M A : Type} (r : option (Z * Machine.state M A))
  : option (Z * Z) :=
  '(n, s) ← r; Some (n, CPU.PC (Machine.cpu s)).

(** The page of an address, as the branch lambda compares it. *)
Definition page (a : Z) : Z := Z.land a 0xFF00.

(** A PPU pointing at palette entry 0 ($3F00) on a horizontally mirrored
    board: the palette holds $15 there, the nametable byte underneath
    ($2F00, offset $700 of the nametable RAM) is $77, and the read buffer
    holds $01 from an earlier read. *)
Definition demoPalette : PPU.state :=
  PPU.set_vramReadBuffer 0x01
    (PPU.set_v 0x3F00
       (PPU.set_vram (<[Z.to_nat 0x700 := 0x77]> (PPU.vram PPU.init))
          (PPU.set_palette (<[0%nat := 0x15]> (PPU.palette PPU.init))
             PPU.init))).

(** What a register read returned and the read buffer it left. *)
Definition byteAndBuffer (r : option (Z * PPU.state)) : option (Z * Z) :=
  '(b, p) ← r; Some (b, PPU.vramReadBuffer p).

(** Whether OAM entry [i] has rows on the current scanline, for sprites
    [sprH] lines high. *)
Definition onLine (p : PPU.state) (sprH : Z) (i : Z) : bool :=
  match rd_at (PPU.oam p) (i * 4) with
  | Some y => PPU.spriteOnLine (PPU.scanline p) sprH y
  | None => false
  end.

(** The number of OAM entries whose rows cover the current scanline. *)
Definition spritesOnLine (p : PPU.state) : nat :=
  length (List.filter
            (onLine p (if bit_set (PPU.PPUCTRL p) 0x20 then 16 else 8))
            (upto 64)).

(** Scanline 10 with exactly eight sprites on it (Y = 9, rows 10..17) and
    the other 56 entries parked at Y = $FF, as [powerOn] leaves them. *)
Definition demoSprites : PPU.state :=
  PPU.set_scanline 10
    (PPU.set_oam (concat (repeat [9; 0; 0; 0] 8) ++ repeat 0xFF (56 * 4))
       PPU.init).

(** The sprite count and the overflow flag after an evaluation. *)
Definition countAndOverflow (r : option PPU.state) : option (Z * bool) :=
  p ← r; Some (PPU.secCount p, bit_set (PPU.PPUSTATUS p) 0x20).

(** What the scheduler does between two CPU steps, event by event: a PPU
    dot with its NMI poll, or a bus access of the CPU. *)
Inductive event : Type :=
  | Dot
  | Read (a : Z)
  | Write (a val : Z).

Section Events.
Context {M A : Type} `{Mapper.ops M} `{APU.ops A}.

(** One event; the flag tells whether [cpu->nmi()] was called. *)
Definition runEvent (e : event) (s : Machine.state M A)
  : option (bool * Machine.state M A) :=
  match e with
  | Dot => '(post, _, s') ← NES.ppuDot false s; Some (post, s')
  | Read a => '(_, s') ← Bus.cpuRead a s; Some (false, s')
  | Write a val => s' ← Bus.cpuWrite a val s; Some (false, s')
  end.

(** A run of events, counting the calls of [cpu->nmi()]. *)
Fixpoint runEvents (es : list event) (s : Machine.state M A)
  : option (nat * Machine.state M A) :=
  match es with
  | [] => Some (O, s)
  | e :: es' =>
      '(post, s1) ← runEvent e s;
      '(n, s2) ← runEvents es' s1;
      Some ((if post : bool then S n else n), s2)
  end.
End Events.

(** The CPU accesses of the claim: reads and writes of $2000 (PPUCTRL) and
    $2002 (PPUSTATUS), at any of their mirrors in $2000..$3FFF. *)
Definition ctrlOrStatus (e : event) : Prop :=
  match e with
  | Dot => True
  | Read a | Write a _ =>
      0x2000 <= a < 0x4000 /\ (Z.land a 7 = 0 \/ Z.land a 7 = 2)
  end.

Fixpoint dots (es : list event) : nat :=
  match es with
  | [] => O
  | Dot :: es' => S (dots es')
  | _ :: es' => dots es'
  end.

(** The writes of $2000 in a run that turn NMI output (bit 7) on from off,
    [out] being the output before the run. *)
Fixpoint nmiEnables (out : bool) (es : list event) : nat :=
  match es with
  | [] => O
  | Write a val :: es' =>
      if Z.land a 7 =? 0
      then (if bit_set val 0x80 && negb out then 1 else 0)%nat
           + nmiEnables (bit_set val 0x80) es'
      else nmiEnables out es'
  | _ :: es' => nmiEnables out es'
  end.

(** The registers the NMI logic depends on. *)
Definition nmiRegs (p : PPU.state) : Z * Z * Z * bool :=
  (PPU.scanline p, PPU.dot p, PPU.PPUCTRL p, PPU.nmi_occurred p).

(** The machine at the last dot before vblank, (241, 0), with NMI output
    enabled and rendering off. *)
Definition demoVBlank : Machine.state MapperMMC3.state APU.status :=
  Machine.set_ppu
    (PPU.set_PPUCTRL 0x80
       (PPU.set_dot 0 (PPU.set_scanline 241 (Machine.ppu demoMachine))))
    demoMachine.

(** The number of NMIs a run posted. *)
Definition posted {M A : Type} (r : option (nat * Machine.state M A))
  : option nat :=
  '(n, _) ← r; Some n.

Section VBlankPeriod.
Context {M A : Type}.

(** The position of the PPU on the vblank lines, in dots from (241, 0). *)
Definition vblankPosition (s : Machine.state M A) : Z :=
  (PPU.scanline (Machine.ppu s) - 241) * 341 + PPU.dot (Machine.ppu s).

Definition onVBlankLines (s : Machine.state M A) : Prop :=
  241 <= PPU.scanline (Machine.ppu s) <= 260 /\
  0 <= PPU.dot (Machine.ppu s) <= 340.

(** An NMI can be posted at the next dot only if the last sample of the
    line was low and the level is high now. *)
Definition nmiDue (s : Machine.state M A) : nat :=
  if Machine.nmiLinePrev s then 0%nat
  else if PPU.nmi_occurred (Machine.ppu s) && PPU.nmi_output (Machine.ppu s)
       then 1%nat else 0%nat.
End VBlankPeriod.

(** An MMC3 board with CHR RAM whose bank registers all hold $FF, far
    beyond the two PRG banks and eight CHR banks there are, in PRG mode 1
    and CHR mode 1. *)
Definition demoBanked : MapperMMC3.state :=
  MapperMMC3.set_select 7 true true
    (MapperMMC3.set_bank (repeat 0xFF 8) (MapperMMC3.make demoPrg [] 0 8)).

(** * Properties *)

(** ** Arithmetic and array lemmas *)

Lemma rd_at_is_Some (l : list Z) (i : Z) :
  0 <= i < Z.of_nat (length l) -> is_Some (rd_at l i).
Proof.
  intros Hi. unfold rd_at. destruct (Z.leb_spec 0 i); [|lia].
  apply lookup_lt_is_Some. lia.
Qed.

Lemma rd_at_Some_lt (l : list Z) (i x : Z) :
  rd_at l i = Some x -> 0 <= i < Z.of_nat (length l).
Proof.
  unfold rd_at. destruct (Z.leb_spec 0 i); [|discriminate].
  intros Hx. apply lookup_lt_Some in Hx. lia.
Qed.

Lemma wr_at_is_Some (l : list Z) (i x : Z) :
  0 <= i < Z.of_nat (length l) -> is_Some (wr_at l i x).
Proof.
  intros Hi. unfold wr_at.
  destruct (Z.leb_spec 0 i); [|lia].
  destruct (Z.ltb_spec i (Z.of_nat (length l))); [|lia]. simpl. eauto.
Qed.

Lemma wr_at_Some (l l' : list Z) (i x : Z) :
  wr_at l i x = Some l' ->
  0 <= i < Z.of_nat (length l) /\ l' = <[Z.to_nat i := x]> l.
Proof.
  unfold wr_at.
  destruct (Z.leb_spec 0 i); destruct (Z.ltb_spec i (Z.of_nat (length l)));
    simpl; intros Hx; try discriminate.
  injection Hx as <-. split; [lia | reflexivity].
Qed.

Lemma wr_at_length (l l' : list Z) (i x : Z) :
  wr_at l i x = Some l' -> length l' = length l.
Proof.
  intros Hw. apply wr_at_Some in Hw as [_ ->]. apply length_insert.
Qed.

Lemma rd_wr_same (l l' : list Z) (i x : Z) :
  wr_at l i x = Some l' -> rd_at l' i = Some x.
Proof.
  intros Hw. apply wr_at_Some in Hw as [Hi ->]. unfold rd_at.
  destruct (Z.leb_spec 0 i); [|lia].
  apply list_lookup_insert_eq. lia.
Qed.

Lemma rd_wr_other (l l' : list Z) (i j x : Z) :
  wr_at l i x = Some l' -> 0 <= j -> i <> j -> rd_at l' j = rd_at l j.
Proof.
  intros Hw Hj Hne. apply wr_at_Some in Hw as [Hi ->]. unfold rd_at.
  destruct (Z.leb_spec 0 j); [|lia].
  apply list_lookup_insert_ne. lia.
Qed.

Lemma bind_Some {X Y : Type} (f : X -> option Y) (x : X) :
  mbind f (Some x) = f x.
Proof. reflexivity. Qed.

Lemma u8_range (x : Z) : 0 <= u8 x < 256.
Proof. unfold u8. apply Z.mod_pos_bound. lia. Qed.

Lemma u16_range (x : Z) : 0 <= u16 x < 65536.
Proof. unfold u16. apply Z.mod_pos_bound. lia. Qed.

Lemma u32_range (x : Z) : 0 <= u32 x < 4294967296.
Proof. unfold u32. apply Z.mod_pos_bound. lia. Qed.

Lemma u8_small (x : Z) : 0 <= x < 256 -> u8 x = x.
Proof. intros Hx. unfold u8. apply Z.mod_small. lia. Qed.

Lemma u16_small (x : Z) : 0 <= x < 65536 -> u16 x = x.
Proof. intros Hx. unfold u16. apply Z.mod_small. lia. Qed.

Lemma u32_small (x : Z) : 0 <= x < 4294967296 -> u32 x = x.
Proof. intros Hx. unfold u32. apply Z.mod_small. lia. Qed.

(** ** MMC3: every PRG and CHR access is in bounds *)

Section MMC3Bounds.
Import MapperMMC3.

Lemma prgBankAddr_in_bounds (p : list Z) (b off : Z) :
  0 < Z.of_nat (length p) < 4294967296 ->
  exists i, prgBankAddr p b off = Some i /\ 0 <= i < Z.of_nat (length p).
Proof.
  intros Hlen. unfold prgBankAddr.
  destruct (Z.eqb_spec (Z.of_nat (length p)) 0); [lia|].
  rewrite (u32_small (Z.of_nat (length p))) by lia.
  destruct (Z.eqb_spec (Z.of_nat (length p)) 0); [lia|].
  eexists; split; [reflexivity|]. apply Z.mod_pos_bound. lia.
Qed.

Lemma rdPrg_total (m : state) (b off : Z) :
  0 < Z.of_nat (length (prg m)) < 4294967296 -> is_Some (rdPrg m b off).
Proof.
  intros Hlen. unfold rdPrg.
  destruct (prgBankAddr_in_bounds (prg m) b off Hlen) as (i & -> & Hi).
  simpl. apply rd_at_is_Some, Hi.
Qed.

Lemma chrIndex_in_bounds (m : state) (i32 : Z) :
  chr m <> [] ->
  exists i, chrIndex m i32 = Some i /\ 0 <= i < Z.of_nat (length (chr m)).
Proof.
  intros Hne. unfold chrIndex.
  assert (0 < Z.of_nat (length (chr m))).
  { destruct (chr m); [congruence | simpl; lia]. }
  destruct (Z.eqb_spec (Z.of_nat (length (chr m))) 0); [lia|].
  eexists; split; [reflexivity|]. apply Z.mod_pos_bound. lia.
Qed.

Lemma rd1k_total (m : state) (b o : Z) : chr m <> [] -> is_Some (rd1k m b o).
Proof.
  intros Hne. unfold rd1k, idx1k.
  destruct (chrIndex_in_bounds m (u32 (b * 1024 + Z.land o 1023)) Hne)
    as (i & -> & Hi).
  simpl. apply rd_at_is_Some, Hi.
Qed.

Lemma rd2k_total (m : state) (b o : Z) : chr m <> [] -> is_Some (rd2k m b o).
Proof.
  intros Hne. unfold rd2k, idx2k.
  destruct (chrIndex_in_bounds m
              (u32 (u32 (Z.land b 254 * 1024) + Z.land o 2047)) Hne)
    as (i & -> & Hi).
  simpl. apply rd_at_is_Some, Hi.
Qed.

Lemma wr1k_total (m : state) (b o x : Z) :
  chr m <> [] -> is_Some (wr1k m b o x).
Proof.
  intros Hne. unfold wr1k, idx1k.
  destruct (chrIndex_in_bounds m (u32 (b * 1024 + Z.land o 1023)) Hne)
    as (i & -> & Hi).
  simpl. destruct (wr_at_is_Some (chr m) i x Hi) as [c ->]. simpl. eauto.
Qed.

Lemma wr2k_total (m : state) (b o x : Z) :
  chr m <> [] -> is_Some (wr2k m b o x).
Proof.
  intros Hne. unfold wr2k, idx2k.
  destruct (chrIndex_in_bounds m
              (u32 (u32 (Z.land b 254 * 1024) + Z.land o 2047)) Hne)
    as (i & -> & Hi).
  simpl. destruct (wr_at_is_Some (chr m) i x Hi) as [c ->]. simpl. eauto.
Qed.

Lemma bank_lookup (m : state) (i : Z) :
  wf m -> 0 <= i < 8 -> exists b, rd_at (bank m) i = Some b.
Proof.
  intros [Hb _] Hi. apply rd_at_is_Some. rewrite Hb. lia.
Qed.

(** The window number of a pattern-table address: [a >> 10] is 0..3 inside
    a 4 KiB half. *)
Lemma shiftr10_range (a : Z) : 0 <= a < 4096 -> 0 <= Z.shiftr a 10 < 4.
Proof.
  intros Ha. rewrite Z.shiftr_div_pow2 by lia. change (2 ^ 10) with 1024.
  split; [apply Z.div_pos; lia | apply Z.div_lt_upper_bound; lia].
Qed.

(** C10: with a non-empty PRG image (of a size a [uint32_t] holds, as every
    iNES image is) and a non-empty CHR array, and whatever the bank
    registers and the bank-select register contain, [cpuRead] on
    $8000..$FFFF and [ppuRead]/[ppuWrite] on $0000..$1FFF index [prg] and
    [chr] inside their bounds: the operations return. *)
Theorem mmc3_accesses_in_bounds (m : state) (a val : Z) :
  wf m ->
  0 < Z.of_nat (length (prg m)) < 4294967296 ->
  chr m <> [] ->
  (0x8000 <= a <= 0xFFFF -> is_Some (cpuRead m a)) /\
  (0 <= a <= 0x1FFF -> is_Some (ppuRead m a) /\ is_Some (ppuWrite m a val)).
Proof.
  intros Hwf Hprg Hchr. split.
  - intros Ha. unfold cpuRead.
    destruct (bank_lookup m 6 Hwf ltac:(lia)) as [b6 ->].
    destruct (bank_lookup m 7 Hwf ltac:(lia)) as [b7 ->].
    destruct (Z.leb_spec 24576 a); [|lia].
    destruct (Z.ltb_spec a 32768); [lia|].
    destruct (Z.leb_spec 32768 a); [|lia]. simpl.
    destruct (prgMode m); simpl;
      repeat match goal with
        | |- context [?x <? ?y] => destruct (Z.ltb_spec x y)
        end; apply rdPrg_total, Hprg.
  - intros Ha.
    assert (Hlo : 0 <= Z.shiftr a 10 < 4 \/ 4096 <= a).
    { destruct (Z.lt_ge_cases a 4096); [left; apply shiftr10_range|right]; lia. }
    assert (Hhi : a < 4096 \/ 0 <= Z.shiftr (a - 4096) 10 < 4).
    { destruct (Z.lt_ge_cases a 4096); [left|right; apply shiftr10_range]; lia. }
    destruct (bank_lookup m 0 Hwf ltac:(lia)) as [b0 Hb0].
    destruct (bank_lookup m 1 Hwf ltac:(lia)) as [b1 Hb1].
    split.
    + unfold ppuRead. destruct (Z.leb_spec 8192 a); [lia|].
      destruct (chrMode m); simpl.
      * destruct (Z.ltb_spec a 4096).
        -- destruct Hlo as [Hlo|]; [|lia].
           destruct (bank_lookup m (u8 (2 + Z.shiftr a 10)) Hwf) as [b ->].
           { rewrite u8_small; lia. }
           simpl. apply rd1k_total, Hchr.
        -- destruct (Z.ltb_spec a 6144); [rewrite Hb0|rewrite Hb1];
             simpl; apply rd2k_total, Hchr.
      * destruct (Z.ltb_spec a 2048); [rewrite Hb0; apply rd2k_total, Hchr|].
        destruct (Z.ltb_spec a 4096); [rewrite Hb1; apply rd2k_total, Hchr|].
        destruct Hhi as [|Hhi]; [lia|].
        destruct (bank_lookup m (u8 (2 + Z.shiftr (a - 4096) 10)) Hwf)
          as [b ->].
        { rewrite u8_small; lia. }
        simpl. apply rd1k_total, Hchr.
    + unfold ppuWrite. destruct (Z.leb_spec 8192 a); [lia|].
      destruct (chrIsRAM m); simpl; [|eauto].
      destruct (chrMode m); simpl.
      * destruct (Z.ltb_spec a 4096).
        -- destruct Hlo as [Hlo|]; [|lia].
           destruct (bank_lookup m (2 + Z.shiftr a 10) Hwf ltac:(lia))
             as [b ->].
           simpl. apply wr1k_total, Hchr.
        -- destruct (Z.ltb_spec a 6144); [rewrite Hb0|rewrite Hb1];
             simpl; apply wr2k_total, Hchr.
      * destruct (Z.ltb_spec a 2048); [rewrite Hb0; apply wr2k_total, Hchr|].
        destruct (Z.ltb_spec a 4096); [rewrite Hb1; apply wr2k_total, Hchr|].
        destruct Hhi as [|Hhi]; [lia|].
        destruct (bank_lookup m (2 + Z.shiftr (a - 4096) 10) Hwf ltac:(lia))
          as [b ->].
        simpl. apply wr1k_total, Hchr.
Qed.
End MMC3Bounds.

Lemma mmc3_accesses_in_bounds_witness :
  is_Some (MapperMMC3.cpuRead demoBanked 0x8000) /\
  is_Some (MapperMMC3.ppuRead demoBanked 0x1FFF) /\
  is_Some (MapperMMC3.ppuWrite demoBanked 0x1FFF 0xAB).
Proof.
  assert (Hwf : MapperMMC3.wf demoBanked)
    by (split; [reflexivity | vm_compute; discriminate]).
  assert (Hprg : 0 < Z.of_nat (length (MapperMMC3.prg demoBanked)) < 4294967296)
    by (vm_compute; split; reflexivity).
  assert (Hchr : MapperMMC3.chr demoBanked <> []) by (vm_compute; discriminate).
  destruct (mmc3_accesses_in_bounds demoBanked 0x8000 0 Hwf Hprg Hchr)
    as [Hcpu _].
  destruct (mmc3_accesses_in_bounds demoBanked 0x1FFF 0xAB Hwf Hprg Hchr)
    as [_ Hppu].
  split; [apply Hcpu; lia | apply Hppu; lia].
Defined.

(** ** MMC3: the scanline counter *)

Section MMC3Irq.
Import MapperMMC3.

(** Low dots leave the counter registers alone, clear [prevA12], and let
    the low-time counter grow up to its cap. *)
Lemma a12Low_irq (n : nat) (m : state) :
  irqLatch (a12Low n m) = irqLatch m /\
  irqCounter (a12Low n m) = irqCounter m /\
  irqEnable (a12Low n m) = irqEnable m /\
  irqReload (a12Low n m) = irqReload m /\
  irqFlag (a12Low n m) = irqFlag m.
Proof.
  revert m. induction n as [|n IH]; intros m; simpl; [tauto|].
  destruct (IH (ppuA12Clock m false)) as (-> & -> & -> & -> & ->).
  unfold ppuA12Clock. simpl. destruct (a12LowCycles m <? 64); simpl; tauto.
Qed.

Lemma a12Low_prev (n : nat) (m : state) :
  (0 < n)%nat -> prevA12 (a12Low n m) = false.
Proof.
  revert m. induction n as [|n IH]; intros m Hn; [lia|]. simpl.
  destruct n as [|n]; [reflexivity|]. apply IH. lia.
Qed.

Lemma a12Low_cycles (n : nat) (m : state) :
  0 <= a12LowCycles m ->
  Z.min (a12LowCycles m + Z.of_nat n) 64 <= a12LowCycles (a12Low n m).
Proof.
  revert m. induction n as [|n IH]; intros m Hm; simpl a12Low; [lia|].
  assert (Hstep : a12LowCycles (ppuA12Clock m false)
                  = if a12LowCycles m <? 64 then a12LowCycles m + 1
                    else a12LowCycles m).
  { unfold ppuA12Clock. simpl. destruct (a12LowCycles m <? 64); reflexivity. }
  specialize (IH (ppuA12Clock m false)). rewrite Hstep in IH.
  destruct (Z.ltb_spec (a12LowCycles m) 64); lia.
Qed.

(** A rising edge after at least eight low dots clocks the counter. *)
Lemma a12Rise_clocks (m : state) (n : nat) :
  0 <= a12LowCycles m -> (8 <= n)%nat ->
  let m' := a12Rise m n in
  let k := clockCounter (a12Low n m) in
  irqLatch m' = irqLatch k /\ irqCounter m' = irqCounter k /\
  irqEnable m' = irqEnable k /\ irqReload m' = irqReload k /\
  irqFlag m' = irqFlag k /\ a12LowCycles m' = 0.
Proof.
  intros Hm Hn. unfold a12Rise, ppuA12Clock. simpl.
  rewrite a12Low_prev by lia. simpl.
  pose proof (a12Low_cycles n m Hm).
  destruct (Z.leb_spec 8 (a12LowCycles (a12Low n m))); [|lia].
  simpl. tauto.
Qed.

(** What one clock of the counter does to the IRQ registers. *)
Lemma clockCounter_fields (m : state) :
  let c := if irqReload m then irqLatch m
           else if irqCounter m =? 0 then irqLatch m
                else u8 (irqCounter m - 1) in
  irqLatch (clockCounter m) = irqLatch m /\
  irqEnable (clockCounter m) = irqEnable m /\
  irqReload (clockCounter m) = false /\
  irqCounter (clockCounter m) = c /\
  irqFlag (clockCounter m) = if (c =? 0) && irqEnable m then true
                             else irqFlag m.
Proof.
  unfold clockCounter.
  destruct (irqReload m) eqn:Hr; [|destruct (irqCounter m =? 0)]; simpl;
    match goal with
    | |- context [if ?c then set_irqFlag _ _ else _] => destruct c
    end; simpl; rewrite ?Hr; tauto.
Qed.

Lemma afterEdges_step (k n : nat) (m : state) :
  (8 <= n)%nat -> afterEdges k m -> afterEdges (S k) (a12Rise m n).
Proof.
  intros Hn (Hl & He & Hc & Hk).
  destruct (a12Rise_clocks m n Hc Hn) as (Hl' & Hc' & He' & Hr' & Hf' & Ha').
  destruct (a12Low_irq n m) as (Ll & Lc & Le & Lr & Lf).
  destruct (clockCounter_fields (a12Low n m)) as (Kl & Ke & Kr & Kc & Kf).
  unfold afterEdges.
  rewrite Hl', He', Hr', Hf', Hc', Ha', Kl, Ke, Kr, Kc, Kf.
  rewrite Ll, Lc, Le, Lr, Lf, Hl, He.
  split; [reflexivity|]. split; [reflexivity|]. split; [lia|].
  destruct k as [|j].
  - destruct Hk as [-> ->]. simpl. tauto.
  - destruct (Nat.ltb_spec j 5).
    + destruct Hk as (-> & -> & ->).
      destruct (Z.eqb_spec (5 - Z.of_nat j) 0); [lia|].
      rewrite u8_small by lia.
      destruct (Nat.ltb_spec (S j) 5);
        destruct (Z.eqb_spec (5 - Z.of_nat j - 1) 0); simpl;
        try lia; repeat split; lia.
    + destruct (Nat.ltb_spec (S j) 5); [lia|]. rewrite Hk.
      match goal with
      | |- (if ?c then _ else _) = _ => destruct c; reflexivity
      end.
Qed.

Lemma afterEdges_run (lows : list nat) (k : nat) (m : state) :
  Forall (fun n => (8 <= n)%nat) lows -> afterEdges k m ->
  afterEdges (k + length lows) (a12Edges lows m).
Proof.
  revert k m. induction lows as [|n lows IH]; intros k m Hall Hk.
  - simpl. rewrite Nat.add_0_r. exact Hk.
  - inversion Hall as [|? ? Hn Hrest]; subst. simpl.
    replace (k + S (length lows))%nat with (S k + length lows)%nat by lia.
    apply IH; [assumption|]. apply afterEdges_step; assumption.
Qed.

(** C5, as the code has it: from latch 5 with a reload pending and the IRQ
    enabled, and with every rising edge preceded by at least eight low
    dots, the IRQ flag is up after a train of edges exactly when the train
    has six edges or more.  The first edge reloads the counter to 5, the
    next five count it down to 0, and the sixth edge raises the flag. *)
Theorem mmc3_irq_on_sixth_edge (m : state) (lows : list nat) :
  wf m ->
  irqLatch m = 5 -> irqCounter m = 0 -> irqReload m = true ->
  irqEnable m = true -> irqFlag m = false ->
  Forall (fun n => (8 <= n)%nat) lows ->
  irqPending (a12Edges lows m) = true <-> (6 <= length lows)%nat.
Proof.
  intros [_ Hc] Hl _ Hr He Hf Hall.
  assert (H0 : afterEdges 0 m) by (unfold afterEdges; tauto).
  pose proof (afterEdges_run lows 0 m Hall H0) as (_ & _ & _ & Hk).
  simpl in Hk. unfold irqPending.
  destruct (length lows) as [|j]; [destruct Hk as [_ ->]; split; [discriminate|lia]|].
  destruct (Nat.ltb_spec j 5).
  - destruct Hk as (_ & -> & _). split; [discriminate|lia].
  - rewrite Hk. split; [lia|reflexivity].
Qed.

Lemma mmc3_irq_on_sixth_edge_witness :
  exists m, armed 5 = Some m /\
    (irqPending (a12Edges [8; 9; 10; 64; 100; 8]%nat m) = true
     <-> (6 <= 6)%nat).
Proof.
  eexists. split; [vm_compute; reflexivity|].
  apply mmc3_irq_on_sixth_edge;
    try (vm_compute; (reflexivity || (split; [reflexivity|discriminate]))).
  repeat constructor; lia.
Defined.

(** C5 as stated fails: after the fifth valid edge the counter holds 1 and
    no IRQ is pending. *)
Lemma mmc3_fifth_edge_no_irq :
  exists m, armed 5 = Some m /\
    irqLatch m = 5 /\ irqCounter m = 0 /\ irqReload m = true /\
    irqEnable m = true /\
    irqPending (a12Edges [8; 8; 8; 8; 8]%nat m) = false /\
    irqCounter (a12Edges [8; 8; 8; 8; 8]%nat m) = 1.
Proof. eexists. split; [vm_compute; reflexivity|]. vm_compute. tauto. Qed.
End MMC3Irq.

(** ** OAM DMA *)

Lemma upto_S (n : nat) : upto (Z.of_nat (S n)) = upto (Z.of_nat n) ++ [Z.of_nat n].
Proof.
  unfold upto. rewrite !Nat2Z.id. rewrite seq_S, map_app. reflexivity.
Qed.

Lemma forM_app {S : Type} (l1 l2 : list Z) (body : S -> Z -> option S) (s : S) :
  forM (l1 ++ l2) body s = s' ← forM l1 body s; forM l2 body s'.
Proof.
  unfold forM. rewrite fold_left_app.
  destruct (fold_left _ l1 (Some s)) as [s'|]; simpl; [reflexivity|].
  induction l2 as [|i l2 IH]; simpl; [reflexivity | exact IH].
Qed.

Lemma forM_single {S : Type} (i : Z) (body : S -> Z -> option S) (s : S) :
  forM [i] body s = body s i.
Proof. reflexivity. Qed.

(** Two different offsets below 256 land on different OAM slots. *)
Lemma u8_add_inj (start i j : Z) :
  0 <= i < 256 -> 0 <= j < 256 -> u8 (start + i) = u8 (start + j) -> i = j.
Proof. unfold u8. intros Hi Hj Heq. Z.div_mod_to_equations. lia. Qed.

Section OamDMAPure.
(** A callback that delivers byte [data i] for offset [i] and leaves the
    world as it is, whatever the DMA has stored so far. *)
Context {W : Type} (get : W -> PPU.state) (put : PPU.state -> W -> W).
Context (fetch256 : Z -> W -> option (Z * W)) (data : Z -> Z) (w0 : W).
Hypothesis get_put : forall p w, get (put p w) = p.
Hypothesis put_put : forall p q w, put p (put q w) = put p w.
Hypothesis put_get : put (get w0) w0 = w0.
Hypothesis fetch_pure :
  forall i p, 0 <= i < 256 -> fetch256 i (put p w0) = Some (data i, put p w0).
Hypothesis oam_size : length (PPU.oam (get w0)) = 256%nat.

Lemma oamDMA_prefix (n : nat) :
  (n <= 256)%nat ->
  exists o,
    forM (upto (Z.of_nat n))
      (PPU.oamDMAStep get put fetch256 (PPU.OAMADDR (get w0))) w0
    = Some (put (PPU.set_oam o (get w0)) w0) /\
    length o = 256%nat /\
    (forall i, 0 <= i < Z.of_nat n ->
       rd_at o (u8 (PPU.OAMADDR (get w0) + i)) = Some (data i)) /\
    (forall k, 0 <= k < 256 ->
       (forall i, 0 <= i < Z.of_nat n -> k <> u8 (PPU.OAMADDR (get w0) + i)) ->
       rd_at o k = rd_at (PPU.oam (get w0)) k).
Proof.
  induction n as [|n IH]; intros Hn.
  - exists (PPU.oam (get w0)). split; [|split; [assumption|split]].
    + simpl. f_equal. rewrite <- put_get at 1. f_equal.
      destruct (get w0); reflexivity.
    + intros i Hi. lia.
    + reflexivity.
  - destruct IH as (o & Hrun & Hlen & Hdone & Hrest); [lia|].
    rewrite upto_S, forM_app, Hrun. simpl. rewrite forM_single.
    unfold PPU.oamDMAStep.
    rewrite (u8_small (Z.of_nat n)) by lia.
    rewrite fetch_pure by lia. simpl. rewrite get_put. simpl.
    pose proof (u8_range (PPU.OAMADDR (get w0) + Z.of_nat n)) as Hslot.
    destruct (wr_at_is_Some o (u8 (PPU.OAMADDR (get w0) + Z.of_nat n))
                (data (Z.of_nat n))) as [o' Ho']; [lia|].
    rewrite Ho'. simpl. exists o'. rewrite put_put.
    split; [reflexivity|]. split; [rewrite (wr_at_length _ _ _ _ Ho'); exact Hlen|].
    split.
    + intros i Hi. destruct (Z.eq_dec i (Z.of_nat n)) as [->|Hne].
      * apply (rd_wr_same _ _ _ _ Ho').
      * rewrite (rd_wr_other _ _ _ _ _ Ho').
        -- apply Hdone. lia.
        -- apply u8_range.
        -- intros Heq. apply u8_add_inj in Heq; lia.
    + intros k Hk Hfree.
      rewrite (rd_wr_other _ _ _ _ _ Ho'); [|lia|].
      * apply Hrest; [assumption|]. intros i Hi. apply Hfree. lia.
      * intros Heq. apply (Hfree (Z.of_nat n)); [lia|]. symmetry. exact Heq.
Qed.

(** The whole transfer: byte [i] of the source lands in slot
    [(OAMADDR + i) mod 256], and only the OAM array of the PPU changes. *)
Lemma oamDMA_pure :
  exists o,
    PPU.oamDMA get put fetch256 w0 = Some (put (PPU.set_oam o (get w0)) w0) /\
    length o = 256%nat /\
    forall i, 0 <= i < 256 ->
      rd_at o ((PPU.OAMADDR (get w0) + i) mod 256) = Some (data i).
Proof.
  destruct (oamDMA_prefix 256) as (o & Hrun & Hlen & Hdone & _); [lia|].
  exists o. split; [exact Hrun|]. split; [exact Hlen|].
  intros i Hi. apply Hdone. simpl. lia.
Qed.
End OamDMAPure.

(** C9: for every OAMADDR and every 256-byte page, the DMA stores byte [i]
    of the page at OAM index [(OAMADDR + i) mod 256] for all [i] in
    0..255, and the PPU it returns differs from the one it started from in
    the OAM array only: OAMADDR and every other register are unchanged. *)
Theorem oam_dma_rotates_page (p : PPU.state) (page : list Z) :
  length (PPU.oam p) = 256%nat ->
  length page = 256%nat ->
  exists o,
    oamDMAFromPage page p = Some (PPU.set_oam o p) /\
    length o = 256%nat /\
    PPU.OAMADDR (PPU.set_oam o p) = PPU.OAMADDR p /\
    forall i, 0 <= i < 256 ->
      rd_at o ((PPU.OAMADDR p + i) mod 256) = rd_at page i.
Proof.
  intros Hoam Hpage.
  assert (Hdata : forall i, 0 <= i < 256 -> exists b, rd_at page i = Some b).
  { intros i Hi. apply rd_at_is_Some. lia. }
  destruct (oamDMA_pure (fun p => p) (fun p _ => p) (pageFetch page)
              (fun i => default 0 (rd_at page i)) p) as (o & Hrun & Hlen & Hall);
    try reflexivity; try assumption.
  { intros i q Hi. unfold pageFetch. destruct (Hdata i Hi) as [b ->].
    reflexivity. }
  exists o. split; [exact Hrun|]. split; [exact Hlen|]. split; [reflexivity|].
  intros i Hi. rewrite Hall by assumption.
  destruct (Hdata i Hi) as [b ->]. reflexivity.
Qed.

Lemma oam_dma_rotates_page_witness :
  exists o,
    oamDMAFromPage (upto 256) (PPU.set_OAMADDR 0xF0 PPU.init)
    = Some (PPU.set_oam o (PPU.set_OAMADDR 0xF0 PPU.init)) /\
    length o = 256%nat /\
    PPU.OAMADDR (PPU.set_oam o (PPU.set_OAMADDR 0xF0 PPU.init)) = 0xF0 /\
    forall i, 0 <= i < 256 ->
      rd_at o ((0xF0 + i) mod 256) = rd_at (upto 256) i.
Proof.
  apply (oam_dma_rotates_page (PPU.set_OAMADDR 0xF0 PPU.init) (upto 256));
    reflexivity.
Defined.

Section OamDMAGeneral.
(** Any callback that does not itself write OAM: the byte it delivers at
    offset [i] is the byte found in slot [(start + i) mod 256] at the end,
    and whatever the callback and the store preserve is preserved. *)
Context {W : Type} (get : W -> PPU.state) (put : PPU.state -> W -> W).
Context (fetch256 : Z -> W -> option (Z * W)) (start : Z).
Hypothesis get_put : forall p w, get (put p w) = p.
Hypothesis fetch_oam :
  forall i w b w', fetch256 i w = Some (b, w') ->
                   PPU.oam (get w') = PPU.oam (get w).

Let dmaStep := PPU.oamDMAStep get put fetch256 start.

Lemma oamDMAStep_inv (w w2 : W) (i : Z) :
  dmaStep w i = Some w2 ->
  exists b w1 o,
    fetch256 (u8 i) w = Some (b, w1) /\
    wr_at (PPU.oam (get w)) (u8 (start + i)) b = Some o /\
    w2 = put (PPU.set_oam o (get w1)) w1.
Proof.
  unfold dmaStep, PPU.oamDMAStep. intros Hs.
  destruct (fetch256 (u8 i) w) as [[b w1]|] eqn:Hf; [|discriminate].
  simpl in Hs. rewrite (fetch_oam _ _ _ _ Hf) in Hs.
  destruct (wr_at (PPU.oam (get w)) (u8 (start + i)) b) as [o|] eqn:Ho;
    [|discriminate].
  simpl in Hs. injection Hs as <-. eauto 6.
Qed.

Lemma oamDMA_bytes (n : nat) (w0 wn : W) :
  (n <= 256)%nat ->
  forM (upto (Z.of_nat n)) dmaStep w0 = Some wn ->
  forall i, 0 <= i < Z.of_nat n ->
    exists w b w',
      forM (upto i) dmaStep w0 = Some w /\
      fetch256 i w = Some (b, w') /\
      rd_at (PPU.oam (get wn)) (u8 (start + i)) = Some b.
Proof.
  revert wn. induction n as [|n IH]; intros wn Hn Hrun i Hi; [lia|].
  rewrite upto_S, forM_app in Hrun.
  destruct (forM (upto (Z.of_nat n)) dmaStep w0) as [w|] eqn:Hpre;
    [|discriminate].
  simpl in Hrun. rewrite forM_single in Hrun.
  apply oamDMAStep_inv in Hrun as (b & w1 & o & Hf & Ho & ->).
  rewrite get_put. simpl.
  rewrite u8_small in Hf by lia.
  destruct (Z.eq_dec i (Z.of_nat n)) as [->|Hne].
  - exists w, b, w1. split; [exact Hpre|]. split; [exact Hf|].
    apply (rd_wr_same _ _ _ _ Ho).
  - destruct (IH w ltac:(lia) eq_refl i ltac:(lia)) as (wi & bi & wi' & H1 & H2 & H3).
    exists wi, bi, wi'. split; [exact H1|]. split; [exact H2|].
    rewrite (rd_wr_other _ _ _ _ _ Ho); [exact H3|apply u8_range|].
    intros Heq. apply u8_add_inj in Heq; lia.
Qed.

(** A view [proj] of the world that neither the callback nor the store
    into OAM changes is the same after the transfer. *)
Lemma oamDMA_preserves {X : Type} (proj : W -> X) (l : list Z) (w0 wn : W) :
  (forall i w b w', fetch256 i w = Some (b, w') -> proj w' = proj w) ->
  (forall o w, proj (put (PPU.set_oam o (get w)) w) = proj w) ->
  forM l dmaStep w0 = Some wn -> proj wn = proj w0.
Proof.
  intros Hfetch Hput. revert wn.
  induction l as [|i l IH] using rev_ind; intros wn Hrun.
  - injection Hrun as <-. reflexivity.
  - rewrite forM_app in Hrun.
    destruct (forM l dmaStep w0) as [w|] eqn:Hpre; [|discriminate].
    simpl in Hrun. rewrite forM_single in Hrun.
    apply oamDMAStep_inv in Hrun as (b & w1 & o & Hf & Ho & ->).
    rewrite Hput, (Hfetch _ _ _ _ Hf). apply IH. reflexivity.
Qed.
End OamDMAGeneral.

(** ** The bus *)

Section BusFrame.
Context {M A : Type} `{Mapper.ops M} `{APU.ops A}.
Import Machine.

(** A register read of the PPU changes neither OAM nor OAMADDR. *)
Lemma cpuReadRegister_oam (c : option (Cartridge.state M)) (p p' : PPU.state)
      (a b : Z) :
  PPU.cpuReadRegister c p a = Some (b, p') ->
  PPU.oam p' = PPU.oam p /\ PPU.OAMADDR p' = PPU.OAMADDR p.
Proof.
  unfold PPU.cpuReadRegister. intros Hr.
  destruct (Z.land a 7 =? 2); [injection Hr as _ <-; split; reflexivity|].
  destruct (Z.land a 7 =? 4).
  { destruct (rd_at (PPU.oam p) (PPU.OAMADDR p)); [|discriminate].
    injection Hr as _ <-. split; reflexivity. }
  destruct (Z.land a 7 =? 7).
  { destruct (PPU.ppuRead c p (PPU.v p)); [|discriminate].
    injection Hr as _ <-. split; reflexivity. }
  injection Hr as _ <-. split; reflexivity.
Qed.

(** A bus read reaches the PPU registers, the APU status and the
    controller; it leaves the CPU, the system RAM, the cartridge, OAM and
    OAMADDR as they are. *)
Lemma cpuRead_frame (a b : Z) (s s' : Machine.state M A) :
  Bus.cpuRead a s = Some (b, s') ->
  cpu s' = cpu s /\ sysRAM s' = sysRAM s /\ cart s' = cart s /\
  nmiLinePrev s' = nmiLinePrev s /\
  PPU.oam (ppu s') = PPU.oam (ppu s) /\
  PPU.OAMADDR (ppu s') = PPU.OAMADDR (ppu s).
Proof.
  unfold Bus.cpuRead. intros Hr.
  destruct (a <? 8192).
  { destruct (rd_at (sysRAM s) (Z.land a 2047)); [|discriminate].
    injection Hr as _ <-. tauto. }
  destruct (a <? 16384).
  { destruct (PPU.cpuReadRegister (cart s) (ppu s) (u16 (8192 + Z.land a 7)))
      as [[b' p']|] eqn:Hp; [|discriminate].
    injection Hr as _ <-. apply cpuReadRegister_oam in Hp. simpl. tauto. }
  destruct (a =? 16405).
  { destruct (APU.cpuRead (apu s) 16405). injection Hr as _ <-. simpl. tauto. }
  destruct (a =? 16406).
  { destruct (input s) as [i|]; [destruct (Input.read4016 i)|];
      injection Hr as _ <-; simpl; tauto. }
  destruct (a =? 16407); [injection Hr as _ <-; tauto|].
  destruct ((16384 <=? a) && (a <=? 16407)); [injection Hr as _ <-; tauto|].
  destruct (16416 <=? a); [|injection Hr as _ <-; tauto].
  destruct (cart s) as [c|] eqn:Hc; [|injection Hr as _ <-; intuition congruence].
  destruct (Cartridge.cpuRead c a); [|discriminate].
  injection Hr as _ <-. intuition congruence.
Qed.

(** Reading internal RAM returns the stored byte and changes nothing. *)
Lemma cpuRead_ram (a : Z) (s : Machine.state M A) :
  0 <= a < 0x2000 -> length (sysRAM s) = 2048%nat ->
  exists b, rd_at (sysRAM s) (Z.land a 0x07FF) = Some b /\
            Bus.cpuRead a s = Some (b, s).
Proof.
  intros Ha Hlen.
  assert (Hidx : 0 <= Z.land a 0x07FF < 2048).
  { change 0x07FF with (Z.ones 11). rewrite Z.land_ones by lia.
    apply Z.mod_pos_bound. lia. }
  destruct (rd_at_is_Some (sysRAM s) (Z.land a 0x07FF)) as [b Hb]; [lia|].
  exists b. split; [exact Hb|]. unfold Bus.cpuRead.
  destruct (Z.ltb_spec a 8192); [|lia]. rewrite Hb. reflexivity.
Qed.
End BusFrame.

Lemma bit_set_1_odd (x : Z) : bit_set x 1 = Z.odd x.
Proof.
  unfold bit_set. change 1 with (Z.ones 1) at 1.
  rewrite Z.land_ones by lia. change (2 ^ 1) with 2. rewrite Zmod_odd.
  destruct (Z.odd x); reflexivity.
Qed.

Lemma sint_small (x : Z) : - INT_MAX - 1 <= x <= INT_MAX -> sint x = Some x.
Proof.
  intros Hx. unfold sint.
  destruct (Z.leb_spec (- INT_MAX - 1) x); [|lia].
  destruct (Z.leb_spec x INT_MAX); [reflexivity|lia].
Qed.

Section DMA.
Context {M A : Type} `{Mapper.ops M} `{APU.ops A}.
Import Machine.

(** The CPU in a DMA stall: one call of [step] takes one cycle off the
    stall, adds one to the cycle counter and touches nothing else; no
    opcode is fetched. *)
Lemma step_in_stall (t : Machine.state M A) :
  0 < CPU.dma_stall_cycles (cpu t) <= INT_MAX ->
  CPUImpl.step t
  = Some (1, set_cpu (CPU.set_cycles (u64 (CPU.cycles (cpu t) + 1))
                        (CPU.set_dma_stall_cycles
                           (CPU.dma_stall_cycles (cpu t) - 1) (cpu t))) t).
Proof.
  intros Hst. unfold CPUImpl.step, CPUImpl.bind, CPUImpl.reg. simpl.
  destruct (Z.eqb_spec (CPU.dma_stall_cycles (cpu t)) 0); [lia|]. simpl.
  rewrite sint_small by (unfold INT_MAX in *; lia). reflexivity.
Qed.

(** C7: a write of [val] to $4014 adds 513 cycles of stall when the cycle
    counter is even and 514 when it is odd, and copies into OAM slot
    [(OAMADDR + i) mod 256] the byte the bus delivers for address
    [val * 256 + i], for [i] = 0..255 in this order; from a page of
    internal RAM the write always returns and the bytes are those of the
    page.  While the stall lasts, [step] consumes one cycle and fetches
    nothing. *)
Theorem oam_dma_transfer_and_stall (s : Machine.state M A) (val : Z) :
  length (PPU.oam (ppu s)) = 256%nat ->
  0 <= val < 256 ->
  0 <= CPU.dma_stall_cycles (cpu s) <= INT_MAX - 514 ->
  let added := if Z.even (CPU.cycles (cpu s)) then 513 else 514 in
  let s1 := set_cpu (CPU.set_dma_stall_cycles
                       (CPU.dma_stall_cycles (cpu s) + added) (cpu s)) s in
  let start := PPU.OAMADDR (ppu s) in
  let dmaStep :=
    PPU.oamDMAStep ppu set_ppu
      (fun i => Bus.cpuRead (u16 (u16 (Z.shiftl val 8) + i))) start in
  (forall s', Bus.cpuWrite 0x4014 val s = Some s' ->
     cpu s' = cpu s1 /\ PPU.OAMADDR (ppu s') = start /\
     forall i, 0 <= i < 256 ->
       exists w b w',
         forM (upto i) dmaStep s1 = Some w /\
         Bus.cpuRead (val * 256 + i) w = Some (b, w') /\
         rd_at (PPU.oam (ppu s')) ((start + i) mod 256) = Some b) /\
  (val < 0x20 -> length (sysRAM s) = 2048%nat ->
     exists o,
       Bus.cpuWrite 0x4014 val s = Some (set_ppu (PPU.set_oam o (ppu s)) s1) /\
       forall i, 0 <= i < 256 ->
         rd_at o ((start + i) mod 256)
         = rd_at (sysRAM s) (Z.land (val * 256 + i) 0x07FF)) /\
  (forall t : Machine.state M A,
     0 < CPU.dma_stall_cycles (cpu t) <= INT_MAX ->
     CPUImpl.step t
     = Some (1, set_cpu (CPU.set_cycles (u64 (CPU.cycles (cpu t) + 1))
                           (CPU.set_dma_stall_cycles
                              (CPU.dma_stall_cycles (cpu t) - 1) (cpu t))) t)).
Proof.
  intros Hoam Hval Hst added s1 start dmaStep.
  assert (Hbase : u16 (Z.shiftl val 8) = val * 256).
  { rewrite Z.shiftl_mul_pow2 by lia. change (2 ^ 8) with 256.
    apply u16_small. lia. }
  assert (Hwrite : Bus.cpuWrite 0x4014 val s = PPU.oamDMA ppu set_ppu
            (fun i => Bus.cpuRead (u16 (u16 (Z.shiftl val 8) + i))) s1).
  { unfold Bus.cpuWrite. simpl. rewrite bit_set_1_odd.
    replace (513 + (if Z.odd (CPU.cycles (cpu s)) then 1 else 0)) with added.
    - rewrite sint_small; [reflexivity|].
      subst added. unfold INT_MAX in *.
      destruct (Z.even (CPU.cycles (cpu s))); lia.
    - subst added. rewrite <- Z.negb_odd.
      destruct (Z.odd (CPU.cycles (cpu s))); reflexivity. }
  split; [|split].
  - intros s' Hw. rewrite Hwrite in Hw. unfold PPU.oamDMA in Hw.
    change (PPU.OAMADDR (ppu s1)) with start in Hw. fold dmaStep in Hw.
    assert (Hfo : forall i w b w',
               Bus.cpuRead (u16 (u16 (Z.shiftl val 8) + i)) w = Some (b, w') ->
               PPU.oam (ppu w') = PPU.oam (ppu w)).
    { intros i w b w' Hr. apply cpuRead_frame in Hr. tauto. }
    split; [|split].
    + apply (oamDMA_preserves ppu set_ppu _ start Hfo
               cpu (upto 256) s1 s'); [|reflexivity|exact Hw].
      intros i w b w' Hr. apply cpuRead_frame in Hr. tauto.
    + apply (oamDMA_preserves ppu set_ppu _ start Hfo
               (fun w => PPU.OAMADDR (ppu w)) (upto 256) s1 s');
        [|reflexivity|exact Hw].
      intros i w b w' Hr. apply cpuRead_frame in Hr. tauto.
    + intros i Hi.
      destruct (oamDMA_bytes ppu set_ppu _ start (fun _ _ => eq_refl) Hfo
                  256 s1 s' ltac:(lia) Hw i ltac:(simpl; lia))
        as (w & b & w' & H1 & H2 & H3).
      exists w, b, w'. split; [exact H1|].
      rewrite Hbase, u16_small in H2 by lia. split; [exact H2|exact H3].
  - intros Hram Hlen.
    assert (Heta : set_ppu (ppu s1) s1 = s1) by (destruct s; reflexivity).
    assert (Hpure : forall i p, 0 <= i < 256 ->
              Bus.cpuRead (u16 (u16 (Z.shiftl val 8) + i)) (set_ppu p s1)
              = Some (default 0 (rd_at (sysRAM s)
                                   (Z.land (val * 256 + i) 0x07FF)),
                      set_ppu p s1)).
    { intros i p Hi. rewrite Hbase, u16_small by lia.
      destruct (cpuRead_ram (val * 256 + i) (set_ppu p s1)) as (b & Hb & Hr);
        [lia|exact Hlen|].
      rewrite Hr. simpl in Hb. rewrite Hb. reflexivity. }
    destruct (oamDMA_pure ppu set_ppu
                (fun i => Bus.cpuRead (u16 (u16 (Z.shiftl val 8) + i)))
                (fun i => default 0 (rd_at (sysRAM s)
                                       (Z.land (val * 256 + i) 0x07FF)))
                s1 (fun _ _ => eq_refl) (fun _ _ _ => eq_refl)
                Heta Hpure Hoam) as (o & Hrun & _ & Hall).
    exists o. rewrite Hwrite. split; [exact Hrun|].
    intros i Hi. specialize (Hall i Hi). simpl in Hall. fold start in Hall.
    rewrite Hall.
    destruct (cpuRead_ram (val * 256 + i) s) as (b & Hb & _);
      [lia|exact Hlen|].
    rewrite Hb. reflexivity.
  - exact step_in_stall.
Qed.
End DMA.

(** ** Concrete machines *)

Example demo_powerOn :
  Machine.cpu <$> NES.powerOn APU.init demoBoot
  = Some {| CPU.A := 0; CPU.X := 0; CPU.Y := 0; CPU.S := 0xFD;
            CPU.PC := 0x1234; CPU.P := 0x24; CPU.cycles := 0;
            CPU.pending_nmi := false; CPU.pending_irq := false;
            CPU.irq_delay := 0; CPU.dma_stall_cycles := 0 |}.
Proof. vm_compute. reflexivity. Qed.

Lemma oam_dma_transfer_and_stall_witness :
  let s := Machine.set_cpu (CPU.set_cycles 1 (Machine.cpu demoMachine))
             demoMachine in
  exists s', Bus.cpuWrite 0x4014 0x02 s = Some s' /\
             CPU.dma_stall_cycles (Machine.cpu s') = 514.
Proof.
  intros s.
  destruct (oam_dma_transfer_and_stall s 0x02) as (_ & Hram & _);
    [reflexivity | lia | vm_compute; split; discriminate |].
  destruct Hram as (o & Hw & _); [lia | reflexivity |].
  eexists. split; [exact Hw | reflexivity].
Defined.

(** ** The CPU *)

Section CpuFacts.
Context {M A : Type} `{Mapper.ops M} `{APU.ops A}.
Import Machine.

(** For every prior state: when the two vector bytes can be read, [reset]
    returns, with S = $FD, P = $24, PC the little-endian word of the
    vector, [cycles], [dma_stall_cycles] and both pending flags cleared,
    and [irq_delay] as it was. *)
Lemma reset_spec (s s1 s2 : Machine.state M A) (lo hi : Z) :
  Bus.cpuRead 0xFFFC s = Some (lo, s1) ->
  Bus.cpuRead 0xFFFD s1 = Some (hi, s2) ->
  CPUImpl.reset s
  = Some (tt, set_cpu (afterReset (u16 (Z.lor lo (Z.shiftl hi 8))) (cpu s)) s2).
Proof.
  intros Hlo Hhi. unfold CPUImpl.reset, CPUImpl.bind, CPUImpl.rd.
  rewrite Hlo, Hhi. simpl.
  apply cpuRead_frame in Hlo as (Hc1 & _). apply cpuRead_frame in Hhi as (Hc2 & _).
  unfold afterReset. rewrite Hc2, Hc1. reflexivity.
Qed.
End CpuFacts.

(** C4 at a CPU whose [irq_delay] is set (the state an SEI, CLI, PLP or RTI
    leaves): [reset] assigns PC, A, X, Y, S, P, [cycles], the pending
    flags and [dma_stall_cycles], and returns with [irq_delay] still 1. *)
Theorem reset_keeps_irq_delay :
  let s := Machine.set_cpu (CPU.set_irq_delay 1 (Machine.cpu demoMachine))
             demoMachine in
  cpuOf (CPUImpl.reset s)
  = Some {| CPU.A := 0; CPU.X := 0; CPU.Y := 0; CPU.S := 0xFD;
            CPU.PC := 0x1234; CPU.P := 0x24; CPU.cycles := 0;
            CPU.pending_nmi := false; CPU.pending_irq := false;
            CPU.irq_delay := 1; CPU.dma_stall_cycles := 0 |}.
Proof. vm_compute. reflexivity. Qed.

(** A property of a byte checked on all 256 values. *)
Lemma forall_u8 (P : Z -> bool) :
  forallb P (upto 256) = true -> forall x, 0 <= x < 256 -> P x = true.
Proof.
  intros Hall x Hx. rewrite forallb_forall in Hall. apply Hall.
  unfold upto. apply in_map_iff. exists (Z.to_nat x).
  split; [lia | apply in_seq; lia].
Qed.

Lemma stack_addr (sp : Z) : 0 <= sp < 256 -> u16 (Z.lor 0x0100 sp) = 256 + sp.
Proof.
  intros Hsp.
  apply Z.eqb_eq, (forall_u8 (fun x => u16 (Z.lor 0x0100 x) =? 256 + x));
    [vm_compute; reflexivity | exact Hsp].
Qed.

Lemma land_small (a : Z) : 0 <= a < 2048 -> Z.land a 0x07FF = a.
Proof.
  intros Ha. change 0x07FF with (Z.ones 11). rewrite Z.land_ones by lia.
  apply Z.mod_small. lia.
Qed.

Section StackFacts.
Context {M A : Type} `{Mapper.ops M} `{APU.ops A}.
Import Machine.

(** The stack lives in page 1 of the internal RAM. *)
Lemma push8_spec (s : Machine.state M A) (val : Z) :
  length (sysRAM s) = 2048%nat -> 0 <= CPU.S (cpu s) < 256 ->
  CPUImpl.push8 val s
  = Some (tt, set_cpu (CPU.set_S (u8 (CPU.S (cpu s) - 1)) (cpu s))
                (set_sysRAM (<[Z.to_nat (256 + CPU.S (cpu s)) := val]> (sysRAM s))
                   s)).
Proof.
  intros Hlen Hsp.
  unfold CPUImpl.push8, CPUImpl.bind, CPUImpl.reg, CPUImpl.wr, CPUImpl.upd.
  rewrite stack_addr by assumption. unfold Bus.cpuWrite.
  destruct (Z.ltb_spec (256 + CPU.S (cpu s)) 8192); [|lia].
  rewrite land_small by lia. unfold wr_at.
  destruct (Z.leb_spec 0 (256 + CPU.S (cpu s))); [|lia].
  destruct (Z.ltb_spec (256 + CPU.S (cpu s)) (Z.of_nat (length (sysRAM s))));
    [|lia].
  reflexivity.
Qed.

Lemma pull8_spec (s : Machine.state M A) (b : Z) :
  length (sysRAM s) = 2048%nat -> 0 <= CPU.S (cpu s) < 256 ->
  rd_at (sysRAM s) (256 + u8 (CPU.S (cpu s) + 1)) = Some b ->
  CPUImpl.pull8 s
  = Some (b, set_cpu (CPU.set_S (u8 (CPU.S (cpu s) + 1)) (cpu s)) s).
Proof.
  intros Hlen Hsp Hb.
  unfold CPUImpl.pull8, CPUImpl.bind, CPUImpl.reg, CPUImpl.rd, CPUImpl.upd.
  simpl. pose proof (u8_range (CPU.S (cpu s) + 1)) as Hr.
  rewrite stack_addr by assumption. unfold Bus.cpuRead.
  destruct (Z.ltb_spec (256 + u8 (CPU.S (cpu s) + 1)) 8192); [|lia].
  rewrite land_small by lia. simpl. rewrite Hb. reflexivity.
Qed.

(** The status register after PHP followed by PLP, for every machine with
    its stack pointer in range: the byte pushed is pulled back, B is
    dropped and U forced, and then Z and N are set from the accumulator. *)
Lemma php_plp_status (s : Machine.state M A) :
  length (sysRAM s) = 2048%nat -> 0 <= CPU.S (cpu s) < 256 ->
  exists s1 s2,
    CPUImpl.exec 0x08 s = Some (3, s1) /\
    CPUImpl.exec 0x28 s1 = Some (4, s2) /\
    CPU.P (cpu s2)
    = CPU.P (CPU.setZN (CPU.A (cpu s))
               (CPU.set_P (u8 (Z.lor (clear_bits (u8 (Z.lor (CPU.P (cpu s)) 0x10))
                                        0x10) 0x20)) (cpu s))) /\
    CPU.S (cpu s2) = CPU.S (cpu s) /\ CPU.A (cpu s2) = CPU.A (cpu s).
Proof.
  intros Hlen Hsp.
  pose proof (u8_range (CPU.S (cpu s) - 1)) as Hr.
  assert (Hback : u8 (u8 (CPU.S (cpu s) - 1) + 1) = CPU.S (cpu s)).
  { unfold u8. Z.div_mod_to_equations. lia. }
  eexists. eexists. split; [|split].
  - simpl. unfold CPUImpl.bind at 1. unfold CPUImpl.reg at 1.
    unfold CPUImpl.bind at 1. rewrite push8_spec by assumption. reflexivity.
  - simpl. unfold CPUImpl.bind at 1.
    rewrite (pull8_spec _ (u8 (Z.lor (CPU.P (cpu s)) 0x10))).
    + reflexivity.
    + simpl. rewrite length_insert. exact Hlen.
    + simpl. exact Hr.
    + simpl. rewrite Hback. unfold rd_at.
      destruct (Z.leb_spec 0 (256 + CPU.S (cpu s))); [|lia].
      apply list_lookup_insert_eq. lia.
  - simpl. rewrite Hback. unfold CPU.setZN, CPU.setf.
    destruct (CPU.A (cpu s) =? 0), (bit_set (CPU.A (cpu s)) 128);
      repeat split; reflexivity.
Qed.
End StackFacts.

Lemma plpFlagsOk_all (z n : bool) (p : Z) :
  0 <= p < 256 -> plpFlagsOk z n p = true.
Proof.
  apply forall_u8. destruct z, n; vm_compute; reflexivity.
Qed.

(** The same on flags: whatever P held, after PHP and PLP the carry,
    interrupt, decimal and overflow flags are back, B is clear and U set,
    while Z tells whether [a] is zero and N is bit 7 of [a]. *)
Lemma php_plp_flags (p a : Z) (c : CPU.state) :
  0 <= p < 256 ->
  let c' := CPU.setZN a
              (CPU.set_P (u8 (Z.lor (clear_bits (u8 (Z.lor p 0x10)) 0x10) 0x20))
                 c) in
  let before := CPU.set_P p c in
  CPU.getf CPU.flagC c' = CPU.getf CPU.flagC before /\
  CPU.getf CPU.flagI c' = CPU.getf CPU.flagI before /\
  CPU.getf CPU.flagD c' = CPU.getf CPU.flagD before /\
  CPU.getf CPU.flagV c' = CPU.getf CPU.flagV before /\
  CPU.getf CPU.flagB c' = false /\
  CPU.getf CPU.flagU c' = true /\
  CPU.getf CPU.flagZ c' = (a =? 0) /\
  CPU.getf CPU.flagN c' = bit_set a 0x80.
Proof.
  intros Hp c' before.
  assert (HP : CPU.P c' = statusAfterPlp p (a =? 0) (bit_set a 0x80)).
  { subst c'. unfold CPU.setZN, CPU.setf, statusAfterPlp.
    destruct (a =? 0), (bit_set a 0x80); reflexivity. }
  pose proof (plpFlagsOk_all (a =? 0) (bit_set a 0x80) p Hp) as Hall.
  unfold plpFlagsOk in Hall. rewrite !andb_true_iff in Hall.
  destruct Hall as (((((((H1 & H2) & H3) & H4) & H5) & H6) & H7) & H8).
  apply eqb_prop in H1, H2, H3, H4, H7, H8. apply negb_true_iff in H5.
  unfold CPU.getf. rewrite HP. subst before. cbn [CPU.P CPU.set_P].
  fold (flagOf CPU.flagC (statusAfterPlp p (a =? 0) (bit_set a 0x80))).
  repeat split; assumption.
Qed.

(** C2 at the machine [powerOn] leaves (A = 0, P = $24, so Z is clear):
    PHP followed by PLP returns with P = $26.  The Z flag, clear before the
    PHP, is set after the PLP, because PLP ends with [setZN8(A)]. *)
Theorem php_plp_sets_Z_from_A :
  CPU.A (Machine.cpu demoMachine) = 0 /\
  CPU.P (Machine.cpu demoMachine) = 0x24 /\
  CPU.getf CPU.flagZ (Machine.cpu demoMachine) = false /\
  CPU.P <$> phpThenPlp demoMachine = Some 0x26 /\
  CPU.getf CPU.flagZ <$> phpThenPlp demoMachine = Some true.
Proof. vm_compute. repeat split; reflexivity. Qed.

(** The N flag is overwritten the same way: with A = $80 and P = $24, the
    PLP returns P = $A4. *)
Example php_plp_sets_N_from_A :
  CPU.P <$> phpThenPlp
              (Machine.set_cpu (CPU.set_A 0x80 (Machine.cpu demoMachine))
                 demoMachine)
  = Some 0xA4.
Proof. vm_compute. reflexivity. Qed.

(** ** Branches *)

Section Branches.
Context {M A : Type} `{Mapper.ops M} `{APU.ops A}.
Import Machine.

(** The branch lambda: 2 cycles when not taken; when taken 3 cycles, and 4
    when the target is on another page than the address that follows the
    operand. *)
Lemma branch_spec (cond : bool) (s s1 : Machine.state M A) (b : Z) :
  let next := u16 (CPU.PC (cpu s) + 1) in
  let target := u16 (next + s8 b) in
  Bus.cpuRead (CPU.PC (cpu s)) (set_cpu (CPU.set_PC next (cpu s)) s)
  = Some (b, s1) ->
  CPUImpl.branch cond s
  = Some (if cond then (if page next =? page target then 3 else 4) else 2,
          if cond then set_cpu (CPU.set_PC target (cpu s1)) s1 else s1).
Proof.
  intros next target Hrd.
  unfold CPUImpl.branch, CPUImpl.fetch8, CPUImpl.bind, CPUImpl.reg,
    CPUImpl.upd, CPUImpl.rd, CPUImpl.ret.
  fold next. rewrite Hrd.
  apply cpuRead_frame in Hrd as (Hc & _). simpl in Hc.
  destruct cond; [|reflexivity]. rewrite Hc. simpl. fold target.
  unfold page. destruct (Z.land next 65280 =? Z.land target 65280); reflexivity.
Qed.

(** The eight branch opcodes call the lambda on their flag. *)
Lemma branch_opcodes (s : Machine.state M A) :
  let f k := CPU.getf k (cpu s) in
  CPUImpl.exec 0x90 s = CPUImpl.branch (negb (f CPU.flagC)) s /\
  CPUImpl.exec 0xB0 s = CPUImpl.branch (f CPU.flagC) s /\
  CPUImpl.exec 0xF0 s = CPUImpl.branch (f CPU.flagZ) s /\
  CPUImpl.exec 0x30 s = CPUImpl.branch (f CPU.flagN) s /\
  CPUImpl.exec 0xD0 s = CPUImpl.branch (negb (f CPU.flagZ)) s /\
  CPUImpl.exec 0x10 s = CPUImpl.branch (negb (f CPU.flagN)) s /\
  CPUImpl.exec 0x50 s = CPUImpl.branch (negb (f CPU.flagV)) s /\
  CPUImpl.exec 0x70 s = CPUImpl.branch (f CPU.flagV) s.
Proof. repeat split; reflexivity. Qed.

(** C6, as the code has it: BEQ (opcode $F0, already fetched, PC at its
    operand [b]) with Z set costs 3 cycles and leaves PC at the target
    [next + (int8_t)b], where [next] is the address after the operand; it
    costs 4 only when the target is on another page than [next]. *)
Theorem beq_taken_cycles (s s1 : Machine.state M A) (b : Z) :
  let next := u16 (CPU.PC (cpu s) + 1) in
  let target := u16 (next + s8 b) in
  CPU.getf CPU.flagZ (cpu s) = true ->
  Bus.cpuRead (CPU.PC (cpu s)) (set_cpu (CPU.set_PC next (cpu s)) s)
  = Some (b, s1) ->
  CPUImpl.exec 0xF0 s
  = Some (if page next =? page target then 3 else 4,
          set_cpu (CPU.set_PC target (cpu s1)) s1).
Proof.
  intros next target Hz Hrd.
  destruct (branch_opcodes s) as (_ & _ & -> & _).
  rewrite Hz. apply (branch_spec true s s1 b Hrd).
Qed.

(** A read of cartridge space returns the mapper's byte and changes
    nothing. *)
Lemma cpuRead_cart (a b : Z) (c : Cartridge.state M) (s : Machine.state M A) :
  0x4020 <= a -> cart s = Some c -> Cartridge.cpuRead c a = Some b ->
  Bus.cpuRead a s = Some (b, s).
Proof.
  intros Ha Hc Hb. unfold Bus.cpuRead.
  destruct (Z.ltb_spec a 8192); [lia|].
  destruct (Z.ltb_spec a 16384); [lia|].
  destruct (Z.eqb_spec a 16405); [lia|].
  destruct (Z.eqb_spec a 16406); [lia|].
  destruct (Z.eqb_spec a 16407); [lia|].
  destruct (Z.leb_spec a 16407); [lia|]. rewrite andb_false_r.
  destruct (Z.leb_spec 16416 a); [|lia].
  rewrite Hc, Hb. reflexivity.
Qed.
End Branches.

Lemma beq_taken_cycles_witness :
  let s := Machine.set_cpu (CPU.set_PC 0x80FF (Machine.cpu demoBranch))
             demoBranch in
  cyclesAndPC (CPUImpl.exec 0xF0 s) = Some (3, 0x8102).
Proof.
  intros s.
  rewrite (beq_taken_cycles s
             (Machine.set_cpu (CPU.set_PC 0x8100 (Machine.cpu s)) s) 0x02).
  - reflexivity.
  - reflexivity.
  - apply (cpuRead_cart _ _ demoCart);
      [vm_compute; discriminate | reflexivity | reflexivity].
Defined.

(** C6 as stated fails: the BEQ at $80FE with operand $02 and Z set takes
    3 cycles, not 4, and leaves PC at $8102, not $8104. *)
Lemma beq_at_80FE_is_three_cycles :
  cyclesAndPC (CPUImpl.step demoBranch) = Some (3, 0x8102) /\
  cyclesAndPC (CPUImpl.step demoBranch) <> Some (4, 0x8104).
Proof. vm_compute. split; [reflexivity | discriminate]. Qed.

(** ** PPUDATA *)

Section PpuData.
Context {M : Type} `{Mapper.ops M}.

Lemma land_3FFF_range (x : Z) : 0 <= Z.land x 0x3FFF < 0x4000.
Proof.
  change 0x3FFF with (Z.ones 14). rewrite Z.land_ones by lia.
  apply Z.mod_pos_bound. lia.
Qed.

(** A nametable address lands inside the 4 KiB of nametable RAM, whatever
    the mirroring code. *)
Lemma mapNT_range (a mir : Z) : 0 <= PPU.mapNT a mir < 4096.
Proof.
  unfold PPU.mapNT.
  assert (Hnt : 0 <= Z.land (a - 0x2000) 0x0FFF < 4096).
  { change 0x0FFF with (Z.ones 12). rewrite Z.land_ones by lia.
    apply Z.mod_pos_bound. lia. }
  set (nt := Z.land (a - 0x2000) 0x0FFF) in *.
  assert (Htab : 0 <= Z.shiftr nt 10 < 4) by (apply shiftr10_range; lia).
  assert (Hoff : 0 <= Z.land nt 0x03FF < 1024).
  { change 0x03FF with (Z.ones 10). rewrite Z.land_ones by lia.
    apply Z.mod_pos_bound. lia. }
  repeat match goal with
    | |- context [if ?b then _ else _] => destruct b
    end; lia.
Qed.

Lemma paletteIndex_range (addr : Z) : 0 <= PPU.paletteIndex addr < 32.
Proof.
  unfold PPU.paletteIndex.
  assert (Hp : 0 <= Z.land (addr - 0x3F00) 0x1F < 32).
  { change 0x1F with (Z.ones 5). rewrite Z.land_ones by lia.
    apply Z.mod_pos_bound. lia. }
  set (q := Z.land (addr - 0x3F00) 0x1F) in *.
  assert (Hall : ((q <? 32) && (0 <=? clear_bits q 0x10)
                  && (clear_bits q 0x10 <? 32) || (32 <=? q)) = true).
  { apply (forall_u8 (fun q => (q <? 32) && (0 <=? clear_bits q 0x10)
                              && (clear_bits q 0x10 <? 32) || (32 <=? q)));
      [vm_compute; reflexivity | lia]. }
  destruct (Z.land q 19 =? 16); [|lia].
  destruct (Z.ltb_spec q 32); [|lia]. destruct (Z.leb_spec 32 q); [lia|].
  rewrite orb_false_r in Hall. cbn [andb] in Hall.
  apply andb_prop in Hall as [Hlo Hhi].
  apply Z.leb_le in Hlo. apply Z.ltb_lt in Hhi. lia.
Qed.

(** With a cartridge attached, PPU memory from $2000 up (nametables and
    palette) can always be read. *)
Lemma ppuRead_total (c : Cartridge.state M) (p : PPU.state) (addr : Z) :
  PPU.wf p -> 0x2000 <= Z.land addr 0x3FFF ->
  is_Some (PPU.ppuRead (Some c) p addr).
Proof.
  intros (Hvram & _ & _ & Hpal & _) Ha. unfold PPU.ppuRead.
  pose proof (land_3FFF_range addr) as Hr.
  assert (Hm : exists m, PPU.mirroringOf (Some c) = Some m).
  { simpl. destruct (Cartridge.mapper c); eauto. }
  destruct Hm as [m ->]. rewrite bind_Some.
  destruct (Z.ltb_spec (Z.land addr 16383) 8192); [lia|].
  destruct (Z.ltb_spec (Z.land addr 16383) 16128).
  - apply rd_at_is_Some. pose proof (mapNT_range (Z.land addr 16383) m). lia.
  - destruct (Z.ltb_spec (Z.land addr 16383) 16384); [|lia].
    pose proof (paletteIndex_range (Z.land addr 16383)) as Hi.
    destruct (rd_at_is_Some (PPU.palette p)
                (PPU.paletteIndex (Z.land addr 16383))) as [e ->]; [lia|].
    simpl. eauto.
Qed.

(** C1, as the code has it: a read of $2007 refills the read buffer with
    the byte [b] that PPU memory holds at [v]; it returns the previous
    buffer, except when [v & $3FFF >= $3F00], where it returns [b] itself,
    and [b] is then the palette entry under [v] masked to six bits, so the
    buffer holds that palette byte too.  In every case [v] advances by 1
    or by 32 (PPUCTRL bit 2), modulo $8000. *)
Theorem ppudata_read (c : option (Cartridge.state M)) (p : PPU.state) (b : Z) :
  PPU.ppuRead c p (PPU.v p) = Some b ->
  let inPalette := 0x3F00 <=? Z.land (PPU.v p) 0x3FFF in
  let inc := if bit_set (PPU.PPUCTRL p) 0x04 then 32 else 1 in
  PPU.cpuReadRegister c p 0x2007
  = Some (if inPalette then b else PPU.vramReadBuffer p,
          PPU.set_v ((PPU.v p + inc) mod 0x8000) (PPU.set_vramReadBuffer b p))
  /\ (inPalette = true ->
      exists e, rd_at (PPU.palette p)
                  (PPU.paletteIndex (Z.land (PPU.v p) 0x3FFF)) = Some e
                /\ b = Z.land e 0x3F).
Proof.
  intros Hrd inPalette inc. split.
  - unfold PPU.cpuReadRegister. simpl. rewrite Hrd. simpl.
    fold inPalette. unfold PPU.incrementVRAMAddr. simpl. fold inc.
    change 32767 with (Z.ones 15). rewrite Z.land_ones by lia.
    rewrite u16_small; [reflexivity|].
    pose proof (Z.mod_pos_bound (PPU.v p + inc) (2 ^ 15)). lia.
  - intros Hpal. subst inPalette. apply Z.leb_le in Hpal.
    pose proof (land_3FFF_range (PPU.v p)) as Hr.
    unfold PPU.ppuRead in Hrd.
    destruct (PPU.mirroringOf c) as [m|]; [|discriminate]. simpl in Hrd.
    destruct (Z.ltb_spec (Z.land (PPU.v p) 16383) 8192); [lia|].
    destruct (Z.ltb_spec (Z.land (PPU.v p) 16383) 16128); [lia|].
    destruct (Z.ltb_spec (Z.land (PPU.v p) 16383) 16384); [|lia].
    destruct (rd_at (PPU.palette p) (PPU.paletteIndex (Z.land (PPU.v p) 16383)))
      as [e|]; [|discriminate].
    injection Hrd as <-. exists e. split; reflexivity.
Qed.
End PpuData.

Lemma ppudata_read_witness :
  byteAndBuffer (PPU.cpuReadRegister (Some demoCart) demoPalette 0x2007)
  = Some (0x15, 0x15).
Proof.
  destruct (ppudata_read (Some demoCart) demoPalette 0x15) as [-> _];
    reflexivity.
Defined.

(** C1 as stated fails: at v = $3F00 the read returns the palette byte $15
    and leaves $15 in the read buffer, while the nametable byte at the
    mirror address v - $1000 = $2F00 is $77. *)
Lemma ppudata_buffer_is_not_nametable_byte :
  byteAndBuffer (PPU.cpuReadRegister (Some demoCart) demoPalette 0x2007)
  = Some (0x15, 0x15) /\
  PPU.ppuRead (Some demoCart) demoPalette (PPU.v demoPalette - 0x1000)
  = Some 0x77.
Proof. vm_compute. split; reflexivity. Qed.

(** ** Sprite evaluation *)

(** C3 at a line with exactly eight sprites on it and the overflow flag
    clear: the evaluation selects the eight and sets the overflow flag
    (PPUSTATUS bit 5), through [found >= 8]. *)
Theorem overflow_set_with_exactly_eight_sprites :
  spritesOnLine demoSprites = 8%nat /\
  bit_set (PPU.PPUSTATUS demoSprites) 0x20 = false /\
  countAndOverflow (PPU.evaluateSpritesWindow demoSprites) = Some (8, true).
Proof. vm_compute. repeat split; reflexivity. Qed.

(** *** The selection loop in general *)

Lemma forM_cons {S : Type} (i : Z) (l : list Z) (body : S -> Z -> option S)
      (s : S) :
  forM (i :: l) body s = s' ← body s i; forM l body s'.
Proof.
  change (i :: l) with ([i] ++ l). rewrite forM_app. reflexivity.
Qed.

Lemma memcpy4_total (dst src : list Z) (d s : Z) :
  0 <= d -> d + 3 < Z.of_nat (length dst) ->
  0 <= s -> s + 3 < Z.of_nat (length src) ->
  exists r, PPU.memcpy4 dst d src s = Some r /\ length r = length dst.
Proof.
  intros Hd Hd' Hs Hs'. unfold PPU.memcpy4.
  destruct (rd_at_is_Some src s) as [b0 ->]; [lia|].
  destruct (rd_at_is_Some src (s + 1)) as [b1 ->]; [lia|].
  destruct (rd_at_is_Some src (s + 2)) as [b2 ->]; [lia|].
  destruct (rd_at_is_Some src (s + 3)) as [b3 ->]; [lia|]. simpl.
  destruct (wr_at_is_Some dst d b0) as [r0 H0]; [lia|].
  rewrite H0. simpl. pose proof (wr_at_length _ _ _ _ H0) as L0.
  destruct (wr_at_is_Some r0 (d + 1) b1) as [r1 H1]; [lia|].
  rewrite H1. simpl. pose proof (wr_at_length _ _ _ _ H1) as L1.
  destruct (wr_at_is_Some r1 (d + 2) b2) as [r2 H2]; [lia|].
  rewrite H2. simpl. pose proof (wr_at_length _ _ _ _ H2) as L2.
  destruct (wr_at_is_Some r2 (d + 3) b3) as [r3 H3]; [lia|].
  rewrite H3. pose proof (wr_at_length _ _ _ _ H3) as L3.
  exists r3. split; [reflexivity | congruence].
Qed.

(** One entry: selected when fewer than eight are found so far and the
    entry is on the line. *)
Lemma evaluateSprite_step (p : PPU.state) (sprH i : Z) (sec : list Z)
      (found : Z) :
  length (PPU.oam p) = 256%nat -> length sec = 32%nat ->
  0 <= i < 64 -> 0 <= found <= 8 ->
  exists sec',
    PPU.evaluateSprite p sprH (sec, found) i
    = Some (sec', if (found <? 8) && onLine p sprH i then found + 1 else found)
    /\ length sec' = 32%nat.
Proof.
  intros Hoam Hsec Hi Hfound. unfold PPU.evaluateSprite, onLine.
  replace (i * 4 + 0) with (i * 4) by lia.
  destruct (rd_at_is_Some (PPU.oam p) (i * 4)) as [y ->]; [lia|].
  destruct (Z.ltb_spec found 8); [|exists sec; split; [reflexivity|exact Hsec]].
  rewrite bind_Some. cbn [andb].
  destruct (PPU.spriteOnLine (PPU.scanline p) sprH y);
    [|exists sec; split; [reflexivity|exact Hsec]].
  destruct (memcpy4_total sec (PPU.oam p) (found * 4) (i * 4))
    as (r & -> & Hr); [lia..|].
  exists r. split; [reflexivity | congruence].
Qed.

(** The loop over OAM entries [l]: it returns, and it has found
    [min 8 (found + the entries of l on the line)] sprites. *)
Lemma evaluate_loop (p : PPU.state) (sprH : Z) (l : list Z) (sec : list Z)
      (found : Z) :
  length (PPU.oam p) = 256%nat -> length sec = 32%nat ->
  Forall (fun i => 0 <= i < 64) l -> 0 <= found <= 8 ->
  exists sec',
    forM l (PPU.evaluateSprite p sprH) (sec, found)
    = Some (sec', Z.min 8 (found + Z.of_nat (length (List.filter (onLine p sprH) l))))
    /\ length sec' = 32%nat.
Proof.
  intros Hoam. revert sec found.
  induction l as [|i l IH]; intros sec found Hsec Hall Hfound.
  - exists sec. split; [|exact Hsec]. cbn [List.filter length].
    unfold forM. cbn [fold_left]. do 2 f_equal. lia.
  - inversion Hall as [|? ? Hi Hrest]; subst. rewrite forM_cons.
    destruct (evaluateSprite_step p sprH i sec found Hoam Hsec Hi Hfound)
      as (sec1 & -> & Hsec1).
    rewrite bind_Some.
    destruct (IH sec1 (if (found <? 8) && onLine p sprH i then found + 1
                       else found) Hsec1 Hrest) as (sec' & -> & Hlen).
    { destruct ((found <? 8) && onLine p sprH i) eqn:Hc; [|lia].
      apply andb_prop in Hc as [Hc _]. apply Z.ltb_lt in Hc. lia. }
    exists sec'. split; [|exact Hlen]. do 2 f_equal. cbn [List.filter].
    destruct (Z.ltb_spec found 8); destruct (onLine p sprH i);
      cbn [andb length]; lia.
Qed.

Lemma upto_range (n : Z) : Forall (fun i => 0 <= i < n) (upto n).
Proof.
  apply Forall_forall. intros i Hi. unfold upto in Hi.
  apply list_elem_of_In, in_map_iff in Hi as (k & <- & Hk).
  apply in_seq in Hk. lia.
Qed.

Lemma bit_set_lor_same (x mask : Z) :
  mask <> 0 -> bit_set (Z.lor x mask) mask = true.
Proof.
  intros Hm. unfold bit_set. rewrite Z.land_lor_distr_l, Z.land_diag.
  destruct (Z.eqb_spec (Z.lor (Z.land x mask) mask) 0) as [Hz|]; [|reflexivity].
  apply Z.lor_eq_0_iff in Hz. tauto.
Qed.

(** [evaluateSpritesWindow] on a visible line, for every PPU: it returns,
    with [secCount] the number of sprites on the line capped at 8, and the
    overflow flag is set as soon as eight sprites are on the line;
    otherwise PPUSTATUS is untouched. *)
Lemma evaluateSpritesWindow_spec (p : PPU.state) :
  length (PPU.oam p) = 256%nat -> length (PPU.secOAM p) = 32%nat ->
  0 <= PPU.scanline p < 240 ->
  exists p',
    PPU.evaluateSpritesWindow p = Some p' /\
    PPU.secCount p' = Z.min 8 (Z.of_nat (spritesOnLine p)) /\
    PPU.PPUSTATUS p'
    = (if 8 <=? Z.of_nat (spritesOnLine p)
       then Z.lor (PPU.PPUSTATUS p) 0x20 else PPU.PPUSTATUS p).
Proof.
  intros Hoam Hsec Hline. unfold PPU.evaluateSpritesWindow, PPU.HEIGHT.
  destruct (Z.ltb_spec (PPU.scanline p) 0); [lia|].
  destruct (Z.leb_spec 240 (PPU.scanline p)); [lia|]. cbn [orb].
  set (p1 := if PPU.secCount p =? 0
             then PPU.set_secOAM (memset (PPU.secOAM p) 255) p else p).
  assert (H1 : PPU.oam p1 = PPU.oam p /\ PPU.scanline p1 = PPU.scanline p /\
               PPU.PPUCTRL p1 = PPU.PPUCTRL p /\
               PPU.PPUSTATUS p1 = PPU.PPUSTATUS p /\
               length (PPU.secOAM p1) = 32%nat).
  { subst p1. destruct (PPU.secCount p =? 0); simpl; repeat split;
      try assumption. unfold memset. rewrite repeat_length. exact Hsec. }
  destruct H1 as (Ho & Hs & Hc & Hst & Hl).
  destruct (evaluate_loop p1 (if bit_set (PPU.PPUCTRL p1) 32 then 16 else 8)
              (upto 64) (PPU.secOAM p1) 0) as (sec' & Hrun & Hlen);
    [congruence | exact Hl | apply upto_range | lia |].
  rewrite Hrun, bind_Some. cbv beta iota.
  assert (Hcount : length (List.filter
                     (onLine p1 (if bit_set (PPU.PPUCTRL p1) 32 then 16 else 8))
                     (upto 64)) = spritesOnLine p).
  { unfold spritesOnLine, onLine. rewrite Ho, Hs, Hc. reflexivity. }
  rewrite Hcount.
  destruct (Z.leb_spec 8 (Z.min 8 (0 + Z.of_nat (spritesOnLine p))));
    destruct (Z.leb_spec 8 (Z.of_nat (spritesOnLine p))); try lia;
    eexists; (split; [reflexivity|]); simpl; rewrite ?Hst;
    (split; [lia | reflexivity]).
Qed.

(** ** The PPU tick on the vblank lines *)

(** Case analysis on code in the [option] monad that returned. *)
Ltac returned H :=
  repeat
    match type of H with
    | (if ?b then _ else _) = Some _ => destruct b
    | (match ?o with Some _ => _ | None => _ end) = Some _ =>
        let E := fresh "E" in destruct o eqn:E; [|discriminate H]
    | (mbind _ ?o) = Some _ =>
        let E := fresh "E" in destruct o eqn:E; simpl in H; [|discriminate H]
    | (let '(_, _) := ?x in _) = Some _ => destruct x
    | None = Some _ => discriminate H
    end.

Section TickFrame.
Context {M : Type} `{Mapper.ops M}.

Lemma tickPixel_vblank (p : PPU.state) :
  240 <= PPU.scanline p -> PPU.tickPixel p = Some p.
Proof.
  intros Hl. unfold PPU.tickPixel, PPU.HEIGHT.
  destruct (Z.ltb_spec (PPU.scanline p) 240); [lia|].
  rewrite andb_false_r. reflexivity.
Qed.

Lemma tickReload_regs (p : PPU.state) : nmiRegs (PPU.tickReload p) = nmiRegs p.
Proof.
  unfold PPU.tickReload.
  destruct (PPU.renderingEnabled p && (PPU.dot p =? 1)); reflexivity.
Qed.

Lemma tickFetch_regs (c : option (Cartridge.state M)) (p p' : PPU.state) :
  PPU.tickFetch c p = Some p' -> nmiRegs p' = nmiRegs p.
Proof.
  unfold PPU.tickFetch. intros Hf.
  destruct (PPU.renderingEnabled p &&
            ((1 <=? PPU.dot p) && (PPU.dot p <=? 256)
             || (321 <=? PPU.dot p) && (PPU.dot p <=? 340)));
    [|injection Hf as <-; reflexivity].
  simpl in Hf. returned Hf; simpl in Hf; returned Hf;
    try (injection Hf as <-; reflexivity);
    injection Hf as <-; destruct (PPU.dot p <=? 256); reflexivity.
Qed.

Lemma tickSprites_vblank (c : option (Cartridge.state M)) (p : PPU.state) :
  240 <= PPU.scanline p -> PPU.tickSprites c p = Some p.
Proof.
  intros Hl. unfold PPU.tickSprites, PPU.HEIGHT.
  destruct (Z.ltb_spec (PPU.scanline p) 240); [lia|].
  rewrite andb_false_r. reflexivity.
Qed.

Lemma tickScanlineHook_vblank (c : option (Cartridge.state M)) (p : PPU.state) :
  240 <= PPU.scanline p -> PPU.tickScanlineHook c p = c.
Proof.
  intros Hl. unfold PPU.tickScanlineHook, PPU.HEIGHT.
  destruct (Z.ltb_spec (PPU.scanline p) 240); [lia|].
  rewrite andb_false_r. reflexivity.
Qed.

Lemma tickCopies_regs (p : PPU.state) : nmiRegs (PPU.tickCopies p) = nmiRegs p.
Proof.
  unfold PPU.tickCopies.
  destruct (PPU.renderingEnabled p && (PPU.dot p =? 257)); simpl;
    match goal with
    | |- context [if ?b then _ else _] => destruct b
    end; reflexivity.
Qed.

Lemma oddFrameSkip_vblank (p : PPU.state) :
  PPU.scanline p <> 261 -> PPU.oddFrameSkip p = false.
Proof.
  intros Hl. unfold PPU.oddFrameSkip.
  destruct (Z.eqb_spec (PPU.scanline p) 261); [lia|reflexivity].
Qed.

Lemma endScanline_vblank (p : PPU.state) :
  240 <= PPU.scanline p -> PPU.endScanline p = Some p.
Proof.
  intros Hl. unfold PPU.endScanline, PPU.HEIGHT.
  destruct (Z.ltb_spec (PPU.scanline p) 240); [lia|].
  rewrite andb_false_r. reflexivity.
Qed.

(** The end of the tick on lines 241..260: the dot advances; vblank is
    entered at (241, 1), and left when line 260 wraps to 261. *)
Lemma tickAdvance_vblank (p p' : PPU.state) :
  241 <= PPU.scanline p <= 260 -> 0 <= PPU.dot p <= 340 ->
  PPU.tickAdvance p = Some p' ->
  PPU.PPUCTRL p' = PPU.PPUCTRL p /\
  if PPU.dot p <? 340 then
    PPU.scanline p' = PPU.scanline p /\ PPU.dot p' = PPU.dot p + 1 /\
    PPU.nmi_occurred p'
    = (if (PPU.scanline p =? 241) && (PPU.dot p =? 0) then true
       else PPU.nmi_occurred p)
  else
    PPU.scanline p' = PPU.scanline p + 1 /\ PPU.dot p' = 0 /\
    PPU.nmi_occurred p'
    = (if PPU.scanline p =? 260 then false else PPU.nmi_occurred p).
Proof.
  intros Hl Hd. unfold PPU.tickAdvance.
  rewrite sint_small by (unfold INT_MAX; lia). simpl.
  destruct (Z.ltb_spec (PPU.dot p) 340) as [Hlt|Hge].
  - destruct (Z.eqb_spec (PPU.scanline p) 241) as [Hs|Hs];
      destruct (Z.eqb_spec (PPU.dot p + 1) 1) as [Hone|Hone]; simpl;
      (destruct (Z.ltb_spec 340 (PPU.dot p + 1)); [lia|]);
      intros Hr; injection Hr as <-; simpl;
      destruct (Z.eqb_spec (PPU.dot p) 0); try lia; auto.
  - assert (Hdot : PPU.dot p = 340) by lia.
    rewrite Hdot. simpl. rewrite andb_false_r.
    rewrite endScanline_vblank by (simpl; lia). simpl.
    rewrite sint_small by (unfold INT_MAX; lia). simpl.
    destruct (Z.ltb_spec 261 (PPU.scanline p + 1)); [lia|].
    intros Hr. injection Hr as <-. unfold PPU.startScanline. simpl.
    destruct (Z.eqb_spec (PPU.scanline p + 1) 261);
      destruct (Z.eqb_spec (PPU.scanline p) 260); try lia; simpl; auto.
Qed.

(** One tick on lines 241..260. *)
Lemma tick_vblank (c c' : option (Cartridge.state M)) (p p' : PPU.state) :
  241 <= PPU.scanline p <= 260 -> 0 <= PPU.dot p <= 340 ->
  PPU.tick c p = Some (c', p') ->
  PPU.PPUCTRL p' = PPU.PPUCTRL p /\
  if PPU.dot p <? 340 then
    PPU.scanline p' = PPU.scanline p /\ PPU.dot p' = PPU.dot p + 1 /\
    PPU.nmi_occurred p'
    = (if (PPU.scanline p =? 241) && (PPU.dot p =? 0) then true
       else PPU.nmi_occurred p)
  else
    PPU.scanline p' = PPU.scanline p + 1 /\ PPU.dot p' = 0 /\
    PPU.nmi_occurred p'
    = (if PPU.scanline p =? 260 then false else PPU.nmi_occurred p).
Proof.
  intros Hl Hd. unfold PPU.tick.
  rewrite tickPixel_vblank by (simpl; lia). simpl.
  set (p1 := PPU.tickReload (PPU.set_a12ThisDot false p)).
  assert (H1 : nmiRegs p1 = nmiRegs p)
    by (subst p1; rewrite tickReload_regs; reflexivity).
  destruct (PPU.tickFetch c p1) as [p2|] eqn:Hf; [|discriminate]. simpl.
  assert (H2 : nmiRegs p2 = nmiRegs p).
  { rewrite (tickFetch_regs _ _ _ Hf). exact H1. }
  assert (Hl2 : PPU.scanline p2 = PPU.scanline p) by (injection H2; auto).
  rewrite tickScanlineHook_vblank by lia.
  rewrite tickSprites_vblank by lia. simpl.
  pose proof (tickCopies_regs p2) as H3. rewrite H2 in H3.
  injection H3 as Hs3 Hd3 Hc3 Ho3.
  rewrite oddFrameSkip_vblank by lia.
  destruct (PPU.tickAdvance (PPU.tickCopies p2)) as [p3|] eqn:Ha; [|discriminate].
  simpl. intros Hr. injection Hr as _ <-.
  apply tickAdvance_vblank in Ha; [|lia|lia].
  rewrite Hs3, Hd3, Hc3, Ho3 in Ha. exact Ha.
Qed.
End TickFrame.

(** ** The NMI edge detector *)

Section NmiEdges.
Context {M A : Type} `{Mapper.ops M} `{APU.ops A}.
Import Machine.

(** One iteration of the PPU loop: [cpu->nmi()] is called exactly when the
    level sampled after the tick is high and the previous sample was low;
    the sample is remembered, and nothing else of the CPU changes. *)
Lemma ppuDot_spec (fd fd' post : bool) (s s' : Machine.state M A) :
  NES.ppuDot fd s = Some (post, fd', s') ->
  exists c p,
    PPU.tick (cart s) (ppu s) = Some (c, p) /\ ppu s' = p /\
    post = (PPU.nmi_occurred p && PPU.nmi_output p) && negb (nmiLinePrev s) /\
    nmiLinePrev s' = PPU.nmi_occurred p && PPU.nmi_output p /\
    cpu s' = (if post then CPU.nmi (cpu s) else cpu s).
Proof.
  unfold NES.ppuDot. intros Hd.
  destruct (PPU.tick (cart s) (ppu s)) as [[c p]|]; [|discriminate].
  simpl in Hd. unfold NES.pollNMI, NES.nmiLevel in Hd. simpl in Hd.
  exists c, p. split; [reflexivity|].
  destruct ((PPU.nmi_occurred p && PPU.nmi_output p) && negb (nmiLinePrev s))
    eqn:Hpost; simpl in Hd; injection Hd as <- _ <-; simpl; auto.
Qed.

(** A read of $2000 or $2002: only a read of $2002 changes what the NMI
    logic sees, by clearing [nmi_occurred]. *)
Lemma read_ctrlOrStatus (a b : Z) (s s' : Machine.state M A) :
  ctrlOrStatus (Read a) -> Bus.cpuRead a s = Some (b, s') ->
  nmiLinePrev s' = nmiLinePrev s /\
  PPU.scanline (ppu s') = PPU.scanline (ppu s) /\
  PPU.dot (ppu s') = PPU.dot (ppu s) /\
  PPU.PPUCTRL (ppu s') = PPU.PPUCTRL (ppu s) /\
  PPU.nmi_occurred (ppu s')
  = (if Z.land a 7 =? 2 then false else PPU.nmi_occurred (ppu s)).
Proof.
  intros [Ha Hreg]. unfold Bus.cpuRead.
  destruct (Z.ltb_spec a 8192); [lia|]. destruct (Z.ltb_spec a 16384); [|lia].
  unfold PPU.cpuReadRegister.
  destruct Hreg as [-> | ->]; simpl; intros Hr; injection Hr as _ <-;
    simpl; auto.
Qed.

(** A write of $2000 or $2002: only a write of $2000 changes what the NMI
    logic sees, by replacing PPUCTRL. *)
Lemma write_ctrlOrStatus (a val : Z) (s s' : Machine.state M A) :
  ctrlOrStatus (Write a val) -> Bus.cpuWrite a val s = Some s' ->
  nmiLinePrev s' = nmiLinePrev s /\
  PPU.scanline (ppu s') = PPU.scanline (ppu s) /\
  PPU.dot (ppu s') = PPU.dot (ppu s) /\
  PPU.nmi_occurred (ppu s') = PPU.nmi_occurred (ppu s) /\
  PPU.PPUCTRL (ppu s')
  = (if Z.land a 7 =? 0 then val else PPU.PPUCTRL (ppu s)).
Proof.
  intros [Ha Hreg]. unfold Bus.cpuWrite.
  destruct (Z.ltb_spec a 8192); [lia|]. destruct (Z.ltb_spec a 16384); [|lia].
  unfold PPU.cpuWriteRegister.
  destruct Hreg as [-> | ->]; simpl; intros Hr; injection Hr as <-;
    simpl; auto.
Qed.

(** Bus accesses never call [cpu->nmi()]. *)
Lemma run_without_dots (es : list event) (s s' : Machine.state M A) (n : nat) :
  dots es = 0%nat -> runEvents es s = Some (n, s') -> n = 0%nat.
Proof.
  revert s n. induction es as [|e es IH]; intros s n Hd Hrun.
  - injection Hrun as <- _. reflexivity.
  - destruct e; [discriminate Hd| |]; simpl in Hd, Hrun.
    + destruct (Bus.cpuRead a s) as [[b s1]|]; [|discriminate]. simpl in Hrun.
      destruct (runEvents es s1) as [[n1 s2]|] eqn:Hrest; [|discriminate].
      injection Hrun as <- <-. apply (IH s1 n1 Hd Hrest).
    + destruct (Bus.cpuWrite a val s) as [s1|]; [|discriminate]. simpl in Hrun.
      destruct (runEvents es s1) as [[n1 s2]|] eqn:Hrest; [|discriminate].
      injection Hrun as <- <-. apply (IH s1 n1 Hd Hrest).
Qed.

(** Inside the vblank period, from (241, 1) on. *)
Lemma run_in_vblank (es : list event) (s s' : Machine.state M A) (n : nat) :
  onVBlankLines s -> 1 <= vblankPosition s ->
  Forall ctrlOrStatus es ->
  Z.of_nat (dots es) + vblankPosition s <= 6820 ->
  runEvents es s = Some (n, s') ->
  (n <= nmiDue s + nmiEnables (PPU.nmi_output (ppu s)) es)%nat.
Proof.
  revert s n. induction es as [|e es IH]; intros s n Hvb Hpos Hall Hbudget Hrun.
  - injection Hrun as <- _. lia.
  - inversion Hall as [|? ? He Hrest]; subst.
    destruct Hvb as [Hl Hd]. unfold vblankPosition, nmiDue, onVBlankLines in *.
    simpl in *.
    destruct e as [|a|a val]; simpl in Hrun.
    + destruct (NES.ppuDot false s) as [[[post fd] s1]|] eqn:Hdot;
        [|discriminate]. simpl in Hrun.
      destruct (runEvents es s1) as [[n1 s2]|] eqn:Hrun1; [|discriminate].
      injection Hrun as <- <-.
      apply ppuDot_spec in Hdot as (c & p & Htick & Hp & Hpost & Hprev & _).
      apply tick_vblank in Htick as [Hctrl Hmove]; [|lia|lia].
      assert (Hout : PPU.nmi_output p = PPU.nmi_output (ppu s))
        by (unfold PPU.nmi_output; rewrite Hctrl; reflexivity).
      destruct (Z.ltb_spec (PPU.dot (ppu s)) 340) as [Hlt|Hge].
      * destruct Hmove as (Hs' & Hd' & Ho').
        destruct (Z.eqb_spec (PPU.scanline (ppu s)) 241);
          destruct (Z.eqb_spec (PPU.dot (ppu s)) 0); simpl in Ho'; try lia;
          (specialize (IH s1 n1);
           rewrite Hp, Hs', Hd', Hprev, Ho', Hout in IH;
           specialize (IH ltac:(lia) ltac:(lia) Hrest ltac:(lia) Hrun1);
           rewrite Hpost, Ho', Hout;
           destruct (PPU.nmi_occurred (ppu s)), (PPU.nmi_output (ppu s)),
             (nmiLinePrev s), post; simpl in *; lia).
      * destruct Hmove as (Hs' & Hd' & Ho').
        destruct (Z.eqb_spec (PPU.scanline (ppu s)) 260) as [H260|H260].
        -- assert (Hnodots : dots es = 0%nat) by lia.
           rewrite (run_without_dots es s1 s2 n1 Hnodots Hrun1).
           rewrite Hpost, Ho'. simpl. lia.
        -- specialize (IH s1 n1).
           rewrite Hp, Hs', Hd', Hprev, Ho', Hout in IH.
           specialize (IH ltac:(lia) ltac:(lia) Hrest ltac:(lia) Hrun1).
           rewrite Hpost, Ho', Hout.
           destruct (PPU.nmi_occurred (ppu s)), (PPU.nmi_output (ppu s)),
             (nmiLinePrev s), post; simpl in *; lia.
    + destruct (Bus.cpuRead a s) as [[b s1]|] eqn:Hrd; [|discriminate].
      simpl in Hrun.
      destruct (runEvents es s1) as [[n1 s2]|] eqn:Hrun1; [|discriminate].
      injection Hrun as <- <-.
      apply (read_ctrlOrStatus a b s s1 He) in Hrd
        as (Hprev & Hs' & Hd' & Hctrl & Ho').
      assert (Hout : PPU.nmi_output (ppu s1) = PPU.nmi_output (ppu s))
        by (unfold PPU.nmi_output; rewrite Hctrl; reflexivity).
      specialize (IH s1 n1). rewrite Hs', Hd', Hprev, Ho', Hout in IH.
      specialize (IH ltac:(lia) ltac:(lia) Hrest ltac:(lia) Hrun1).
      destruct (Z.land a 7 =? 2), (PPU.nmi_occurred (ppu s)),
        (PPU.nmi_output (ppu s)), (nmiLinePrev s); simpl in *; lia.
    + destruct (Bus.cpuWrite a val s) as [s1|] eqn:Hwr; [|discriminate].
      simpl in Hrun.
      destruct (runEvents es s1) as [[n1 s2]|] eqn:Hrun1; [|discriminate].
      injection Hrun as <- <-.
      apply (write_ctrlOrStatus a val s s1 He) in Hwr
        as (Hprev & Hs' & Hd' & Ho' & Hctrl).
      specialize (IH s1 n1). rewrite Hs', Hd', Hprev, Ho' in IH.
      specialize (IH ltac:(lia) ltac:(lia) Hrest ltac:(lia) Hrun1).
      unfold PPU.nmi_output in *. rewrite Hctrl in IH.
      destruct (Z.land a 7 =? 0); simpl in *;
        destruct (bit_set val 128), (bit_set (PPU.PPUCTRL (ppu s)) 128),
          (PPU.nmi_occurred (ppu s)), (nmiLinePrev s); simpl in *; lia.
Qed.

(** From the last dot before vblank, (241, 0). *)
Lemma run_from_vblank_entry (es : list event) (s s' : Machine.state M A)
      (n : nat) :
  PPU.scanline (ppu s) = 241 -> PPU.dot (ppu s) = 0 ->
  Forall ctrlOrStatus es -> Z.of_nat (dots es) <= 6820 ->
  runEvents es s = Some (n, s') ->
  (n <= 1 + nmiEnables (PPU.nmi_output (ppu s)) es)%nat.
Proof.
  revert s n. induction es as [|e es IH]; intros s n Hl Hd Hall Hbudget Hrun.
  - injection Hrun as <- _. lia.
  - inversion Hall as [|? ? He Hrest]; subst.
    destruct e as [|a|a val]; simpl in Hrun, Hbudget.
    + destruct (NES.ppuDot false s) as [[[post fd] s1]|] eqn:Hdot;
        [|discriminate]. simpl in Hrun.
      destruct (runEvents es s1) as [[n1 s2]|] eqn:Hrun1; [|discriminate].
      injection Hrun as <- <-.
      apply ppuDot_spec in Hdot as (c & p & Htick & Hp & Hpost & Hprev & _).
      apply tick_vblank in Htick as [Hctrl Hmove]; [|lia|lia].
      rewrite Hl, Hd in Hmove. simpl in Hmove.
      destruct Hmove as (Hs' & Hd' & Ho').
      assert (Hout : PPU.nmi_output p = PPU.nmi_output (ppu s))
        by (unfold PPU.nmi_output; rewrite Hctrl; reflexivity).
      pose proof (run_in_vblank es s1 s2 n1) as Hin.
      unfold vblankPosition, nmiDue, onVBlankLines in Hin. simpl in Hin.
      rewrite Hp, Hs', Hd', Hprev, Ho', Hout in Hin.
      specialize (Hin ltac:(lia) ltac:(lia) Hrest ltac:(lia) Hrun1).
      simpl. destruct (PPU.nmi_output (ppu s)), post; simpl in *; lia.
    + destruct (Bus.cpuRead a s) as [[b s1]|] eqn:Hrd; [|discriminate].
      simpl in Hrun.
      destruct (runEvents es s1) as [[n1 s2]|] eqn:Hrun1; [|discriminate].
      injection Hrun as <- <-.
      apply (read_ctrlOrStatus a b s s1 He) in Hrd
        as (Hprev & Hs' & Hd' & Hctrl & Ho').
      specialize (IH s1 n1 ltac:(lia) ltac:(lia) Hrest Hbudget Hrun1).
      unfold PPU.nmi_output in *. rewrite Hctrl in IH. simpl. exact IH.
    + destruct (Bus.cpuWrite a val s) as [s1|] eqn:Hwr; [|discriminate].
      simpl in Hrun.
      destruct (runEvents es s1) as [[n1 s2]|] eqn:Hrun1; [|discriminate].
      injection Hrun as <- <-.
      apply (write_ctrlOrStatus a val s s1 He) in Hwr
        as (Hprev & Hs' & Hd' & Ho' & Hctrl).
      specialize (IH s1 n1 ltac:(lia) ltac:(lia) Hrest Hbudget Hrun1).
      unfold PPU.nmi_output in *. rewrite Hctrl in IH. simpl.
      destruct (Z.land a 7 =? 0); simpl in *;
        destruct (bit_set val 128), (bit_set (PPU.PPUCTRL (ppu s)) 128);
        simpl in *; lia.
Qed.

(** C8, as the code has it.  In every iteration of the PPU loop an NMI is
    posted exactly on a low-to-high transition of
    [nmi_occurred && nmi_output] between two samples.  Over a vblank
    period (the 6820 dots from (241, 0) to the wrap into the pre-render
    line), for every interleaving of PPU dots with CPU reads and writes of
    $2000 and $2002 that runs to its end, the number of NMIs posted is at
    most one plus the number of $2000 writes that turn bit 7 on from off;
    so at most one when no write re-enables NMI output. *)
Theorem nmi_edges_per_vblank (es : list event) (s s' : Machine.state M A)
        (n : nat) :
  PPU.scanline (ppu s) = 241 -> PPU.dot (ppu s) = 0 ->
  Forall ctrlOrStatus es -> Z.of_nat (dots es) <= 6820 ->
  runEvents es s = Some (n, s') ->
  (n <= 1 + nmiEnables (PPU.nmi_output (ppu s)) es)%nat /\
  (nmiEnables (PPU.nmi_output (ppu s)) es = 0%nat -> (n <= 1)%nat) /\
  (forall (fd fd' post : bool) (t t' : Machine.state M A),
     NES.ppuDot fd t = Some (post, fd', t') ->
     (post = true <-> nmiLinePrev t = false /\ NES.nmiLevel t' = true) /\
     nmiLinePrev t' = NES.nmiLevel t' /\
     cpu t' = (if post then CPU.nmi (cpu t) else cpu t)).
Proof.
  intros Hl Hd Hall Hbudget Hrun.
  pose proof (run_from_vblank_entry es s s' n Hl Hd Hall Hbudget Hrun) as Hn.
  split; [exact Hn|]. split; [lia|].
  intros fd fd' post t t' Hdot.
  apply ppuDot_spec in Hdot as (c & p & _ & Hp & Hpost & Hprev & Hcpu).
  unfold NES.nmiLevel. rewrite Hp, Hprev. split; [|split; auto].
  rewrite Hpost. destruct (PPU.nmi_occurred p && PPU.nmi_output p),
    (nmiLinePrev t); simpl; intuition congruence.
Qed.
End NmiEdges.

Lemma nmi_edges_per_vblank_witness :
  match runEvents [Dot; Read 0x2002; Dot; Write 0x2000 0x80; Dot] demoVBlank
  with
  | Some (n, _) => n = 1%nat /\ (n <= 1 + 0)%nat
  | None => False
  end.
Proof.
  assert (Hp : posted (runEvents [Dot; Read 0x2002; Dot; Write 0x2000 0x80; Dot]
                         demoVBlank) = Some 1%nat) by (vm_compute; reflexivity).
  remember (runEvents [Dot; Read 0x2002; Dot; Write 0x2000 0x80; Dot] demoVBlank)
    as r eqn:Hrun.
  destruct r as [[n s']|]; [|discriminate Hp].
  split; [injection Hp as ->; reflexivity|].
  assert (Hall : Forall ctrlOrStatus
                   [Dot; Read 0x2002; Dot; Write 0x2000 0x80; Dot])
    by (repeat constructor; simpl; lia).
  assert (Hdots : Z.of_nat (dots [Dot; Read 0x2002; Dot; Write 0x2000 0x80; Dot])
                  <= 6820) by (simpl; lia).
  destruct (nmi_edges_per_vblank
              [Dot; Read 0x2002; Dot; Write 0x2000 0x80; Dot] demoVBlank s' n
              eq_refl eq_refl Hall Hdots (eq_sym Hrun)) as (Hn & _).
  exact Hn.
Defined.

(** C8 as stated fails: inside one vblank, clearing and setting bit 7 of
    PPUCTRL while [nmi_occurred] is still set raises the line a second
    time, and a second NMI is posted. *)
Lemma two_nmi_edges_in_one_vblank :
  posted (runEvents [Dot; Write 0x2000 0x00; Dot; Write 0x2000 0x80; Dot]
            demoVBlank)
  = Some 2%nat.
Proof. vm_compute. reflexivity. Qed.
